(** * Finance-tracker backend: ledger, budget and report handlers

    A shallow embedding of the request handlers of the finance tracker
    (routes/transfers.js, the budgets router, routes/reports.js and the
    receipt routes) over a list-based model of the relational store,
    followed by the middleware, the transaction helper, the user model and
    the transaction routes.

    Conventions used throughout:
    - a JavaScript number that holds a finite value is an exact rational
      ([Q]); rounding of IEEE doubles is not modelled.  Where the source
      divides by a value that can be zero the result type [jsnum] adds
      [Infinity] and [NaN];
    - identifiers are integers ([Z]): the requests carry them as JSON
      numbers, so [===] between two of them is equality of integers; the
      express-validator rules ([isInt], [isFloat], ...) run before the
      handlers and are represented by the list of errors that
      [validationResult(req)] returns;
    - a table is the list of its rows, in storage order;
    - a date is the number of its day ([Z]), so that [BETWEEN] and
      [new Date(a) <= new Date(b)] are integer comparisons. *)

From Stdlib Require Import ZArith QArith Qabs Lqa Lia List String Bool Permutation Sorted.
From Stdlib Require Import Ascii.
Import ListNotations.
Local Open Scope Z_scope.

(* ================================================================== *)
(** ** Numbers *)

Definition Qltb (x y : Q) : bool := negb (Qle_bool y x).

Definition Qgtb (x y : Q) : bool := Qltb y x.

(** The result of a JavaScript division: a finite value, an infinity or
    [NaN]. *)
Inductive jsnum : Type :=
| Fin (q : Q)
| PosInfinity
| NegInfinity
| NaN.

(** [x / y] on finite operands. *)
Definition js_div (x y : Q) : jsnum :=
  if Qeq_bool y 0 then
    (if Qeq_bool x 0 then NaN
     else if Qltb 0 x then PosInfinity else NegInfinity)
  else Fin (x / y).

(** [v * k] for a finite positive constant [k]. *)
Definition js_scale (v : jsnum) (k : Q) : jsnum :=
  match v with
  | Fin q => Fin (q * k)
  | other => other
  end.

Definition is_finite (v : jsnum) : bool :=
  match v with Fin _ => true | _ => false end.

Definition Qsum (l : list Q) : Q := fold_right Qplus 0%Q l.

(* ================================================================== *)
(** ** Row operations of the queries *)

(** [ORDER BY]: a stable insertion sort for the order [leb]. *)
Fixpoint insert_by {A : Type} (leb : A -> A -> bool) (a : A) (l : list A) : list A :=
  match l with
  | [] => [a]
  | b :: t => if leb a b then a :: b :: t else b :: insert_by leb a t
  end.

Definition order_by {A : Type} (leb : A -> A -> bool) (l : list A) : list A :=
  fold_right (insert_by leb) [] l.

(** [GROUP BY]: the rows that share a key, one group per key. *)
Fixpoint add_to_group {R K : Type} (eqb : K -> K -> bool) (k : K) (r : R)
    (groups : list (K * list R)) : list (K * list R) :=
  match groups with
  | [] => [(k, [r])]
  | (k', rs) :: rest =>
      if eqb k k' then (k', r :: rs) :: rest
      else (k', rs) :: add_to_group eqb k r rest
  end.

(** [l JOIN r ON on]. *)
Definition join {A B : Type} (on : A -> B -> bool) (l : list A) (r : list B)
    : list (A * B) :=
  flat_map (fun a => map (pair a) (filter (on a) r)) l.

(** [l LEFT JOIN r ON on]: a row of [l] without a match is kept once, with
    nulls on the right. *)
Definition left_join {A B : Type} (on : A -> B -> bool) (l : list A) (r : list B)
    : list (A * option B) :=
  flat_map (fun a =>
              match filter (on a) r with
              | [] => [(a, None)]
              | matches => map (fun b => (a, Some b)) matches
              end) l.

(** [x BETWEEN lo AND hi]. *)
Definition between (x lo hi : Z) : bool := (lo <=? x) && (x <=? hi).

Definition group_by {R K : Type} (eqb : K -> K -> bool) (key : R -> K)
    (rows : list R) : list (K * list R) :=
  fold_right (fun r groups => add_to_group eqb (key r) r groups) [] rows.

(* ================================================================== *)
(** ** The relational store *)

Record account := {
  account_id : Z;
  account_user_id : Z;
  account_name : string;
  current_balance : Q;
  account_is_active : bool
}.

Record transfer := {
  transfer_id : Z;
  from_account_id : Z;
  to_account_id : Z;
  transfer_amount : Q;
  transfer_date : Z;
  transfer_description : string;
  fee_amount : Q;
  transfer_notes : option string
}.

Record category := {
  category_id : Z;
  category_name : string;
  category_type : string
}.

Record transaction := {
  transaction_id : Z;
  transaction_user_id : option Z;
  transaction_account_id : Z;
  transaction_category_id : Z;
  transaction_amount : Q;
  transaction_description : string;
  transaction_date : Z;
  transaction_type : string;
  transaction_receipt_id : option Z
}.

Record budget := {
  budget_id : Z;
  budget_user_id : Z;
  budget_name : string;
  start_date : Z;
  end_date : Z;
  total_budget : Q;
  budget_created_date : Z;
  budget_is_active : bool
}.

Record budget_category := {
  bc_budget_id : Z;
  bc_category_id : Z;
  allocated_amount : Q
}.

Record receipt := {
  receipt_id : Z;
  receipt_user_id : Z;
  transaction_created : bool
}.

Record database := {
  accounts : list account;
  transfers : list transfer;
  categories : list category;
  transactions : list transaction;
  budgets : list budget;
  budget_categories : list budget_category;
  receipts : list receipt
}.

Definition with_accounts (l : list account) (d : database) : database :=
  {| accounts := l; transfers := transfers d; categories := categories d;
     transactions := transactions d; budgets := budgets d;
     budget_categories := budget_categories d; receipts := receipts d |}.

Definition with_transfers (l : list transfer) (d : database) : database :=
  {| accounts := accounts d; transfers := l; categories := categories d;
     transactions := transactions d; budgets := budgets d;
     budget_categories := budget_categories d; receipts := receipts d |}.

Definition with_transactions (l : list transaction) (d : database) : database :=
  {| accounts := accounts d; transfers := transfers d; categories := categories d;
     transactions := l; budgets := budgets d;
     budget_categories := budget_categories d; receipts := receipts d |}.

Definition with_budgets (l : list budget) (d : database) : database :=
  {| accounts := accounts d; transfers := transfers d; categories := categories d;
     transactions := transactions d; budgets := l;
     budget_categories := budget_categories d; receipts := receipts d |}.

Definition with_budget_categories (l : list budget_category) (d : database) : database :=
  {| accounts := accounts d; transfers := transfers d; categories := categories d;
     transactions := transactions d; budgets := budgets d;
     budget_categories := l; receipts := receipts d |}.

Definition with_receipts (l : list receipt) (d : database) : database :=
  {| accounts := accounts d; transfers := transfers d; categories := categories d;
     transactions := transactions d; budgets := budgets d;
     budget_categories := budget_categories d; receipts := l |}.

(** The value a [SERIAL] column takes on the next insert: one more than the
    largest identifier in use. *)
Definition next_serial (ids : list Z) : Z :=
  1 + fold_right Z.max 0 ids.

(** The primary key of [accounts]. *)
Definition accounts_keyed (d : database) : Prop :=
  NoDup (map account_id (accounts d)).

(* ================================================================== *)
(** ** Statements on a pooled client

    A handler issues its statements one after the other on one client.
    Any statement may throw; [faults n] is the error that the [n]-th
    statement of the request throws, if it does.  [durable] is what is
    committed, [session] the view of an open transaction. *)

Record world := {
  durable : database;
  session : option database;
  executed : nat
}.

Definition current (w : world) : database :=
  match session w with
  | Some d => d
  | None => durable w
  end.

Definition tick (w : world) : world :=
  {| durable := durable w; session := session w; executed := S (executed w) |}.

Definition write (d : database) (w : world) : world :=
  match session w with
  | Some _ => {| durable := durable w; session := Some d; executed := executed w |}
  | None => {| durable := d; session := None; executed := executed w |}
  end.

(** What a statement or an expression can throw: an error of the database
    driver, which carries a code (the SQLSTATE, or the code of the
    connection failure), or a JavaScript [TypeError]. *)
Inductive error : Type :=
| DatabaseError (code message : string)
| TypeError (message : string).

Inductive result (A : Type) : Type :=
| Returned (a : A)
| Raised (e : error).
Arguments Returned {A} _.
Arguments Raised {A} _.

(** A computation that returns a value or throws. *)
Definition M (A : Type) : Type := world -> result A * world.

Definition ret {A : Type} (a : A) : M A := fun w => (Returned a, w).

Definition throw {A : Type} (e : error) : M A := fun w => (Raised e, w).

Definition bind {A B : Type} (m : M A) (k : A -> M B) : M B :=
  fun w =>
    match m w with
    | (Returned a, w') => k a w'
    | (Raised e, w') => (Raised e, w')
    end.

Declare Scope handler_scope.
Delimit Scope handler_scope with handler.
Notation "x <- m ;; k" := (bind m (fun x => k))
  (at level 61, m at next level, right associativity) : handler_scope.
Notation "m ;;; k" := (bind m (fun _ => k))
  (at level 61, right associativity) : handler_scope.

Section Statements.
Variable faults : nat -> option error.

(** [client.query(...)]: the statement reads and possibly writes the
    current view. *)
Definition query {A : Type} (f : database -> A * database) : M A :=
  fun w =>
    match faults (executed w) with
    | Some e => (Raised e, tick w)
    | None => let '(a, d) := f (current w) in (Returned a, write d (tick w))
    end.

Definition select {A : Type} (f : database -> A) : M A :=
  query (fun d => (f d, d)).

Definition set_session_variable : M unit := select (fun _ => tt).

Definition begin_ : M unit :=
  fun w =>
    match faults (executed w) with
    | Some e => (Raised e, tick w)
    | None => (Returned tt, {| durable := durable w; session := Some (current w);
                               executed := S (executed w) |})
    end.

Definition commit : M unit :=
  fun w =>
    match faults (executed w) with
    | Some e => (Raised e, tick w)
    | None => (Returned tt, {| durable := current w; session := None;
                               executed := S (executed w) |})
    end.
End Statements.

(** [ROLLBACK] in a [catch] block: the open transaction is dropped. *)
Definition rollback (w : world) : world :=
  {| durable := durable w; session := None; executed := S (executed w) |}.

Definition fresh (d : database) : world :=
  {| durable := d; session := None; executed := 0 |}.

Definition no_faults : nat -> option error := fun _ => None.

(* ================================================================== *)
(** ** Responses *)

Inductive message : Type :=
| Text (s : string)
| Insufficient_balance (available required : Q)
| Allocation_exceeds (allocated limit : Q).

Record response (D : Type) := {
  status : Z;
  success : bool;
  msg : option message;
  data : option D
}.
Arguments status {D} _.
Arguments success {D} _.
Arguments msg {D} _.
Arguments data {D} _.

Definition failure {D : Type} (code : Z) (m : message) : response D :=
  {| status := code; success := false; msg := Some m; data := None |}.

(** ** middleware/errorHandler.js

    The error middleware, outside development mode (no [error] and
    [request] details in the answer).  Of its tests only those on [err.code]
    apply to the errors above. *)
Definition errorHandler {D : Type} (err : error) : response D :=
  match err with
  | DatabaseError code message =>
      let '(message, statusCode) :=
        if String.eqb code "" then (message, 500)
        else if String.eqb code "23505" then
          ("Duplicate entry: This record already exists", 400)
        else if String.eqb code "23503" then
          ("Invalid reference: Referenced record not found", 400)
        else if String.eqb code "23514" then
          ("Invalid data: Data does not meet requirements", 400)
        else if String.eqb code "23502" then ("Missing required field", 400)
        else if String.eqb code "P0001" then (message, 400)
        else if String.eqb code "08003" then ("Database connection error", 503)
        else if String.eqb code "08006" then ("Database connection failure", 503)
        else if String.eqb code "42P01" then ("Database configuration error", 500)
        else ("Database operation failed", 500) in
      let '(message, statusCode) :=
        if String.eqb code "LIMIT_FILE_SIZE" then ("File size too large", 400)
        else (message, statusCode) in
      failure statusCode
        (Text (if String.eqb message "" then "Internal Server Error" else message))
  | TypeError message =>
      failure 500
        (Text (if String.eqb message "" then "Internal Server Error" else message))
  end%string.

(** [asyncHandler(fn)]: what the handler throws goes to the error
    middleware. *)
Definition asyncHandler {D : Type} (outcome : result (response D)) : response D :=
  match outcome with
  | Returned r => r
  | Raised e => errorHandler e
  end.

(* ================================================================== *)
(** ** routes/transfers.js *)

Module Transfers.

Record request := {
  user_id : Z;                      (* req.user.user_id *)
  validation_errors : list string;  (* validationResult(req) *)
  fromAccountId : Z;
  toUserId : Z;
  amount : Q;
  description : string;
  transferDate : option Z;
  notes : option string;
  feeAmount : option Q
}.

Record account_view := {
  view_id : Z;
  view_name : string;
  newBalance : Q
}.

Record created := {
  transferId : Z;
  created_amount : Q;
  created_feeAmount : Q;
  created_description : string;
  created_date : Z;
  created_notes : option string;
  fromAccount : account_view;
  toAccount : account_view;
  toAccount_owner : string
}.

(** [feeAmount = 0] in the destructuring of [req.body]. *)
Definition fee (req : request) : Q :=
  match feeAmount req with
  | Some f => f
  | None => 0%Q
  end.

(** [transferDate = new Date().toISOString().split('T')[0]]. *)
Definition date_of (today : Z) (req : request) : Z :=
  match transferDate req with
  | Some d => d
  | None => today
  end.

(** [parseFloat(amount) + parseFloat(feeAmount)]. *)
Definition totalDeduction (req : request) : Q := (amount req + fee req)%Q.

(** [ORDER BY account_id ASC]. *)
Definition order_by_account_id (l : list account) : list account :=
  order_by (fun a b => account_id a <=? account_id b) l.

(** [SELECT ... FROM finance.accounts WHERE account_id = $1]. *)
Definition select_from_account (req : request) (d : database) : list account :=
  filter (fun a => account_id a =? fromAccountId req) (accounts d).

(** [SELECT ... FROM finance.accounts WHERE user_id = $1
     ORDER BY account_id ASC LIMIT 1]. *)
Definition select_to_account (req : request) (d : database) : list account :=
  firstn 1 (order_by_account_id
              (filter (fun a => account_user_id a =? toUserId req) (accounts d))).

(** [SELECT ... FROM finance.accounts WHERE user_id = $1] (logged only). *)
Definition select_all_accounts (req : request) (d : database) : list account :=
  filter (fun a => account_user_id a =? toUserId req) (accounts d).

(** [SELECT current_balance FROM finance.accounts WHERE account_id = $1]. *)
Definition select_balance (id : Z) (d : database) : list Q :=
  map current_balance (filter (fun a => account_id a =? id) (accounts d)).

(** Modelled from the spec: [adjustBalance(id, delta)] of the account
    store, the only path that changes [current_balance]; the trigger below
    is written with it. *)
Definition adjustBalance (id : Z) (delta : Q) (l : list account) : list account :=
  map (fun a =>
         if account_id a =? id then
           {| account_id := account_id a;
              account_user_id := account_user_id a;
              account_name := account_name a;
              current_balance := (current_balance a + delta)%Q;
              account_is_active := account_is_active a |}
         else a) l.

(** Modelled from the spec: the trigger on [finance.transfers] that the
    handler relies on ("triggers will automatically update account
    balances") is part of the database schema, which is not among the
    sources.  The spec gives its effect: the source balance decreases by
    [amount + feeAmount], the destination balance increases by
    [amount]. *)
Definition balance_trigger (row : transfer) (d : database) : database :=
  with_accounts
    (adjustBalance (to_account_id row) (transfer_amount row)
       (adjustBalance (from_account_id row)
          (- (transfer_amount row + fee_amount row))%Q (accounts d)))
    d.

(** [INSERT INTO finance.transfers (...) VALUES ($1, ..., $7) RETURNING ...]. *)
Definition insert_transfer (today : Z) (req : request) (toAccountId : Z)
    (d : database) : transfer * database :=
  let row :=
    {| transfer_id := next_serial (map transfer_id (transfers d));
       from_account_id := fromAccountId req;
       to_account_id := toAccountId;
       transfer_amount := amount req;
       transfer_date := date_of today req;
       transfer_description := description req;
       fee_amount := fee req;
       transfer_notes := notes req |} in
  (row, balance_trigger row (with_transfers (transfers d ++ [row]) d)).

Definition self_transfer : message := Text "Cannot transfer money to yourself".
Definition source_not_found : message := Text "Source account not found".
Definition no_recipient_account : message := Text "Recipient has no active accounts".
Definition not_permitted : message :=
  Text "You do not have permission to transfer from this account".
Definition same_account : message :=
  Text "Source and destination accounts are the same".
Definition failed : message := Text "Failed to create transfer".

Local Open Scope handler_scope.

(** The body of the [try] block of [router.post('/')]. *)
Definition post (faults : nat -> option error) (today : Z) (req : request)
    : M (response created) :=
  begin_ faults ;;;
  set_session_variable faults ;;;
  set_session_variable faults ;;;
  let userId := user_id req in
  if userId =? toUserId req then
    ret (failure 400 self_transfer)
  else
    fromAccountResult <- select faults (select_from_account req) ;;
    toAccountResult <- select faults (select_to_account req) ;;
    allAccountsResult <- select faults (select_all_accounts req) ;;
    match fromAccountResult with
    | [] => ret (failure 404 source_not_found)
    | fromAccount :: _ =>
      match toAccountResult with
      | [] => ret (failure 404 no_recipient_account)
      | toAccount :: _ =>
        let toAccountId := account_id toAccount in
        if negb (account_user_id fromAccount =? userId) then
          ret (failure 403 not_permitted)
        else if Qltb (current_balance fromAccount) (totalDeduction req) then
          ret (failure 400
                 (Insufficient_balance (current_balance fromAccount)
                    (totalDeduction req)))
        else if fromAccountId req =? toAccountId then
          ret (failure 400 same_account)
        else
          newTransfer <- query faults (insert_transfer today req toAccountId) ;;
          commit faults ;;;
          fromBalanceResult <- select faults (select_balance (fromAccountId req)) ;;
          toBalanceResult <- select faults (select_balance toAccountId) ;;
          match fromBalanceResult, toBalanceResult with
          | fromBalance :: _, toBalance :: _ =>
              ret {| status := 201;
                     success := true;
                     msg := Some (Text "Transfer created successfully");
                     data := Some
                       {| transferId := transfer_id newTransfer;
                          created_amount := transfer_amount newTransfer;
                          created_feeAmount := fee_amount newTransfer;
                          created_description := transfer_description newTransfer;
                          created_date := transfer_date newTransfer;
                          created_notes := transfer_notes newTransfer;
                          fromAccount :=
                            {| view_id := fromAccountId req;
                               view_name := account_name fromAccount;
                               newBalance := fromBalance |};
                          toAccount :=
                            {| view_id := toAccountId;
                               view_name := account_name toAccount;
                               newBalance := toBalance |};
                          toAccount_owner := "undefined undefined" |} |}
          | _, _ =>
              throw (TypeError
                       "Cannot read properties of undefined (reading 'current_balance')")
          end
      end
    end.

(** [router.post('/')]: validation, the [try] block, and the [catch] block
    that rolls back (the [ROLLBACK] itself is taken not to throw) and
    answers 500.  The result is the response and the committed database. *)
Definition create_transfer (faults : nat -> option error) (today : Z) (req : request)
    (d : database) : response created * database :=
  match validation_errors req with
  | _ :: _ => (failure 400 (Text "Validation errors"), d)
  | [] =>
      match post faults today req (fresh d) with
      | (Returned r, w) => (r, durable w)
      | (Raised _, w) => (failure 500 failed, durable (rollback w))
      end
  end.

(** The answers that reject a request, each with the condition under
    which the handler gives it. *)
Inductive rejected (req : request) (d : database) : response created -> Prop :=
| rejected_validation :
    validation_errors req <> [] ->
    rejected req d (failure 400 (Text "Validation errors"))
| rejected_failed :
    rejected req d (failure 500 failed)
| rejected_self :
    user_id req = toUserId req ->
    rejected req d (failure 400 self_transfer)
| rejected_source :
    select_from_account req d = [] ->
    rejected req d (failure 404 source_not_found)
| rejected_recipient :
    select_to_account req d = [] ->
    rejected req d (failure 404 no_recipient_account)
| rejected_owner fromAccount rest :
    select_from_account req d = fromAccount :: rest ->
    account_user_id fromAccount <> user_id req ->
    rejected req d (failure 403 not_permitted)
| rejected_balance fromAccount rest :
    select_from_account req d = fromAccount :: rest ->
    (current_balance fromAccount < totalDeduction req)%Q ->
    rejected req d
      (failure 400 (Insufficient_balance (current_balance fromAccount)
                      (totalDeduction req)))
| rejected_same toAccount rest :
    select_to_account req d = toAccount :: rest ->
    fromAccountId req = account_id toAccount ->
    rejected req d (failure 400 same_account).

(** The conditions under which the handler reaches its [INSERT]. *)
Definition accepted (req : request) (d : database) (fromAccount toAccount : account)
    : Prop :=
  validation_errors req = []
  /\ user_id req <> toUserId req
  /\ hd_error (select_from_account req d) = Some fromAccount
  /\ hd_error (select_to_account req d) = Some toAccount
  /\ account_user_id fromAccount = user_id req
  /\ (totalDeduction req <= current_balance fromAccount)%Q
  /\ fromAccountId req <> account_id toAccount.

(** The store after the [INSERT] (and its trigger) to [toAccount]. *)
Definition recorded (today : Z) (req : request) (toAccount : account)
    (d : database) : database :=
  snd (insert_transfer today req (account_id toAccount) d).


(** The spec's wording of the destination: the recipient's
    earliest-created active account ([account_id] is a serial, so the
    earliest-created account is the one with the least identifier). *)
Definition earliest_active_account (uid : Z) (d : database) : option account :=
  hd_error (order_by_account_id
              (filter (fun a => (account_user_id a =? uid) && account_is_active a)
                 (accounts d))).

(** The destination the handler derives. *)
Definition derived_account (uid : Z) (d : database) : option account :=
  hd_error (order_by_account_id
              (filter (fun a => account_user_id a =? uid) (accounts d))).

Definition balance_of (id : Z) (d : database) : option Q :=
  hd_error (select_balance id d).

Definition total_balance (d : database) : Q :=
  fold_right (fun a s => (current_balance a + s)%Q) 0%Q (accounts d).

End Transfers.


(* ================================================================== *)
(** ** The budgets router *)

Module Budgets.

Record category_input := {
  categoryId : Z;
  allocatedAmount : Q
}.

Record create_request := {
  user_id : Z;                      (* req.user.user_id *)
  validation_errors : list string;  (* validationResult(req) *)
  budgetName : string;
  startDate : Z;
  endDate : Z;
  totalLimit : Q;
  req_categories : list category_input   (* req.body.categories *)
}.

Record created := {
  created_id : Z;
  created_name : string;
  created_startDate : Z;
  created_endDate : Z;
  created_totalLimit : Q;
  created_createdAt : Z;
  categoriesCount : nat
}.

(** [categories.reduce((sum, cat) => sum + parseFloat(cat.allocatedAmount), 0)]. *)
Definition totalAllocated (req : create_request) : Q :=
  match req_categories req with
  | [] => 0%Q
  | cats => fold_left (fun sum cat => (sum + allocatedAmount cat)%Q) cats 0%Q
  end.

Definition categoryIds (req : create_request) : list Z :=
  map categoryId (req_categories req).

(** [SELECT category_id FROM categories WHERE category_id = ANY($1)]. *)
Definition select_category_check (ids : list Z) (d : database) : list Z :=
  map category_id
    (filter (fun c => existsb (Z.eqb (category_id c)) ids) (categories d)).

(** Modelled from the spec: the stored function [create_budget] belongs to
    the database schema, which is not among the sources.  The spec gives its
    effect: it creates the Budget row (for the caller, with the given name,
    dates and limit) and yields its identifier. *)
Definition create_budget (today : Z) (req : create_request) (d : database)
    : Z * database :=
  let id := next_serial (map budget_id (budgets d)) in
  let row :=
    {| budget_id := id;
       budget_user_id := user_id req;
       budget_name := budgetName req;
       start_date := startDate req;
       end_date := endDate req;
       total_budget := totalLimit req;
       budget_created_date := today;
       budget_is_active := true |} in
  (id, with_budgets (budgets d ++ [row]) d).

(** [INSERT INTO budget_categories (budget_id, category_id, allocated_amount)]. *)
Definition insert_allocation (budgetId : Z) (cat : category_input) (d : database)
    : unit * database :=
  (tt, with_budget_categories
         (budget_categories d ++
            [{| bc_budget_id := budgetId;
                bc_category_id := categoryId cat;
                allocated_amount := allocatedAmount cat |}]) d).

(** [SELECT ... FROM budgets WHERE budget_id = $1]. *)
Definition select_created (budgetId : Z) (d : database) : list budget :=
  filter (fun b => budget_id b =? budgetId) (budgets d).

Local Open Scope handler_scope.

(** [for (const category of categoriesWithAllocations) await client.query(...)]. *)
Fixpoint insert_allocations (faults : nat -> option error) (budgetId : Z)
    (cats : list category_input) : M unit :=
  match cats with
  | [] => ret tt
  | cat :: rest =>
      query faults (insert_allocation budgetId cat) ;;;
      insert_allocations faults budgetId rest
  end.

Definition end_before_start : message := Text "End date must be after start date".
Definition categories_not_found : message := Text "One or more categories not found".

(** The statements after the category check: the budget row, its
    allocations, and the read-back for the response. *)
Definition store_budget (faults : nat -> option error) (today : Z) (req : create_request)
    : M (response created) :=
  budgetId <- query faults (create_budget today req) ;;
  let categoriesWithAllocations :=
    filter (fun cat => Qltb 0 (allocatedAmount cat)) (req_categories req) in
  insert_allocations faults budgetId categoriesWithAllocations ;;;
  createdBudget <- select faults (select_created budgetId) ;;
  match createdBudget with
  | row :: _ =>
      ret {| status := 201;
             success := true;
             msg := Some (Text "Budget created successfully");
             data := Some
               {| created_id := budget_id row;
                  created_name := budget_name row;
                  created_startDate := start_date row;
                  created_endDate := end_date row;
                  created_totalLimit := total_budget row;
                  created_createdAt := budget_created_date row;
                  categoriesCount := List.length (req_categories req) |} |}
  | [] => throw (TypeError
                  "Cannot read properties of undefined (reading 'budget_id')")
  end.

(** The body of the [try] block of [router.post('/')]. *)
Definition post (faults : nat -> option error) (today : Z) (req : create_request)
    : M (response created) :=
  set_session_variable faults ;;;
  set_session_variable faults ;;;
  match req_categories req with
  | [] => store_budget faults today req
  | _ :: _ =>
      categoryCheck <- select faults (select_category_check (categoryIds req)) ;;
      if negb (Nat.eqb (List.length categoryCheck) (List.length (categoryIds req))) then
        ret (failure 400 categories_not_found)
      else store_budget faults today req
  end.

(** [router.post('/')].  The statements are not wrapped in a transaction:
    each one that succeeds is committed.  The [catch] block logs the error
    and throws it again, so it is answered by the error middleware. *)
Definition create (faults : nat -> option error) (today : Z) (req : create_request)
    (d : database) : response created * database :=
  match validation_errors req with
  | _ :: _ => (failure 400 (Text "Validation errors"), d)
  | [] =>
      if endDate req <=? startDate req then
        (failure 400 end_before_start, d)
      else if Qltb (totalLimit req) (totalAllocated req) then
        (failure 400 (Allocation_exceeds (totalAllocated req) (totalLimit req)), d)
      else
        let '(r, w) := post faults today req (fresh d) in
        (asyncHandler r, durable w)
  end.

(** *** Spending figures *)

(** The correlated subquery of the list and detail queries:
    [SELECT SUM(ABS(t.amount)) FROM transactions t
     JOIN accounts a ON t.account_id = a.account_id
     WHERE a.user_id = b.user_id
       AND t.transaction_date BETWEEN b.start_date AND b.end_date
       AND t.transaction_type = 'EXPENSE'], under [COALESCE(..., 0)]. *)
Definition total_spent (b : budget) (d : database) : Q :=
  Qsum (map (fun ta => Qabs (transaction_amount (fst ta)))
          (filter (fun ta =>
                     (account_user_id (snd ta) =? budget_user_id b)
                     && between (transaction_date (fst ta)) (start_date b) (end_date b)
                     && String.eqb (transaction_type (fst ta)) "EXPENSE")
             (join (fun t a => transaction_account_id t =? account_id a)
                (transactions d) (accounts d)))).

(** [t.account_id IN (SELECT account_id FROM accounts WHERE user_id = $1)]. *)
Definition account_of_user (userId : Z) (t : transaction) (d : database) : bool :=
  existsb (Z.eqb (transaction_account_id t))
    (map account_id (filter (fun a => account_user_id a =? userId) (accounts d))).

(** The [ON] condition of the [LEFT JOIN transactions t]. *)
Definition spending_of (userId lo hi : Z) (d : database) (c : category)
    (t : transaction) : bool :=
  (category_id c =? transaction_category_id t)
  && String.eqb (transaction_type t) "EXPENSE"
  && between (transaction_date t) lo hi
  && account_of_user userId t d.

(** [COALESCE(SUM(t.amount), 0)] over the rows of a group. *)
Definition sum_amounts {A : Type} (rows : list (A * option transaction)) : Q :=
  Qsum (flat_map (fun r => match snd r with
                           | Some t => [transaction_amount t]
                           | None => []
                           end) rows).


(** *** [router.get('/')] *)

Record list_params := {
  active : option string;
  filter_startDate : option Z;
  filter_endDate : option Z
}.

Record listed := {
  listed_id : Z;
  listed_name : string;
  listed_startDate : Z;
  listed_endDate : Z;
  listed_totalLimit : Q;
  totalSpent : Q;
  percentUsed : Q;
  isOverBudget : bool;
  listed_isActive : bool;
  listed_remainingAmount : Q
}.

(** The [WHERE] clause of the list query, with the optional conditions
    the handler appends. *)
Definition list_condition (userId today : Z) (p : list_params) (b : budget) : bool :=
  (budget_user_id b =? userId) && budget_is_active b
  && match active p with
     | Some "true"%string => (today <=? end_date b) && (start_date b <=? today)
     | Some "false"%string => (end_date b <? today) || (today <? start_date b)
     | _ => true
     end
  && match filter_startDate p with
     | Some lo => lo <=? start_date b
     | None => true
     end
  && match filter_endDate p with
     | Some hi => end_date b <=? hi
     | None => true
     end.

(** [... ORDER BY b.created_date DESC]. *)
Definition select_budgets (userId today : Z) (p : list_params) (d : database)
    : list budget :=
  order_by (fun x y => budget_created_date y <=? budget_created_date x)
    (filter (list_condition userId today p) (budgets d)).

Definition listed_of (today : Z) (d : database) (b : budget) : listed :=
  let spent := total_spent b d in
  {| listed_id := budget_id b;
     listed_name := budget_name b;
     listed_startDate := start_date b;
     listed_endDate := end_date b;
     listed_totalLimit := total_budget b;
     totalSpent := spent;
     percentUsed :=
       if Qltb 0 (total_budget b) then (spent / total_budget b * 100)%Q else 0%Q;
     isOverBudget := Qltb (total_budget b) spent;
     listed_isActive := (today <=? end_date b) && (start_date b <=? today);
     listed_remainingAmount := (total_budget b - spent)%Q |}.

(** The handler has [try]/[finally] only: what a statement throws is
    answered by the error middleware. *)
Definition list_budgets (faults : nat -> option error) (today userId : Z)
    (p : list_params) (d : database) : response (list listed) :=
  asyncHandler
    (fst ((set_session_variable faults ;;;
           set_session_variable faults ;;;
           result <- select faults
                       (fun d => map (listed_of today d)
                                   (select_budgets userId today p d)) ;;
           ret {| status := 200; success := true; msg := None; data := Some result |})
            (fresh d))).

(** *** [router.get('/:id')] *)

Record category_detail := {
  detail_category_id : Z;
  detail_category_name : string;
  detail_category_type : string;
  allocatedAmount_of : Q;
  spentAmount : Q;
  remainingAmount_of : Q;
  utilizationPercentage : jsnum
}.

Record detail := {
  detail_id : Z;
  detail_name : string;
  detail_startDate : Z;
  detail_endDate : Z;
  detail_totalLimit : Q;
  detail_totalSpent : Q;
  detail_remainingAmount : jsnum;
  detail_utilizationPercentage : jsnum;
  detail_isActive : bool;
  detail_categories : list category_detail
}.

(** [(parseFloat(spent_amount) / parseFloat(allocated_amount)) * 100]. *)
Definition utilization (spent allocated : Q) : jsnum :=
  js_scale (js_div spent allocated) 100.

(** [SELECT ... FROM budgets b
     WHERE b.user_id = $1 AND b.budget_id = $2 AND b.is_active = true]. *)
Definition select_budget (userId budgetId : Z) (d : database) : list budget :=
  filter (fun b => (budget_user_id b =? userId) && (budget_id b =? budgetId)
                   && budget_is_active b) (budgets d).

(** One row of the category query:
    [category_id, allocated_amount, category_name, category_type],
    the columns of its [GROUP BY]. *)
Definition category_key : Type := Z * Q * string * string.

Definition category_key_eqb (x y : category_key) : bool :=
  let '(i, a, n, t) := x in
  let '(i', a', n', t') := y in
  (i =? i') && Qeq_bool a a' && String.eqb n n' && String.eqb t t'.

Definition category_key_of (r : budget_category * category * option transaction)
    : category_key :=
  let '(bc, c, _) := r in
  (bc_category_id bc, allocated_amount bc, category_name c, category_type c).

(** The joined rows of the category query of the detail handler, before
    grouping. *)
Definition category_join (userId lo hi budgetId : Z) (d : database)
    : list (budget_category * category * option transaction) :=
  filter (fun r => bc_budget_id (fst (fst r)) =? budgetId)
    (left_join (fun bcc t => spending_of userId lo hi d (snd bcc) t)
       (join (fun bc c => bc_category_id bc =? category_id c)
          (budget_categories d) (categories d))
       (transactions d)).

(** [SELECT bc.category_id, bc.allocated_amount, c.category_name,
            c.category_type, COALESCE(SUM(t.amount), 0) as spent_amount
     ... GROUP BY ... ORDER BY c.category_name]; [name_leb] is the order of
    the collation. *)
Definition select_categories (name_leb : string -> string -> bool)
    (userId lo hi budgetId : Z) (d : database) : list (category_key * Q) :=
  order_by (fun x y => name_leb (snd (fst (fst x))) (snd (fst (fst y))))
    (map (fun g => (fst g, sum_amounts (snd g)))
       (group_by category_key_eqb category_key_of
          (category_join userId lo hi budgetId d))).

Definition category_detail_of (row : category_key * Q) : category_detail :=
  let '((i, allocated, n, t), spent) := row in
  {| detail_category_id := i;
     detail_category_name := n;
     detail_category_type := t;
     allocatedAmount_of := allocated;
     spentAmount := spent;
     remainingAmount_of := (allocated - spent)%Q;
     utilizationPercentage := utilization spent allocated |}.

Definition not_found : message := Text "Budget not found".

(** The query selects neither [remaining_amount] nor
    [utilization_percentage]: [parseFloat(undefined)] is [NaN]. *)
Definition get_budget (name_leb : string -> string -> bool) (faults : nat -> option error)
    (userId budgetId : Z) (d : database) : response detail :=
  asyncHandler
  (fst ((set_session_variable faults ;;;
        set_session_variable faults ;;;
        budgetResult <- select faults
                          (fun d => map (fun b => (b, total_spent b d))
                                      (select_budget userId budgetId d)) ;;
        match budgetResult with
        | [] => ret (failure 404 not_found)
        | (budget, spent) :: _ =>
            categoriesResult <- select faults
                                  (select_categories name_leb userId
                                     (start_date budget) (end_date budget) budgetId) ;;
            ret {| status := 200; success := true; msg := None;
                   data := Some
                     {| detail_id := budget_id budget;
                        detail_name := budget_name budget;
                        detail_startDate := start_date budget;
                        detail_endDate := end_date budget;
                        detail_totalLimit := total_budget budget;
                        detail_totalSpent := spent;
                        detail_remainingAmount := NaN;
                        detail_utilizationPercentage := NaN;
                        detail_isActive := budget_is_active budget;
                        detail_categories :=
                          map category_detail_of categoriesResult |} |}
        end) (fresh d))).

(** *** [router.get('/:id/analytics')] *)











(** The owner's expense transactions of the budget window, whatever their
    category. *)
Definition window_expenses (b : budget) (d : database) : list transaction :=
  filter (fun t =>
            existsb (fun a => (account_id a =? transaction_account_id t)
                              && (account_user_id a =? budget_user_id b))
              (accounts d)
            && between (transaction_date t) (start_date b) (end_date b)
            && String.eqb (transaction_type t) "EXPENSE")
    (transactions d).

(** The categories allocated to a budget. *)
Definition allocated_categories (budgetId : Z) (d : database) : list Z :=
  map bc_category_id
    (filter (fun bc => bc_budget_id bc =? budgetId) (budget_categories d)).

End Budgets.


(* ================================================================== *)
(** ** routes/reports.js *)

Module Reports.

(** [WHERE user_id = $1] with [$1 = req.user.userId]: a parameter that is
    [undefined] is sent as [NULL], and no row equals [NULL]. *)
Definition is_user (userId : option Z) (u : Z) : bool :=
  match userId with
  | Some v => u =? v
  | None => false
  end.

Record summary_data := {
  totalBalance : Q;
  totalIncome : Q;
  totalExpenses : Q;
  netWorth : Q;
  accountsCount : nat;
  transactionsCount : nat;
  activeBudgetsCount : nat;
  activeGoalsCount : nat
}.

(** [SELECT COUNT( * ), COALESCE(SUM(current_balance), 0) FROM accounts
     WHERE user_id = $1 AND is_active = true]. *)
Definition select_accounts (userId : option Z) (d : database) : nat * Q :=
  let rows := filter (fun a => is_user userId (account_user_id a) && account_is_active a)
                (accounts d) in
  (List.length rows, Qsum (map current_balance rows)).

(** [SELECT COUNT( * ), SUM(CASE WHEN transaction_type = 'income' ...),
            SUM(CASE WHEN transaction_type = 'expense' ...)
     FROM transactions t JOIN accounts a ON t.account_id = a.account_id
     WHERE a.user_id = $1]. *)
Definition select_transactions (userId : option Z) (d : database) : nat * Q * Q :=
  let rows := filter (fun ta => is_user userId (account_user_id (snd ta)))
                (join (fun t a => transaction_account_id t =? account_id a)
                   (transactions d) (accounts d)) in
  let of_type (ty : string) :=
    Qsum (map (fun ta => if String.eqb (transaction_type (fst ta)) ty
                         then transaction_amount (fst ta) else 0%Q) rows) in
  (List.length rows, of_type "income"%string, of_type "expense"%string).

(** [SELECT COUNT( * ) FROM budgets
     WHERE user_id = $1 AND is_active = true AND end_date >= CURRENT_DATE]. *)
Definition select_active_budgets (today : Z) (userId : option Z) (d : database) : nat :=
  List.length (filter (fun b => is_user userId (budget_user_id b) && budget_is_active b
                                && (today <=? end_date b)) (budgets d)).

Local Open Scope handler_scope.

(** The [try] block of [router.get('/summary')]. *)
Definition summary_body (faults : nat -> option error) (today : Z) (userId : option Z)
    : M (response summary_data) :=
  accountData <- select faults (select_accounts userId) ;;
  transactionData <- select faults (select_transactions userId) ;;
  budgetData <- select faults (select_active_budgets today userId) ;;
  let '(transactions_count, total_income, total_expenses) := transactionData in
  ret {| status := 200; success := true; msg := None;
         data := Some
           {| totalBalance := snd accountData;
              totalIncome := total_income;
              totalExpenses := total_expenses;
              netWorth := (total_income - total_expenses)%Q;
              accountsCount := fst accountData;
              transactionsCount := transactions_count;
              activeBudgetsCount := budgetData;
              activeGoalsCount := 0 |} |}.

(** The answer of the [catch] block. *)
Definition summary_fallback : response summary_data :=
  {| status := 200; success := true; msg := None;
     data := Some
       {| totalBalance := 0; totalIncome := 0; totalExpenses := 0; netWorth := 0;
          accountsCount := 0; transactionsCount := 0; activeBudgetsCount := 0;
          activeGoalsCount := 0 |} |}.

(** [router.get('/summary')]. *)
Definition summary (faults : nat -> option error) (today : Z) (userId : option Z)
    (d : database) : response summary_data :=
  match summary_body faults today userId (fresh d) with
  | (Returned r, _) => r
  | (Raised _, _) => summary_fallback
  end.

(** *** [router.get('/financial-health')] *)

Record metrics := {
  total_balance : Q;
  account_count : Z;
  monthly_income : Q;
  monthly_expenses : Q;
  active_budgets : Z
}.

(** The metrics query; [CURRENT_DATE - INTERVAL '30 days'] is [today - 30]. *)
Definition select_metrics (today : Z) (userId : option Z) (d : database) : metrics :=
  let mine := filter (fun a => is_user userId (account_user_id a)) (accounts d) in
  let monthly (ty : string) :=
    Qsum (map (fun ta => transaction_amount (fst ta))
            (filter (fun ta => is_user userId (account_user_id (snd ta))
                               && String.eqb (transaction_type (fst ta)) ty
                               && (today - 30 <=? transaction_date (fst ta)))
               (join (fun t a => transaction_account_id t =? account_id a)
                  (transactions d) (accounts d)))) in
  {| total_balance := Qsum (map current_balance mine);
     account_count := Z.of_nat (List.length mine);
     monthly_income := monthly "income"%string;
     monthly_expenses := monthly "expense"%string;
     active_budgets :=
       Z.of_nat (List.length
                   (filter (fun b => is_user userId (budget_user_id b)
                                     && (today <=? end_date b)
                                     && (start_date b <=? today)) (budgets d))) |}.

Record insight := {
  insight_type : string;
  insight_message : string
}.

(** [healthScore] and [insights], the two variables the scoring updates. *)
Record scoring := {
  healthScore : Z;
  insights : list insight
}.

(** [healthScore += points; insights.push({ type, message })]. *)
Definition award (points : Z) (type message : string) (s : scoring) : scoring :=
  {| healthScore := healthScore s + points;
     insights := insights s ++ [{| insight_type := type; insight_message := message |}] |}.

(** [insights.push({ type, message })]. *)
Definition remark (type message : string) (s : scoring) : scoring :=
  {| healthScore := healthScore s;
     insights := insights s ++ [{| insight_type := type; insight_message := message |}] |}.

(** Balance score (0-30 points). *)
Definition score_balance (totalBalance : Q) (s : scoring) : scoring :=
  if Qgtb totalBalance 10000 then
    award 30 "positive" "Excellent savings balance" s
  else if Qgtb totalBalance 5000 then
    award 20 "neutral" "Good savings balance" s
  else if Qgtb totalBalance 1000 then
    award 10 "warning" "Consider increasing your savings" s
  else
    remark "negative" "Low savings balance - focus on building emergency fund" s.

(** Income vs Expenses ratio (0-30 points). *)
Definition score_ratio (monthlyIncome monthlyExpenses : Q) (s : scoring) : scoring :=
  if Qgtb monthlyIncome 0 then
    let expenseRatio := (monthlyExpenses / monthlyIncome)%Q in
    if Qltb expenseRatio (5 # 10) then
      award 30 "positive" "Excellent spending discipline" s
    else if Qltb expenseRatio (7 # 10) then
      award 20 "positive" "Good spending habits" s
    else if Qltb expenseRatio (9 # 10) then
      award 10 "warning" "Monitor your spending carefully" s
    else
      remark "negative" "Expenses are too high compared to income" s
  else s.

(** Budgeting behavior (0-20 points). *)
Definition score_budgets (activeBudgets : Z) (s : scoring) : scoring :=
  if 0 <? activeBudgets then
    award 20 "positive" "Great job maintaining active budgets" s
  else
    remark "warning" "Consider creating budgets to track spending" s.

(** Account diversification (0-20 points). *)
Definition score_accounts (accountCount : Z) (s : scoring) : scoring :=
  if 3 <=? accountCount then
    award 20 "positive" "Good account diversification" s
  else if 2 <=? accountCount then
    award 10 "neutral" "Consider adding more account types" s
  else
    remark "warning" "Consider diversifying your accounts" s.

Definition healthLevel (healthScore : Z) : string :=
  if 80 <=? healthScore then "Excellent"
  else if 60 <=? healthScore then "Good"
  else if 40 <=? healthScore then "Fair"
  else "Needs Improvement".

Definition assess (m : metrics) : scoring :=
  score_accounts (account_count m)
    (score_budgets (active_budgets m)
       (score_ratio (monthly_income m) (monthly_expenses m)
          (score_balance (total_balance m)
             {| healthScore := 0; insights := [] |}))).

Record health_data := {
  health_score : Z;
  health_level : string;
  health_metrics : metrics;
  savingsRate : Q;
  health_insights : list insight
}.

Definition health_of (m : metrics) : health_data :=
  let s := assess m in
  {| health_score := healthScore s;
     health_level := healthLevel (healthScore s);
     health_metrics := m;
     savingsRate :=
       if Qgtb (monthly_income m) 0
       then ((monthly_income m - monthly_expenses m) / monthly_income m * 100)%Q
       else 0%Q;
     health_insights := insights s |}.

(** [router.get('/financial-health')]; there is no [try]: what the query
    throws is answered by the error middleware. *)
Definition financial_health (faults : nat -> option error) (today : Z)
    (userId : option Z) (d : database) : response health_data :=
  asyncHandler
    (fst ((m <- select faults (select_metrics today userId) ;;
           ret {| status := 200; success := true; msg := None;
                  data := Some (health_of m) |}) (fresh d))).

(** The four bands in the spec's words. *)
Definition balance_band (balance : Q) : Z :=
  if Qgtb balance 10000 then 30
  else if Qgtb balance 5000 then 20
  else if Qgtb balance 1000 then 10
  else 0.

Definition ratio_band (income expenses : Q) : Z :=
  if Qgtb income 0 then
    if Qltb (expenses / income) (5 # 10) then 30
    else if Qltb (expenses / income) (7 # 10) then 20
    else if Qltb (expenses / income) (9 # 10) then 10
    else 0
  else 0.

Definition budget_band (activeBudgets : Z) : Z :=
  if 1 <=? activeBudgets then 20 else 0.

Definition account_band (accounts : Z) : Z :=
  if 3 <=? accounts then 20
  else if 2 <=? accounts then 10
  else 0.



End Reports.

(* ================================================================== *)
(** ** The receipt routes (safe mode) *)

Module Receipts.

Record request := {
  user : option (option Z);         (* req.user, and its userId if it has one *)
  validation_errors : list string;  (* validationResult(req) *)
  receiptId : Z;                    (* req.params.receiptId *)
  accountId : Z;
  categoryId : Z;
  amount : Q;
  description : string;
  transactionDate : Z
}.

Inductive created : Type :=
| Created (transactionId : Z) (amount : Q) (description : string)
    (transactionDate : Z) (receiptId : Z)
| Mock (amount : Q) (description : string) (transactionDate : Z) (receiptId : Z).

(** [req.user ? req.user.userId : 1]. *)
Definition userId (req : request) : option Z :=
  match user req with
  | Some u => u
  | None => Some 1
  end.

(** [SELECT receipt_id FROM receipts WHERE receipt_id = $1 AND user_id = $2]. *)
Definition select_receipt (req : request) (d : database) : list Z :=
  map receipt_id
    (filter (fun r => (receipt_id r =? receiptId req)
                      && Reports.is_user (userId req) (receipt_user_id r))
       (receipts d)).

(** [INSERT INTO transactions (...) VALUES ($1, ..., $8) RETURNING ...],
    with [-Math.abs(amount)] and ['EXPENSE']. *)
Definition insert_transaction (req : request) (d : database) : transaction * database :=
  let row :=
    {| transaction_id := next_serial (map transaction_id (transactions d));
       transaction_user_id := userId req;
       transaction_account_id := accountId req;
       transaction_category_id := categoryId req;
       transaction_amount := (- Qabs (amount req))%Q;
       transaction_description := description req;
       transaction_date := transactionDate req;
       transaction_type := "EXPENSE";
       transaction_receipt_id := Some (receiptId req) |} in
  (row, with_transactions (transactions d ++ [row]) d).

(** [UPDATE receipts SET transaction_created = TRUE WHERE receipt_id = $1]. *)
Definition mark_created (req : request) (d : database) : unit * database :=
  (tt, with_receipts
         (map (fun r => if receipt_id r =? receiptId req
                        then {| receipt_id := receipt_id r;
                                receipt_user_id := receipt_user_id r;
                                transaction_created := true |}
                        else r) (receipts d)) d).

Local Open Scope handler_scope.

(** The inner [try] block.  Each [safeQuery] takes its own client, so every
    statement that succeeds is committed. *)
Definition post (faults : nat -> option error) (req : request) : M (response created) :=
  receiptCheck <- select faults (select_receipt req) ;;
  match receiptCheck with
  | [] => ret (failure 404 (Text "Receipt not found"))
  | _ :: _ =>
      transaction <- query faults (insert_transaction req) ;;
      query faults (mark_created req) ;;;
      ret {| status := 200; success := true;
             msg := Some (Text "Transaction created successfully from receipt");
             data := Some (Created (transaction_id transaction)
                             (transaction_amount transaction)
                             (transaction_description transaction)
                             (transaction_date transaction)
                             (receiptId req)) |}
  end.

(** [router.post('/:receiptId/create-transaction')].  [connected] is the
    module-level flag [isDatabaseConnected]; [safeQuery] clears it when a
    statement throws.  The result is the response, the store and the flag. *)
Definition create_transaction (faults : nat -> option error) (connected : bool)
    (req : request) (d : database) : response created * database * bool :=
  match validation_errors req with
  | _ :: _ => (failure 400 (Text "Validation errors"), d, connected)
  | [] =>
      if negb connected then
        ({| status := 200; success := true;
            msg := Some (Text "Transaction created successfully (MOCK - database unavailable)");
            data := Some (Mock (- Qabs (amount req))%Q (description req)
                            (transactionDate req) (receiptId req)) |},
         d, connected)
      else
        match post faults req (fresh d) with
        | (Returned r, w) => (r, durable w, true)
        | (Raised _, w) =>
            (failure 500 (Text "Database error creating transaction"), durable w, false)
        end
  end.

(** The transactions linked to a receipt. *)
Definition linked (rid : Z) (d : database) : list transaction :=
  filter (fun t => match transaction_receipt_id t with
                   | Some r => r =? rid
                   | None => false
                   end) (transactions d).

Definition flag_of (rid : Z) (d : database) : option bool :=
  hd_error (map transaction_created
              (filter (fun r => receipt_id r =? rid) (receipts d))).

(** The same request sent [n] times in a row, the database connected and
    no statement failing. *)
Fixpoint resend (n : nat) (req : request) (d : database) : database :=
  match n with
  | O => d
  | S k => resend k req (snd (fst (create_transaction no_faults true req d)))
  end.

End Receipts.


(* ================================================================== *)
(** ** Sample stores and requests *)

Module Examples.

Definition account_row (id user : Z) (balance : Q) (active : bool) : account :=
  {| account_id := id; account_user_id := user; account_name := "account";
     current_balance := balance; account_is_active := active |}.

(** The fault plan in which only statement [k] throws: the connection is
    lost. *)
Definition failing_at (k : nat) : nat -> option error :=
  fun n => if Nat.eqb n k
           then Some (DatabaseError "08006" "connection failure")
           else None.

Definition empty : database :=
  {| accounts := []; transfers := []; categories := []; transactions := [];
     budgets := []; budget_categories := []; receipts := [] |}.


(** User 2 owns the closed account 5 and the active account 7. *)
Definition ledger_with_closed_account : database :=
  with_accounts
    [account_row 1 1 100 true; account_row 7 2 20 true; account_row 5 2 0 false]
    empty.

Definition send (caller from to : Z) (amount fee : Q) : Transfers.request :=
  {| Transfers.user_id := caller;
     Transfers.validation_errors := [];
     Transfers.fromAccountId := from;
     Transfers.toUserId := to;
     Transfers.amount := amount;
     Transfers.description := "rent";
     Transfers.transferDate := None;
     Transfers.notes := None;
     Transfers.feeAmount := Some fee |}.

Definition expense (id account category : Z) (amount : Q) (date : Z) : transaction :=
  {| transaction_id := id; transaction_user_id := Some 1;
     transaction_account_id := account; transaction_category_id := category;
     transaction_amount := amount; transaction_description := "purchase";
     transaction_date := date; transaction_type := "EXPENSE";
     transaction_receipt_id := None |}.

(** User 1 has one account and a budget of 500.00 for days 1 to 31 with
    200.00 allocated to Food and 300.00 to Rent; 50.00 were spent on Food
    and 70.00 on Travel, which the budget does not allocate. *)
Definition household : database :=
  {| accounts := [account_row 1 1 1000 true];
     transfers := [];
     categories :=
       [{| category_id := 1; category_name := "Food"; category_type := "expense" |};
        {| category_id := 2; category_name := "Rent"; category_type := "expense" |};
        {| category_id := 3; category_name := "Travel"; category_type := "expense" |}];
     transactions := [expense 1 1 1 50 5; expense 2 1 3 70 6];
     budgets :=
       [{| budget_id := 1; budget_user_id := 1; budget_name := "January";
           start_date := 1; end_date := 31; total_budget := 500;
           budget_created_date := 0; budget_is_active := true |}];
     budget_categories :=
       [{| bc_budget_id := 1; bc_category_id := 1; allocated_amount := 200 |};
        {| bc_budget_id := 1; bc_category_id := 2; allocated_amount := 300 |}];
     receipts := [{| receipt_id := 7; receipt_user_id := 1; transaction_created := false |}] |}.


Definition budget_request (limit : Q) (first last : Z)
    (cats : list Budgets.category_input) : Budgets.create_request :=
  {| Budgets.user_id := 1;
     Budgets.validation_errors := [];
     Budgets.budgetName := "February";
     Budgets.startDate := first;
     Budgets.endDate := last;
     Budgets.totalLimit := limit;
     Budgets.req_categories := cats |}.

Definition allocation (category : Z) (amount : Q) : Budgets.category_input :=
  {| Budgets.categoryId := category; Budgets.allocatedAmount := amount |}.

Definition receipt_request (receipt : Z) (amount : Q) : Receipts.request :=
  {| Receipts.user := Some (Some 1);
     Receipts.validation_errors := [];
     Receipts.receiptId := receipt;
     Receipts.accountId := 1;
     Receipts.categoryId := 1;
     Receipts.amount := amount;
     Receipts.description := "groceries";
     Receipts.transactionDate := 9 |}.

End Examples.

(* ================================================================== *)
(** ** config/database.js *)

Module Database.

Local Open Scope handler_scope.

(** [client.query('ROLLBACK')] as a statement of its own, which can throw
    like any other. *)
Definition rollback_ (faults : nat -> option error) : M unit :=
  fun w =>
    match faults (executed w) with
    | Some e => (Raised e, tick w)
    | None => (Returned tt, rollback w)
    end.

(** [transaction(callback)]: [BEGIN], the callback, [COMMIT]; the [catch]
    block issues [ROLLBACK] and throws the error again (the error of the
    [ROLLBACK] when that statement throws too). *)
Definition transaction {A : Type} (faults : nat -> option error) (callback : M A)
    : M A :=
  fun w =>
    match (begin_ faults ;;;
           result <- callback ;;
           commit faults ;;;
           ret result) w with
    | (Returned result, w') => (Returned result, w')
    | (Raised error, w') =>
        match rollback_ faults w' with
        | (Returned _, w'') => (Raised error, w'')
        | (Raised error', w'') => (Raised error', w'')
        end
    end.

(** A callback that only issues statements on the client it is given:
    inside an open transaction it leaves the committed store alone and the
    transaction open. *)
Definition on_client {A : Type} (callback : M A) : Prop :=
  forall w, session w <> None ->
    durable (snd (callback w)) = durable w /\ session (snd (callback w)) <> None.

End Database.

(* ================================================================== *)
(** ** The user directory

    The tables [users] and [account_types], and the columns of [accounts],
    [categories] and [transfers] that the row records above do not carry. *)

Module Directory.

Record user := {
  user_id : Z;
  username : string;
  email : string;
  password_hash : string;
  first_name : string;
  last_name : string;
  date_created : Z;
  is_active : bool
}.

Record account_type := {
  type_id : Z;
  type_name : string
}.

(** The directory: the two tables, and for each account identifier the
    column [accounts.type_id], for each category identifier the columns
    [categories.user_id] and [categories.is_system] ([None] is [NULL]), for
    each transaction identifier the column [transactions.created_date]. *)
Record registry := {
  users : list user;
  account_types : list account_type;
  account_type_id : Z -> option Z;
  category_user_id : Z -> option Z;
  category_is_system : Z -> bool;
  transaction_created_date : Z -> Z
}.

End Directory.

(* ================================================================== *)
(** ** middleware/auth.js *)

Module Auth.

(** [s.split(sep)] for a separator of one character. *)
Fixpoint split (sep : ascii) (s : string) : list string :=
  match s with
  | EmptyString => [EmptyString]
  | String c rest =>
      if Ascii.eqb c sep then EmptyString :: split sep rest
      else match split sep rest with
           | piece :: pieces => String c piece :: pieces
           | [] => [String c EmptyString]
           end
  end.

(** The character [sep] does not occur in [s]. *)
Definition free_of (sep : ascii) (s : string) : Prop :=
  ~ In sep (list_ascii_of_string s).

(** [authHeader && authHeader.split(' ')[1]]; [None] is [undefined]. *)
Definition token_of (authorization : option string) : option string :=
  match authorization with
  | None => None
  | Some authHeader =>
      if String.eqb authHeader "" then Some authHeader
      else nth_error (split " " authHeader) 1
  end.

(** What [jwt.verify] gives: the payload, of which the middleware reads
    [user_id] only, or an error with a name. *)
Inductive verified : Type :=
| Payload (user_id : option Z)
| Throws (name : string).

(** The object stored in [req.user]. *)
Record req_user := {
  user_id : Z;
  username : string;
  email : string;
  firstName : string;
  lastName : string;
  fullName : string;
  createdAt : Z;
  isActive : bool
}.

(** [req.user.userId], as routes/reports.js and routes/receipts.js read it:
    the object above has no such property, so the value is [undefined]. *)
Definition userId (user : req_user) : option Z := None.

Inductive outcome : Type :=
| Next (user : req_user)
| Answered (r : response unit).

Section Middleware.
Variable verify : string -> verified.   (* jwt.verify(token, JWT_SECRET) *)
Variable trim : string -> string.       (* String.prototype.trim *)

(** [SELECT ... FROM finance.users WHERE user_id = $1 AND is_active = true]. *)
Definition select_user (id : option Z) (users : list Directory.user)
    : list Directory.user :=
  filter (fun u => Reports.is_user id (Directory.user_id u) && Directory.is_active u)
    users.

Definition req_user_of (user : Directory.user) : req_user :=
  {| user_id := Directory.user_id user;
     username := Directory.username user;
     email := Directory.email user;
     firstName := Directory.first_name user;
     lastName := Directory.last_name user;
     fullName := trim (Directory.first_name user ++ " " ++ Directory.last_name user);
     createdAt := Directory.date_created user;
     isActive := Directory.is_active user |}.

Local Open Scope handler_scope.

(** The [try] block once the token is verified. *)
Definition lookup (faults : nat -> option error) (decoded_user_id : option Z)
    (users : list Directory.user) : M outcome :=
  set_session_variable faults ;;;
  result <- select faults (fun _ => select_user decoded_user_id users) ;;
  match result with
  | [] => ret (Answered (failure 401 (Text "Invalid token - user not found")))
  | user :: _ => ret (Next (req_user_of user))
  end.

(** [authenticateToken]; the statements run on a client of their own, and
    the middleware writes nothing. *)
Definition authenticateToken (faults : nat -> option error)
    (authorization : option string) (users : list Directory.user) : outcome :=
  match token_of authorization with
  | None => Answered (failure 401 (Text "Access token required"))
  | Some token =>
      if String.eqb token "" then
        Answered (failure 401 (Text "Access token required"))
      else
        match verify token with
        | Payload decoded_user_id =>
            match lookup faults decoded_user_id users (fresh Examples.empty) with
            | (Returned o, _) => o
            | (Raised _, _) => Answered (failure 500 (Text "Authentication failed"))
            end
        | Throws name =>
            if String.eqb name "JsonWebTokenError" then
              Answered (failure 401 (Text "Invalid token"))
            else if String.eqb name "TokenExpiredError" then
              Answered (failure 401 (Text "Token expired"))
            else Answered (failure 500 (Text "Authentication failed"))
        end
  end.

End Middleware.

End Auth.

(* ================================================================== *)
(** ** routes/receipts.js *)

Module ReceiptRoutes.

(** [router.post('/:receiptId/create-transaction')] of routes/receipts.js:
    the statements of the safe-mode route, each on a client of its own, in
    one [try] block; [const userId = req.user.userId] throws inside it when
    [req.user] is [undefined]. *)
Definition create_transaction (faults : nat -> option error) (req : Receipts.request)
    (d : database) : response Receipts.created * database :=
  match Receipts.validation_errors req with
  | _ :: _ => (failure 400 (Text "Validation errors"), d)
  | [] =>
      match Receipts.user req with
      | None => (failure 500 (Text "Failed to create transaction"), d)
      | Some _ =>
          match Receipts.post faults req (fresh d) with
          | (Returned r, w) => (r, durable w)
          | (Raised _, w) =>
              (failure 500 (Text "Failed to create transaction"), durable w)
          end
      end
  end.

(** The request of [router.delete('/:receiptId')]. *)
Record delete_request := {
  user : option (option Z);   (* req.user, and its userId if it has one *)
  receiptId : Z               (* req.params.receiptId *)
}.

(** [SELECT receipt_id, image_filename FROM receipts
     WHERE receipt_id = $1 AND user_id = $2]. *)
Definition select_receipt (userId : option Z) (rid : Z) (d : database) : list receipt :=
  filter (fun r => (receipt_id r =? rid) && Reports.is_user userId (receipt_user_id r))
    (receipts d).

(** What [ON DELETE SET NULL] does to a transaction that refers to the
    receipt ([receipt_id INTEGER REFERENCES receipts(receipt_id) ON DELETE
    SET NULL], routes/database-setup.js). *)
Definition unlink (rid : Z) (t : transaction) : transaction :=
  match transaction_receipt_id t with
  | Some r =>
      if r =? rid then
        {| transaction_id := transaction_id t;
           transaction_user_id := transaction_user_id t;
           transaction_account_id := transaction_account_id t;
           transaction_category_id := transaction_category_id t;
           transaction_amount := transaction_amount t;
           transaction_description := transaction_description t;
           transaction_date := transaction_date t;
           transaction_type := transaction_type t;
           transaction_receipt_id := None |}
      else t
  | None => t
  end.

(** [DELETE FROM receipts WHERE receipt_id = $1]. *)
Definition delete_receipt (rid : Z) (d : database) : unit * database :=
  (tt, with_transactions (map (unlink rid) (transactions d))
         (with_receipts (filter (fun r => negb (receipt_id r =? rid)) (receipts d)) d)).

Local Open Scope handler_scope.

(** The [try] block of [router.delete('/:receiptId')].  The image is
    deleted from the blob store afterwards; [deleteReceiptImage] catches
    its own errors, so the answer does not depend on it. *)
Definition delete_body (faults : nat -> option error) (userId : option Z) (rid : Z)
    : M (response unit) :=
  receiptResult <- select faults (select_receipt userId rid) ;;
  match receiptResult with
  | [] => ret (failure 404 (Text "Receipt not found"))
  | _ :: _ =>
      query faults (delete_receipt rid) ;;;
      ret {| status := 200; success := true;
             msg := Some (Text "Receipt deleted successfully"); data := None |}
  end.

Definition delete (faults : nat -> option error) (req : delete_request) (d : database)
    : response unit * database :=
  match user req with
  | None => (failure 500 (Text "Failed to delete receipt"), d)
  | Some userId =>
      match delete_body faults userId (receiptId req) (fresh d) with
      | (Returned r, w) => (r, durable w)
      | (Raised _, w) => (failure 500 (Text "Failed to delete receipt"), durable w)
      end
  end.

End ReceiptRoutes.

(* ================================================================== *)
(** ** The safe-mode receipt routes, request after request *)

Module SafeMode.

(** Requests to [create-transaction] served one after the other; the flag
    [isDatabaseConnected] of config/database-safe.js is carried from one to
    the next (nothing else of what is modelled here sets it). *)
Fixpoint serve (rs : list ((nat -> option error) * Receipts.request)) (d : database)
    (connected : bool) : list (response Receipts.created) * database * bool :=
  match rs with
  | [] => ([], d, connected)
  | (faults, req) :: rest =>
      let '(r, d', connected') := Receipts.create_transaction faults connected req d in
      let '(answers, d'', connected'') := serve rest d' connected' in
      (r :: answers, d'', connected'')
  end.

(** The answer given while the flag is down. *)
Definition mock_answer (req : Receipts.request) : response Receipts.created :=
  match Receipts.validation_errors req with
  | _ :: _ => failure 400 (Text "Validation errors")
  | [] =>
      {| status := 200; success := true;
         msg := Some (Text "Transaction created successfully (MOCK - database unavailable)");
         data := Some (Receipts.Mock (- Qabs (Receipts.amount req))%Q
                         (Receipts.description req)
                         (Receipts.transactionDate req) (Receipts.receiptId req)) |}
  end.

End SafeMode.

(* ================================================================== *)
(** ** models/User.js and the auth routes (the second part of
       routes/transactions.js) *)

Module Users.

(** [parts.join(sep)]. *)
Fixpoint join (sep : string) (parts : list string) : string :=
  match parts with
  | [] => ""
  | [part] => part
  | part :: rest => part ++ sep ++ join sep rest
  end.

Section Model.
Variable trim : string -> string.                 (* String.prototype.trim *)
Variable compare : string -> string -> bool.      (* bcrypt.compare *)
Variable sign : Z -> string -> string.            (* jwt.sign of {user_id, email} *)

(** [createUser]: [nameParts[0] || ''] and
    [nameParts.slice(1).join(' ') || 'User']. *)
Definition nameParts (full_name : string) : list string :=
  Auth.split " " (trim full_name).

Definition first_name_of (full_name : string) : string :=
  match nameParts full_name with
  | part :: _ => part
  | [] => ""
  end.

Definition last_name_of (full_name : string) : string :=
  let rest := join " " (tl (nameParts full_name)) in
  if String.eqb rest "" then "User" else rest.

(** [findUser]: [WHERE username = $1 OR email = $1 AND is_active = true];
    [AND] binds tighter than [OR].  The result is [rows[0] || null]. *)
Definition findUser (usernameOrEmail : string) (users : list Directory.user)
    : option Directory.user :=
  hd_error
    (filter (fun u => String.eqb (Directory.username u) usernameOrEmail
                      || (String.eqb (Directory.email u) usernameOrEmail
                          && Directory.is_active u)) users).

Record login_request := {
  validation_errors : list string;
  usernameOrEmail : string;
  password : string
}.

Record logged_in := {
  id : Z;
  login_username : string;
  login_email : string;
  fullName : string;
  firstName : string;
  lastName : string;
  createdAt : Z;
  isActive : bool;
  token : string
}.

Definition message_of (e : error) : string :=
  match e with
  | DatabaseError _ message => message
  | TypeError message => message
  end.

Local Open Scope handler_scope.

(** The [try] block of [router.post('/login')]: [findUser] ([SET], then the
    [SELECT]), the password check, the token, [updateLastLogin] ([SET],
    then the [UPDATE] of [last_login], a column that is not modelled). *)
Definition login_body (faults : nat -> option error) (req : login_request)
    (users : list Directory.user) : M (response logged_in) :=
  set_session_variable faults ;;;
  found <- select faults (fun _ => findUser (usernameOrEmail req) users) ;;
  match found with
  | None => ret (failure 401 (Text "Invalid credentials"))
  | Some user =>
      if negb (compare (password req) (Directory.password_hash user)) then
        ret (failure 401 (Text "Invalid credentials"))
      else
        let token := sign (Directory.user_id user) (Directory.email user) in
        set_session_variable faults ;;;
        query faults (fun d => (tt, d)) ;;;
        ret {| status := 200; success := true; msg := Some (Text "Login successful");
               data := Some
                 {| id := Directory.user_id user;
                    login_username := Directory.username user;
                    login_email := Directory.email user;
                    fullName := trim (Directory.first_name user ++ " "
                                      ++ Directory.last_name user);
                    firstName := Directory.first_name user;
                    lastName := Directory.last_name user;
                    createdAt := Directory.date_created user;
                    isActive := Directory.is_active user;
                    token := token |} |}
  end.

(** [router.post('/login')]; the [catch] block answers 500 with
    [error.message || 'Login failed']. *)
Definition login (faults : nat -> option error) (req : login_request)
    (users : list Directory.user) : response logged_in :=
  match validation_errors req with
  | _ :: _ => failure 400 (Text "Validation errors")
  | [] =>
      match login_body faults req users (fresh Examples.empty) with
      | (Returned r, _) => r
      | (Raised e, _) =>
          failure 500
            (Text (if String.eqb (message_of e) "" then "Login failed"
                   else message_of e))
      end
  end.

End Model.

End Users.

(* ================================================================== *)
(** ** The OCR service (the second part of models/User.js) *)

Module Ocr.

(** [s.includes(sub)]. *)
Fixpoint includes (s sub : string) : bool :=
  String.prefix sub s
  || match s with
     | EmptyString => false
     | String _ rest => includes rest sub
     end.

(** The decisions of [suggestCategory] on [name], the merchant name in
    lower case. *)
Definition classify (name : string) : string :=
  if includes name "grocery" || includes name "market"
     || includes name "supermarket" || includes name "walmart"
     || includes name "target" || includes name "costco" then "Groceries"
  else if includes name "restaurant" || includes name "cafe"
          || includes name "pizza" || includes name "mcdonald"
          || includes name "starbucks" || includes name "food" then "Entertainment"
  else if includes name "gas" || includes name "fuel" || includes name "shell"
          || includes name "bp" || includes name "chevron"
          || includes name "exxon" then "Transportation"
  else if includes name "pharmacy" || includes name "cvs"
          || includes name "walgreens" || includes name "drug" then "Healthcare"
  else "Other".

Definition suggestCategory (toLowerCase : string -> string) (merchantName : string)
    : string :=
  classify (toLowerCase merchantName).

(** The place of a category in the order in which [suggestCategory] tries
    them. *)
Definition precedence (category : string) : nat :=
  if String.eqb category "Groceries" then 0
  else if String.eqb category "Entertainment" then 1
  else if String.eqb category "Transportation" then 2
  else if String.eqb category "Healthcare" then 3
  else 4.

End Ocr.

(* ================================================================== *)
(** ** routes/transfers.js: reading a transfer *)

Module TransferQueries.

Record request := {
  user_id : Z;                      (* req.user.user_id *)
  validation_errors : list string;  (* validationResult(req) *)
  transferId : Z                    (* req.params.transferId *)
}.

(** A row of the query: the transfer, its two accounts, their types and
    their owners. *)
Definition row : Type :=
  transfer * account * account * Directory.account_type * Directory.account_type
  * Directory.user * Directory.user.

Definition of_type (g : Directory.registry) (a : account) (ty : Directory.account_type)
    : bool :=
  match Directory.account_type_id g (account_id a) with
  | Some id => id =? Directory.type_id ty
  | None => false
  end.

(** [FROM finance.transfers t
     JOIN finance.accounts fa ON t.from_account_id = fa.account_id
     JOIN finance.accounts ta ON t.to_account_id = ta.account_id
     JOIN finance.account_types fat ON fa.type_id = fat.type_id
     JOIN finance.account_types tat ON ta.type_id = tat.type_id
     JOIN finance.users fu ON fa.user_id = fu.user_id
     JOIN finance.users tu ON ta.user_id = tu.user_id]. *)
Definition joined (g : Directory.registry) (d : database) : list row :=
  join (fun r tu => account_user_id (snd (fst (fst (fst r)))) =? Directory.user_id tu)
    (join (fun r fu =>
             account_user_id (snd (fst (fst (fst r)))) =? Directory.user_id fu)
       (join (fun r tat => of_type g (snd (fst r)) tat)
          (join (fun r fat => of_type g (snd (fst r)) fat)
             (join (fun r ta => to_account_id (fst r) =? account_id ta)
                (join (fun t fa => from_account_id t =? account_id fa)
                   (transfers d) (accounts d))
                (accounts d))
             (Directory.account_types g))
          (Directory.account_types g))
       (Directory.users g))
    (Directory.users g).

(** [WHERE t.transfer_id = $1 AND (fa.user_id = $2 OR ta.user_id = $2)]. *)
Definition select_transfer (g : Directory.registry) (transferId userId : Z)
    (d : database) : list row :=
  filter (fun r =>
            let '(t, fa, ta, _, _, _, _) := r in
            (transfer_id t =? transferId)
            && ((account_user_id fa =? userId) || (account_user_id ta =? userId)))
    (joined g d).

Record holder := {
  holder_id : Z;
  holder_name : string;
  holder_email : string
}.

Record party := {
  party_id : Z;
  party_name : string;
  party_type : string;
  currentBalance : Q;
  party_user : holder
}.

Record detail := {
  id : Z;
  amount : Q;
  feeAmount : Q;
  description : string;
  date : Z;
  notes : option string;
  fromAccount : party;
  toAccount : party;
  direction : string;
  canModify : bool
}.

Definition holder_of (u : Directory.user) : holder :=
  {| holder_id := Directory.user_id u;
     holder_name := Directory.first_name u ++ " " ++ Directory.last_name u;
     holder_email := Directory.email u |}.

Definition party_of (a : account) (ty : Directory.account_type) (u : Directory.user)
    : party :=
  {| party_id := account_id a;
     party_name := account_name a;
     party_type := Directory.type_name ty;
     currentBalance := current_balance a;
     party_user := holder_of u |}.

(** The answer for the first row; [reference_number] and [created_date]
    are columns the transfer record does not carry. *)
Definition detail_of (userId : Z) (r : row) : detail :=
  let '(t, fa, ta, fat, tat, fu, tu) := r in
  {| id := transfer_id t;
     amount := transfer_amount t;
     feeAmount := fee_amount t;
     description := transfer_description t;
     date := transfer_date t;
     notes := transfer_notes t;
     fromAccount := party_of fa fat fu;
     toAccount := party_of ta tat tu;
     direction := if Directory.user_id fu =? userId then "outgoing" else "incoming";
     canModify := Directory.user_id fu =? userId |}.

Local Open Scope handler_scope.

(** The [try] block of [router.get('/:transferId')]. *)
Definition get_body (faults : nat -> option error) (g : Directory.registry)
    (req : request) : M (response detail) :=
  set_session_variable faults ;;;
  set_session_variable faults ;;;
  result <- select faults (select_transfer g (transferId req) (user_id req)) ;;
  match result with
  | [] => ret (failure 404 (Text "Transfer not found or access denied"))
  | transfer :: _ =>
      ret {| status := 200; success := true; msg := None;
             data := Some (detail_of (user_id req) transfer) |}
  end.

(** [router.get('/:transferId')]. *)
Definition get_transfer (faults : nat -> option error) (g : Directory.registry)
    (req : request) (d : database) : response detail :=
  match validation_errors req with
  | _ :: _ => failure 400 (Text "Validation errors")
  | [] =>
      match get_body faults g req (fresh d) with
      | (Returned r, _) => r
      | (Raised _, _) => failure 500 (Text "Failed to fetch transfer details")
      end
  end.

(** The directory knows the type of the account and its owner. *)
Definition listed (g : Directory.registry) (a : account) : Prop :=
  (exists ty, In ty (Directory.account_types g) /\ of_type g a ty = true)
  /\ (exists u, In u (Directory.users g) /\ Directory.user_id u = account_user_id a).

End TransferQueries.

(* ================================================================== *)
(** ** routes/transactions.js: creating a transaction *)

Module Transactions.

Record request := {
  user_id : Z;                  (* req.user.user_id *)
  other_rules_hold : bool;      (* the rules on description, date and notes *)
  accountId : Z;
  categoryId : Z;
  transactionType : string;
  amount : Q;
  description : string;
  transactionDate : option Z;
  notes : option string
}.

(** [errors.isEmpty()] for [createTransactionValidation]: [isInt({ min: 1 })]
    on the two identifiers, [isIn(['INCOME', 'EXPENSE'])] on the type and
    [isFloat({ min: 0.01 })] on the amount are modelled as written. *)
Definition errors_isEmpty (req : request) : bool :=
  (1 <=? accountId req) && (1 <=? categoryId req)
  && (String.eqb (transactionType req) "INCOME"
      || String.eqb (transactionType req) "EXPENSE")
  && Qle_bool (1 # 100) (amount req)
  && other_rules_hold req.

Record created := {
  id : Z;
  type : string;
  created_amount : Q;
  created_description : string;
  date : Z;
  account_id_of : Z;
  account_name_of : string;
  previousBalance : Q;
  category_id_of : Z;
  category_name_of : string;
  category_type_of : string
}.

(** [SELECT ... FROM finance.accounts WHERE account_id = $1 AND user_id = $2]. *)
Definition select_account (req : request) (d : database) : list account :=
  filter (fun a => (account_id a =? accountId req) && (account_user_id a =? user_id req))
    (accounts d).

(** [SELECT ... FROM finance.categories
     WHERE category_id = $1 AND (user_id = $2 OR is_system = true)]. *)
Definition select_category (g : Directory.registry) (req : request) (d : database)
    : list category :=
  filter (fun c =>
            (category_id c =? categoryId req)
            && (match Directory.category_user_id g (category_id c) with
                | Some owner => owner =? user_id req
                | None => false
                end
                || Directory.category_is_system g (category_id c)))
    (categories d).

(** [transactionDate = new Date().toISOString().split('T')[0]]. *)
Definition date_of (today : Z) (req : request) : Z :=
  match transactionDate req with
  | Some day => day
  | None => today
  end.

(** [INSERT INTO finance.transactions (account_id, category_id,
     transaction_type, amount, description, transaction_date, notes)
     VALUES ($1, ..., $7) RETURNING ...].  The statement names neither
    [user_id] nor [receipt_id]; [notes] is a column the transaction record
    does not carry.  Only the table [transactions] is described: what a
    trigger of the schema makes of the account balance is not. *)
Definition insert_transaction (today : Z) (req : request) (d : database)
    : transaction * database :=
  let row :=
    {| transaction_id := next_serial (map transaction_id (transactions d));
       transaction_user_id := None;
       transaction_account_id := accountId req;
       transaction_category_id := categoryId req;
       transaction_amount := amount req;
       transaction_description := description req;
       transaction_date := date_of today req;
       transaction_type := transactionType req;
       transaction_receipt_id := None |} in
  (row, with_transactions (transactions d ++ [row]) d).

Local Open Scope handler_scope.

(** The [try] block of [router.post('/')]. *)
Definition post (faults : nat -> option error) (g : Directory.registry) (today : Z)
    (req : request) : M (response created) :=
  set_session_variable faults ;;;
  set_session_variable faults ;;;
  accountResult <- select faults (select_account req) ;;
  match accountResult with
  | [] => ret (failure 404 (Text "Account not found or does not belong to user"))
  | account :: _ =>
      categoryResult <- select faults (select_category g req) ;;
      match categoryResult with
      | [] => ret (failure 404 (Text "Category not found or not accessible"))
      | category :: _ =>
          newTransaction <- query faults (insert_transaction today req) ;;
          ret {| status := 201; success := true;
                 msg := Some (Text "Transaction created successfully");
                 data := Some
                   {| id := transaction_id newTransaction;
                      type := transaction_type newTransaction;
                      created_amount := transaction_amount newTransaction;
                      created_description := transaction_description newTransaction;
                      date := transaction_date newTransaction;
                      account_id_of := account_id account;
                      account_name_of := account_name account;
                      previousBalance := current_balance account;
                      category_id_of := category_id category;
                      category_name_of := category_name category;
                      category_type_of := category_type category |} |}
      end
  end.

(** [router.post('/')]: no transaction is opened, each statement stands on
    its own. *)
Definition create (faults : nat -> option error) (g : Directory.registry) (today : Z)
    (req : request) (d : database) : response created * database :=
  if negb (errors_isEmpty req) then (failure 400 (Text "Validation errors"), d)
  else
    match post faults g today req (fresh d) with
    | (Returned r, w) => (r, durable w)
    | (Raised _, w) => (failure 500 (Text "Failed to create transaction"), durable w)
    end.

End Transactions.

(* ================================================================== *)
(** ** What the writers leave in the ledger *)

Module Ledger.

(** Every transaction carries one of the two types that the routes write:
    ["INCOME"] or ["EXPENSE"]. *)
Definition types_as_written (d : database) : Prop :=
  Forall (fun t => transaction_type t = "INCOME"%string
                   \/ transaction_type t = "EXPENSE"%string) (transactions d).

(** Every expense carries an amount that is not above zero, as the receipt
    routes write it ([-Math.abs(amount)]). *)
Definition expenses_negative (d : database) : Prop :=
  Forall (fun t => transaction_type t = "EXPENSE"%string ->
                   (transaction_amount t <= 0)%Q) (transactions d).

End Ledger.

(* ================================================================== *)
(** ** routes/reports.js: spending by category *)

Module CategorySpending.

Record params := {
  startDate : option Z;
  endDate : option Z;
  type : option string;     (* req.query.type *)
  limit : option nat        (* req.query.limit *)
}.

(** [type = 'expense'] and [limit = 10] in the destructuring of
    [req.query]. *)
Definition type_of (p : params) : string :=
  match type p with
  | Some ty => ty
  | None => "expense"
  end.

Definition limit_of (p : params) : nat :=
  match limit p with
  | Some n => n
  | None => 10
  end.

(** [WHERE a.user_id = $1 AND t.transaction_type = $2] and the optional
    conditions on the date. *)
Definition condition (userId : option Z) (p : params) (t : transaction) (a : account)
    : bool :=
  Reports.is_user userId (account_user_id a)
  && String.eqb (transaction_type t) (type_of p)
  && match startDate p with
     | Some lo => lo <=? transaction_date t
     | None => true
     end
  && match endDate p with
     | Some hi => transaction_date t <=? hi
     | None => true
     end.

(** [FROM transactions t JOIN accounts a ON t.account_id = a.account_id
     WHERE ...]. *)
Definition matching (userId : option Z) (p : params) (d : database)
    : list (transaction * account) :=
  filter (fun ta => condition userId p (fst ta) (snd ta))
    (join (fun t a => transaction_account_id t =? account_id a)
       (transactions d) (accounts d)).

(** The rows of the first query before grouping:
    [... JOIN categories c ON t.category_id = c.category_id]. *)
Definition categorised (userId : option Z) (p : params) (d : database)
    : list (transaction * account * category) :=
  join (fun ta c => transaction_category_id (fst ta) =? category_id c)
    (matching userId p d) (categories d).

Definition key_eqb (x y : string * string) : bool :=
  String.eqb (fst x) (fst y) && String.eqb (snd x) (snd y).

Definition amounts (rows : list (transaction * account * category)) : list Q :=
  map (fun r => transaction_amount (fst (fst r))) rows.

Definition minimum (l : list Q) : Q :=
  match l with
  | [] => 0%Q
  | x :: rest => fold_right (fun y m => if Qle_bool y m then y else m) x rest
  end.

Definition maximum (l : list Q) : Q :=
  match l with
  | [] => 0%Q
  | x :: rest => fold_right (fun y m => if Qle_bool y m then m else y) x rest
  end.

Record group := {
  category_name_of : string;
  category_type_of : string;
  total_amount : Q;
  transaction_count : nat;
  avg_amount : Q;
  min_amount : Q;
  max_amount : Q
}.

Definition group_of (g : string * string * list (transaction * account * category))
    : group :=
  let rows := snd g in
  {| category_name_of := fst (fst g);
     category_type_of := snd (fst g);
     total_amount := Qsum (amounts rows);
     transaction_count := List.length rows;
     avg_amount := (Qsum (amounts rows) / inject_Z (Z.of_nat (List.length rows)))%Q;
     min_amount := minimum (amounts rows);
     max_amount := maximum (amounts rows) |}.

(** [SELECT c.category_name, c.category_type, SUM(t.amount), COUNT(...),
            AVG(t.amount), MIN(t.amount), MAX(t.amount) ...
     GROUP BY c.category_name, c.category_type], then
    [ORDER BY total_amount DESC LIMIT $n]. *)
Definition grouped (userId : option Z) (p : params) (d : database) : list group :=
  map group_of
    (group_by key_eqb (fun r => (category_name (snd r), category_type (snd r)))
       (categorised userId p d)).

Definition select_groups (userId : option Z) (p : params) (d : database) : list group :=
  firstn (limit_of p)
    (order_by (fun x y => Qle_bool (total_amount y) (total_amount x))
       (grouped userId p d)).

(** [SELECT SUM(t.amount) as total ...]: [None] is the [NULL] of a sum over
    no row. *)
Definition select_total (userId : option Z) (p : params) (d : database) : option Q :=
  match matching userId p d with
  | [] => None
  | rows => Some (Qsum (map (fun ta => transaction_amount (fst ta)) rows))
  end.

(** [parseFloat(totalResult.rows[0].total) || 1]. *)
Definition totalAmount (total : option Q) : Q :=
  match total with
  | Some q => if Qeq_bool q 0 then 1%Q else q
  | None => 1%Q
  end.

Record item := {
  categoryName : string;
  categoryType : string;
  item_totalAmount : Q;
  percentage : jsnum;
  transactionCount : nat;
  avgAmount : Q;
  minAmount : Q;
  maxAmount : Q
}.

Definition item_of (totalAmount : Q) (g : group) : item :=
  {| categoryName := category_name_of g;
     categoryType := category_type_of g;
     item_totalAmount := total_amount g;
     percentage := js_scale (js_div (total_amount g) totalAmount) 100;
     transactionCount := transaction_count g;
     avgAmount := avg_amount g;
     minAmount := min_amount g;
     maxAmount := max_amount g |}.

Local Open Scope handler_scope.

(** [router.get('/category-spending')]; there is no [try]. *)
Definition category_spending (faults : nat -> option error) (userId : option Z)
    (p : params) (d : database) : response (list item) :=
  asyncHandler
    (fst ((result <- select faults (select_groups userId p) ;;
           totalResult <- select faults (select_total userId p) ;;
           ret {| status := 200; success := true; msg := None;
                  data := Some (map (item_of (totalAmount totalResult)) result) |})
            (fresh d))).

End CategorySpending.

(* ================================================================== *)
(** ** routes/transactions.js: listing transactions *)

Module TransactionList.

(** [req.query].  An identifier, a date, [page] and [limit] are the integer
    that the query string writes ([None] when the key is absent); the
    handler uses them as numbers throughout.  A request whose strings are
    not integers is not described. *)
Record request := {
  user_id : Z;                      (* req.user.user_id *)
  accountId : option Z;
  categoryId : option Z;
  transactionType : option string;
  startDate : option Z;
  endDate : option Z;
  page : option Z;
  limit : option Z
}.

(** [page = 1] and [limit = 20] in the destructuring. *)
Definition page_of (req : request) : Z :=
  match page req with Some p => p | None => 1 end.

Definition limit_of (req : request) : Z :=
  match limit req with Some l => l | None => 20 end.

(** [if (x) whereConditions.push(...)] for a numeric key: any string that
    is present and writes an integer is truthy. *)
Definition holds (filter : option Z) (test : Z -> bool) : bool :=
  match filter with
  | Some v => test v
  | None => true
  end.

(** [if (transactionType)]: the empty string is falsy. *)
Definition of_type (req : request) (t : transaction) : bool :=
  match transactionType req with
  | Some EmptyString => true
  | Some s => String.eqb (transaction_type t) s
  | None => true
  end.

(** [whereConditions.join(' AND ')]. *)
Definition whereClause (req : request) (t : transaction) (a : account) : bool :=
  (account_user_id a =? user_id req)
  && holds (accountId req) (fun v => transaction_account_id t =? v)
  && holds (categoryId req) (fun v => transaction_category_id t =? v)
  && of_type req t
  && holds (startDate req) (fun v => v <=? transaction_date t)
  && holds (endDate req) (fun v => transaction_date t <=? v).

Definition row : Type :=
  transaction * account * Directory.account_type * category.

(** [FROM finance.transactions t
     JOIN finance.accounts a ON t.account_id = a.account_id
     JOIN finance.account_types at ON a.type_id = at.type_id
     JOIN finance.categories c ON t.category_id = c.category_id
     WHERE ${whereClause}]. *)
Definition matching (g : Directory.registry) (req : request) (d : database)
    : list row :=
  filter (fun r => let '(t, a, _, _) := r in whereClause req t a)
    (join (fun r c => transaction_category_id (fst (fst r)) =? category_id c)
       (join (fun r ty => TransferQueries.of_type g (snd r) ty)
          (join (fun t a => transaction_account_id t =? account_id a)
             (transactions d) (accounts d))
          (Directory.account_types g))
       (categories d)).

(** [ORDER BY t.transaction_date DESC, t.created_date DESC]. *)
Definition newest_first (g : Directory.registry) (x y : row) : bool :=
  let tx := fst (fst (fst x)) in
  let ty := fst (fst (fst y)) in
  (transaction_date ty <? transaction_date tx)
  || ((transaction_date ty =? transaction_date tx)
      && (Directory.transaction_created_date g (transaction_id ty)
          <=? Directory.transaction_created_date g (transaction_id tx))).

(** [const offset = (page - 1) * limit]. *)
Definition offset (req : request) : Z := (page_of req - 1) * limit_of req.

(** The transaction query with [LIMIT $n OFFSET $m]; the server refuses a
    negative [LIMIT] or [OFFSET]. *)
Definition select_transactions (faults : nat -> option error) (g : Directory.registry)
    (req : request) : M (list row) :=
  (rows <- select faults (fun d => order_by (newest_first g) (matching g req d)) ;;
   if limit_of req <? 0
   then throw (DatabaseError "2201W" "LIMIT must not be negative")
   else if offset req <? 0
   then throw (DatabaseError "2201X" "OFFSET must not be negative")
   else ret (firstn (Z.to_nat (limit_of req)) (skipn (Z.to_nat (offset req)) rows))
  )%handler.

(** [SELECT COUNT( * ) as total FROM finance.transactions t
     JOIN finance.accounts a ON t.account_id = a.account_id
     WHERE ${whereClause}]. *)
Definition select_count (req : request) (d : database) : Z :=
  Z.of_nat
    (List.length (filter (fun r => whereClause req (fst r) (snd r))
               (join (fun t a => transaction_account_id t =? account_id a)
                  (transactions d) (accounts d)))).

(** [Math.ceil(total / limit)]. *)
Definition totalPages_of (total limit : Z) : jsnum :=
  if limit =? 0 then (if total =? 0 then NaN else PosInfinity)
  else Fin (inject_Z (- ((- total) / limit))).

(** [page < totalPages] for a number [page]. *)
Definition js_lt (x : Z) (v : jsnum) : bool :=
  match v with
  | Fin q => Qltb (inject_Z x) q
  | PosInfinity => true
  | NegInfinity => false
  | NaN => false
  end.

Record holder := {
  holder_id : Z;
  holder_name : string;
  holder_type : string
}.

(** An entry of [data.transactions] ([createdAt] is the column of the
    directory; [notes] is a column the transaction record does not carry). *)
Record item := {
  id : Z;
  type : string;
  amount : Q;
  description : string;
  date : Z;
  createdAt : Z;
  account_of : holder;
  category_of : holder
}.

Record pagination := {
  currentPage : Z;
  totalPages : jsnum;
  totalRecords : Z;
  page_limit : Z;
  hasNextPage : bool;
  hasPreviousPage : bool
}.

Record listing := {
  listed : list item;
  paging : pagination
}.

Definition item_of (g : Directory.registry) (r : row) : item :=
  let '(t, a, ty, c) := r in
  {| id := transaction_id t;
     type := transaction_type t;
     amount := transaction_amount t;
     description := transaction_description t;
     date := transaction_date t;
     createdAt := Directory.transaction_created_date g (transaction_id t);
     account_of := {| holder_id := account_id a;
                      holder_name := account_name a;
                      holder_type := Directory.type_name ty |};
     category_of := {| holder_id := category_id c;
                       holder_name := category_name c;
                       holder_type := category_type c |} |}.

Local Open Scope handler_scope.

(** The [try] block of [router.get('/')].  [Promise.all] hands both queries
    to the one client, which runs them in the order given. *)
Definition get_body (faults : nat -> option error) (g : Directory.registry)
    (req : request) : M (response listing) :=
  set_session_variable faults ;;;
  set_session_variable faults ;;;
  transactionsResult <- select_transactions faults g req ;;
  total <- select faults (select_count req) ;;
  let totalPages := totalPages_of total (limit_of req) in
  ret {| status := 200; success := true; msg := None;
         data := Some
           {| listed := map (item_of g) transactionsResult;
              paging :=
                {| currentPage := page_of req;
                   totalPages := totalPages;
                   totalRecords := total;
                   page_limit := limit_of req;
                   hasNextPage := js_lt (page_of req) totalPages;
                   hasPreviousPage := 1 <? page_of req |} |} |}.

(** [router.get('/')]: the [catch] block answers every error itself. *)
Definition list_transactions (faults : nat -> option error) (g : Directory.registry)
    (req : request) (d : database) : response listing :=
  match get_body faults g req (fresh d) with
  | (Returned r, _) => r
  | (Raised _, _) => failure 500 (Text "Failed to load transactions")
  end.

End TransactionList.

(* ================================================================== *)
(** * Properties *)

(** ** Numbers and rows *)

Lemma Qltb_lt (x y : Q) : Qltb x y = true <-> (x < y)%Q.
Proof.
  unfold Qltb. rewrite negb_true_iff.
  split; intro H.
  - apply Qnot_le_lt. intro Hle. apply Qle_bool_iff in Hle. congruence.
  - destruct (Qle_bool y x) eqn:E; [|reflexivity].
    apply Qle_bool_iff in E. exfalso. apply (Qlt_not_le _ _ H E).
Qed.

Lemma Qltb_ge (x y : Q) : Qltb x y = false <-> (y <= x)%Q.
Proof.
  unfold Qltb. rewrite negb_false_iff. apply Qle_bool_iff.
Qed.

Lemma Qsum_app (l l' : list Q) : (Qsum (l ++ l') == Qsum l + Qsum l')%Q.
Proof.
  induction l as [|x l IH]; simpl.
  - lra.
  - rewrite IH. lra.
Qed.


Section Ordering.
Context {A : Type} (leb : A -> A -> bool).

Lemma insert_by_perm (a : A) (l : list A) : Permutation (insert_by leb a l) (a :: l).
Proof.
  induction l as [|b t IH]; simpl.
  - apply Permutation_refl.
  - destruct (leb a b).
    + apply Permutation_refl.
    + eapply perm_trans; [apply perm_skip, IH | apply perm_swap].
Qed.

Lemma order_by_perm (l : list A) : Permutation (order_by leb l) l.
Proof.
  induction l as [|a l IH]; simpl.
  - apply perm_nil.
  - eapply perm_trans; [apply insert_by_perm | apply perm_skip, IH].
Qed.

Lemma order_by_In (x : A) (l : list A) : In x (order_by leb l) <-> In x l.
Proof.
  split; apply Permutation_in; [|apply Permutation_sym]; apply order_by_perm.
Qed.

Lemma order_by_nil (l : list A) : order_by leb l = [] -> l = [].
Proof.
  intro H. apply Permutation_nil. rewrite <- H.
  apply order_by_perm.
Qed.

Hypothesis leb_total : forall x y, leb x y = true \/ leb y x = true.
Hypothesis leb_trans : forall x y z, leb x y = true -> leb y z = true -> leb x z = true.

Lemma insert_by_sorted (a : A) (l : list A) :
  StronglySorted (fun x y => leb x y = true) l ->
  StronglySorted (fun x y => leb x y = true) (insert_by leb a l).
Proof.
  induction 1 as [|b t Hs IH Hb]; simpl.
  - constructor; constructor.
  - destruct (leb a b) eqn:E.
    + constructor.
      * constructor; assumption.
      * constructor; [assumption|].
        eapply Forall_impl; [|exact Hb]. intros c Hc. eapply leb_trans; eauto.
    + constructor; [assumption|].
      assert (Hba : leb b a = true) by (destruct (leb_total a b); congruence).
      rewrite Forall_forall. intros c Hc.
      apply (Permutation_in _ (insert_by_perm a t)) in Hc.
      destruct Hc as [<-|Hc]; [assumption|].
      rewrite Forall_forall in Hb. auto.
Qed.

Lemma order_by_sorted (l : list A) :
  StronglySorted (fun x y => leb x y = true) (order_by leb l).
Proof.
  induction l as [|a l IH]; simpl.
  - constructor.
  - apply insert_by_sorted, IH.
Qed.

Lemma order_by_head_least (a : A) (t l : list A) :
  order_by leb l = a :: t -> forall b, In b l -> leb a b = true.
Proof.
  intros H b Hb.
  pose proof (order_by_sorted l) as Hs. rewrite H in Hs.
  apply order_by_In in Hb. rewrite H in Hb.
  inversion Hs as [|? ? _ Hall]; subst.
  destruct Hb as [<-|Hb].
  - destruct (leb_total a a); assumption.
  - rewrite Forall_forall in Hall. auto.
Qed.
End Ordering.


Lemma join_In {A B : Type} (on : A -> B -> bool) (l : list A) (r : list B) (a : A) (b : B) :
  In (a, b) (join on l r) <-> In a l /\ In b r /\ on a b = true.
Proof.
  unfold join. rewrite in_flat_map. split.
  - intros (a' & Ha & Hin). apply in_map_iff in Hin.
    destruct Hin as (b' & Heq & Hb). inversion Heq; subst.
    apply filter_In in Hb. tauto.
  - intros (Ha & Hb & Hon). exists a. split; [assumption|].
    apply in_map_iff. exists b. split; [reflexivity|].
    apply filter_In. tauto.
Qed.


(* ================================================================== *)
(** ** Transfers *)

Ltac unfold_statements :=
  unfold bind, begin_, set_session_variable, select, query, commit, fresh, ret,
    throw, current, write, tick, rollback; simpl.

(** Every run of the handler either rejects the request and leaves the store
    as it was, or records the transfer with both balance updates. *)
Lemma create_transfer_cases (faults : nat -> option error) (today : Z)
    (req : Transfers.request) (d : database) :
  (snd (Transfers.create_transfer faults today req d) = d
   /\ Transfers.rejected req d (fst (Transfers.create_transfer faults today req d)))
  \/ (exists fromAccount toAccount,
        Transfers.accepted req d fromAccount toAccount
        /\ snd (Transfers.create_transfer faults today req d)
           = Transfers.recorded today req toAccount d
        /\ (fst (Transfers.create_transfer faults today req d)
            = failure 500 Transfers.failed
            \/ (success (fst (Transfers.create_transfer faults today req d)) = true
                /\ status (fst (Transfers.create_transfer faults today req d)) = 201
                /\ msg (fst (Transfers.create_transfer faults today req d))
                   = Some (Text "Transfer created successfully")))).
Proof.
  unfold Transfers.create_transfer.
  destruct (Transfers.validation_errors req) eqn:Hv.
  2:{ left. split; [reflexivity|]. simpl. constructor. rewrite Hv. discriminate. }
  unfold Transfers.post. unfold_statements.
  destruct (faults 0%nat); simpl; [left; split; [reflexivity|constructor]|].
  destruct (faults 1%nat); simpl; [left; split; [reflexivity|constructor]|].
  destruct (faults 2%nat); simpl; [left; split; [reflexivity|constructor]|].
  destruct (Transfers.user_id req =? Transfers.toUserId req) eqn:Hu; simpl.
  { left; split; [reflexivity|]. apply Transfers.rejected_self. apply Z.eqb_eq, Hu. }
  apply Z.eqb_neq in Hu.
  destruct (faults 3%nat); simpl; [left; split; [reflexivity|constructor]|].
  destruct (faults 4%nat); simpl; [left; split; [reflexivity|constructor]|].
  destruct (faults 5%nat); simpl; [left; split; [reflexivity|constructor]|].
  destruct (Transfers.select_from_account req d) as [|fromAccount rest] eqn:Hf; simpl.
  { left; split; [reflexivity|]. apply Transfers.rejected_source, Hf. }
  destruct (Transfers.select_to_account req d) as [|toAccount rest'] eqn:Ht; simpl.
  { left; split; [reflexivity|]. apply Transfers.rejected_recipient, Ht. }
  destruct (account_user_id fromAccount =? Transfers.user_id req) eqn:Ho; simpl.
  2:{ left; split; [reflexivity|].
      eapply Transfers.rejected_owner; [exact Hf|]. apply Z.eqb_neq, Ho. }
  apply Z.eqb_eq in Ho.
  destruct (Qltb (current_balance fromAccount) (Transfers.totalDeduction req)) eqn:Hb;
    simpl.
  { left; split; [reflexivity|].
    eapply Transfers.rejected_balance; [exact Hf|]. apply Qltb_lt, Hb. }
  apply Qltb_ge in Hb.
  destruct (Transfers.fromAccountId req =? account_id toAccount) eqn:Hs; simpl.
  { left; split; [reflexivity|].
    eapply Transfers.rejected_same; [exact Ht|]. apply Z.eqb_eq, Hs. }
  apply Z.eqb_neq in Hs.
  destruct (faults 6%nat); simpl; [left; split; [reflexivity|constructor]|].
  destruct (faults 7%nat); simpl; [left; split; [reflexivity|constructor]|].
  right. exists fromAccount, toAccount.
  split.
  { unfold Transfers.accepted. rewrite Hf, Ht. simpl. repeat split; assumption. }
  destruct (faults 8%nat); simpl; [split; [reflexivity|left; reflexivity]|].
  destruct (faults 9%nat); simpl; [split; [reflexivity|left; reflexivity]|].
  destruct (Transfers.select_balance (Transfers.fromAccountId req) _); simpl;
    [split; [reflexivity|left; reflexivity]|].
  destruct (Transfers.select_balance (account_id toAccount) _); simpl;
    [split; [reflexivity|left; reflexivity]|].
  split; [reflexivity|]. right. repeat split; reflexivity.
Qed.

Lemma rejected_failure (req : Transfers.request) (d : database)
    (r : response Transfers.created) :
  Transfers.rejected req d r -> success r = false /\ msg r <> None.
Proof.
  intro H. destruct H; simpl; split; (reflexivity || discriminate).
Qed.




(** *** The derived destination *)

Lemma hd_error_firstn_1 {A : Type} (l : list A) : hd_error (firstn 1 l) = hd_error l.
Proof. destruct l; reflexivity. Qed.

Lemma select_to_account_derived (req : Transfers.request) (d : database) :
  hd_error (Transfers.select_to_account req d)
  = Transfers.derived_account (Transfers.toUserId req) d.
Proof. apply hd_error_firstn_1. Qed.

Lemma derived_account_least (uid : Z) (d : database) (a : account) :
  Transfers.derived_account uid d = Some a ->
  In a (accounts d)
  /\ account_user_id a = uid
  /\ forall b, In b (accounts d) -> account_user_id b = uid ->
               account_id a <= account_id b.
Proof.
  unfold Transfers.derived_account, Transfers.order_by_account_id.
  set (leb := fun x y : account => account_id x <=? account_id y).
  set (mine := filter (fun x => account_user_id x =? uid) (accounts d)).
  intro H.
  destruct (order_by leb mine) as [|a' t] eqn:E; [discriminate|].
  injection H as ->.
  assert (Hin : In a mine).
  { apply (order_by_In leb). rewrite E. left. reflexivity. }
  apply filter_In in Hin. destruct Hin as [Hin Hu]. apply Z.eqb_eq in Hu.
  repeat split; try assumption.
  intros b Hb Hbu.
  assert (Hle : leb a b = true).
  { apply (order_by_head_least leb) with (t := t) (l := mine).
    - intros x y. unfold leb. destruct (Z.leb_spec (account_id x) (account_id y));
        [left; reflexivity | right; apply Z.leb_le; lia].
    - intros x y z. unfold leb. rewrite !Z.leb_le. lia.
    - exact E.
    - apply filter_In. split; [assumption | apply Z.eqb_eq; assumption]. }
  apply Z.leb_le, Hle.
Qed.

Lemma derived_account_exists (uid : Z) (d : database) (b : account) :
  In b (accounts d) -> account_user_id b = uid ->
  Transfers.derived_account uid d <> None.
Proof.
  unfold Transfers.derived_account, Transfers.order_by_account_id.
  intros Hb Hu H.
  destruct (order_by _ _) eqn:E; [|discriminate].
  apply order_by_nil in E.
  assert (Hin : In b (filter (fun a => account_user_id a =? uid) (accounts d))).
  { apply filter_In. split; [assumption | apply Z.eqb_eq; assumption]. }
  rewrite E in Hin. contradiction.
Qed.

(** *** Balances under [adjustBalance] *)


Lemma adjustBalance_filter (id id' : Z) (delta : Q) (l : list account) :
  filter (fun a => account_id a =? id) (Transfers.adjustBalance id' delta l)
  = Transfers.adjustBalance id' delta (filter (fun a => account_id a =? id) l).
Proof.
  induction l as [|a l IH]; simpl; [reflexivity|].
  destruct (account_id a =? id') eqn:E'; simpl;
    destruct (account_id a =? id) eqn:E; simpl; rewrite ?E', ?IH; reflexivity.
Qed.

Lemma select_balance_recorded_nonempty (today : Z) (req : Transfers.request)
    (toAccount : account) (d : database) (id : Z) :
  Transfers.select_balance id d <> [] ->
  Transfers.select_balance id (Transfers.recorded today req toAccount d) <> [].
Proof.
  unfold Transfers.select_balance, Transfers.recorded. simpl.
  rewrite !adjustBalance_filter.
  destruct (filter (fun a => account_id a =? id) (accounts d)); simpl;
    [intro H; exact H | discriminate].
Qed.

Lemma select_balance_of_member (a : account) (d : database) :
  In a (accounts d) -> Transfers.select_balance (account_id a) d <> [].
Proof.
  unfold Transfers.select_balance. intros Hin H.
  apply map_eq_nil in H.
  assert (Hf : In a (filter (fun x => account_id x =? account_id a) (accounts d))).
  { apply filter_In. split; [assumption | apply Z.eqb_refl]. }
  rewrite H in Hf. contradiction.
Qed.

Lemma hd_error_In {A : Type} (l : list A) (a : A) : hd_error l = Some a -> In a l.
Proof. destruct l; simpl; [discriminate|]. intro H. injection H as ->. left. reflexivity. Qed.

(** An accepted request succeeds when no statement fails. *)
Lemma create_transfer_accepted (today : Z) (req : Transfers.request) (d : database)
    (fromAccount toAccount : account) :
  Transfers.accepted req d fromAccount toAccount ->
  snd (Transfers.create_transfer no_faults today req d)
  = Transfers.recorded today req toAccount d
  /\ success (fst (Transfers.create_transfer no_faults today req d)) = true
  /\ status (fst (Transfers.create_transfer no_faults today req d)) = 201.
Proof.
  intros (Hv & Hu & Hf & Ht & Ho & Hle & Hne).
  assert (Hfb : Transfers.select_balance (Transfers.fromAccountId req)
                  (Transfers.recorded today req toAccount d) <> []).
  { apply select_balance_recorded_nonempty.
    apply hd_error_In in Hf. unfold Transfers.select_from_account in Hf.
    apply filter_In in Hf. destruct Hf as [Hin Hid]. apply Z.eqb_eq in Hid.
    rewrite <- Hid. apply select_balance_of_member, Hin. }
  assert (Htb : Transfers.select_balance (account_id toAccount)
                  (Transfers.recorded today req toAccount d) <> []).
  { apply select_balance_recorded_nonempty, select_balance_of_member.
    rewrite select_to_account_derived in Ht.
    apply derived_account_least in Ht. tauto. }
  unfold Transfers.create_transfer. rewrite Hv.
  unfold Transfers.post. unfold_statements.
  apply Z.eqb_neq in Hu. rewrite Hu. simpl.
  destruct (Transfers.select_from_account req d) as [|fa rest]; [discriminate|].
  destruct (Transfers.select_to_account req d) as [|ta rest']; [discriminate|].
  simpl in Hf, Ht. injection Hf as ->. injection Ht as ->. simpl.
  apply Z.eqb_eq in Ho. rewrite Ho. simpl.
  apply Qltb_ge in Hle. rewrite Hle.
  apply Z.eqb_neq in Hne. rewrite Hne. simpl.
  unfold Transfers.recorded, Transfers.insert_transfer in Hfb, Htb. simpl in Hfb, Htb.
  destruct (Transfers.select_balance (Transfers.fromAccountId req) _); [congruence|].
  destruct (Transfers.select_balance (account_id toAccount) _); [congruence|].
  simpl. repeat split; reflexivity.
Qed.

Lemma keyed_injective (l : list account) (a b : account) :
  NoDup (map account_id l) -> In a l -> In b l -> account_id a = account_id b -> a = b.
Proof.
  induction l as [|x l IH]; simpl; intros Hnd Ha Hb Heq; [contradiction|].
  inversion Hnd as [|? ? Hx Hnd']; subst.
  destruct Ha as [<-|Ha], Hb as [<-|Hb].
  - reflexivity.
  - exfalso. apply Hx. rewrite Heq. apply in_map, Hb.
  - exfalso. apply Hx. rewrite <- Heq. apply in_map, Ha.
  - apply IH; assumption.
Qed.

(** C2.  The handler departs from the rule that the destination is the
    recipient's earliest active account, a rule its own answer "Recipient
    has no active accounts" and the destination listing of routes/users.js
    ([is_active = true]) both follow: the recipient (user 2) owns the closed
    account 5 and the active account 7; the earliest active account is 7,
    yet the transfer succeeds, is recorded to the closed account 5 and
    credits it, and account 7 keeps its balance. *)
Lemma transfer_credits_closed_account :
  let d := Examples.ledger_with_closed_account in
  let out := Transfers.create_transfer no_faults 0 (Examples.send 1 1 2 60 5) d in
  option_map account_id (Transfers.earliest_active_account 2 d) = Some 7
  /\ success (fst out) = true
  /\ map to_account_id (transfers (snd out)) = [5]
  /\ option_map account_is_active (Transfers.derived_account 2 d) = Some false
  /\ Transfers.balance_of 5 (snd out) = Some (0 + 60)%Q
  /\ Transfers.balance_of 7 (snd out) = Transfers.balance_of 7 d.
Proof.
  cbv zeta. repeat split; reflexivity.
Qed.

(** What the handler does in general: the destination is derived from the
    store and [toUserId] alone and is the recipient's account with the least
    [account_id], whether active or not.  A successful transfer is recorded
    to that account, and for every recipient who has at least one account a
    request that passes the other guards succeeds. *)
Theorem destination_is_least_account (faults : nat -> option error) (today : Z)
    (req : Transfers.request) (d : database) :
  (success (fst (Transfers.create_transfer faults today req d)) = true ->
   exists toAccount,
     Transfers.derived_account (Transfers.toUserId req) d = Some toAccount
     /\ In toAccount (accounts d)
     /\ account_user_id toAccount = Transfers.toUserId req
     /\ (forall b, In b (accounts d) ->
                   account_user_id b = Transfers.toUserId req ->
                   account_id toAccount <= account_id b)
     /\ snd (Transfers.create_transfer faults today req d)
        = Transfers.recorded today req toAccount d
     /\ map to_account_id (transfers (snd (Transfers.create_transfer faults today req d)))
        = map to_account_id (transfers d) ++ [account_id toAccount])
  /\ (forall fromAccount b,
        accounts_keyed d ->
        Transfers.validation_errors req = [] ->
        Transfers.user_id req <> Transfers.toUserId req ->
        hd_error (Transfers.select_from_account req d) = Some fromAccount ->
        account_user_id fromAccount = Transfers.user_id req ->
        (Transfers.totalDeduction req <= current_balance fromAccount)%Q ->
        In b (accounts d) ->
        account_user_id b = Transfers.toUserId req ->
        success (fst (Transfers.create_transfer no_faults today req d)) = true).
Proof.
  split.
  - intro Hs.
    destruct (create_transfer_cases faults today req d)
      as [[_ Hr] | (fromAccount & toAccount & Ha & Hd & _)].
    + apply rejected_failure in Hr. destruct Hr as [Hr _]. congruence.
    + exists toAccount.
      destruct Ha as (_ & _ & _ & Ht & _).
      rewrite select_to_account_derived in Ht.
      destruct (derived_account_least _ _ _ Ht) as (Hin & Hu & Hleast).
      repeat split; try assumption.
      rewrite Hd. unfold Transfers.recorded. simpl.
      rewrite map_app. reflexivity.
  - intros fromAccount b Hk Hv Hu Hf Ho Hle Hb Hbu.
    destruct (Transfers.derived_account (Transfers.toUserId req) d) as [toAccount|] eqn:Ht.
    2:{ exfalso. exact (derived_account_exists _ _ _ Hb Hbu Ht). }
    destruct (derived_account_least _ _ _ Ht) as (Hin & Htu & _).
    apply (create_transfer_accepted today req d fromAccount toAccount).
    unfold Transfers.accepted. rewrite select_to_account_derived.
    repeat split; try assumption.
    intro Heq.
    pose proof (hd_error_In _ _ Hf) as Hfin.
    unfold Transfers.select_from_account in Hfin.
    apply filter_In in Hfin. destruct Hfin as [Hfin Hid]. apply Z.eqb_eq in Hid.
    assert (fromAccount = toAccount).
    { apply (keyed_injective (accounts d)); try assumption. congruence. }
    subst. congruence.
Qed.

Lemma destination_of_example :
  let d := Examples.ledger_with_closed_account in
  let req := Examples.send 1 1 2 60 5 in
  (exists toAccount,
     Transfers.derived_account 2 d = Some toAccount
     /\ account_id toAccount = 5
     /\ snd (Transfers.create_transfer no_faults 0 req d)
        = Transfers.recorded 0 req toAccount d)
  /\ success (fst (Transfers.create_transfer no_faults 0 req d)) = true.
Proof.
  intros d req.
  destruct (destination_is_least_account no_faults 0 req d) as [Hfirst Hsecond].
  split.
  - destruct (Hfirst eq_refl) as (toAccount & Hd & _ & _ & _ & Hrec & _).
    exists toAccount. repeat split; try assumption.
    cbv in Hd. injection Hd as <-. reflexivity.
  - apply (Hsecond (Examples.account_row 1 1 100 true) (Examples.account_row 7 2 20 true)).
    + repeat constructor; simpl; intuition discriminate.
    + reflexivity.
    + discriminate.
    + reflexivity.
    + reflexivity.
    + discriminate.
    + simpl. auto.
    + reflexivity.
Defined.

(** *** The order of the guards *)


Lemma create_transfer_self (faults : nat -> option error) (today : Z)
    (req : Transfers.request) (d : database) :
  Transfers.validation_errors req = [] ->
  Transfers.user_id req = Transfers.toUserId req ->
  snd (Transfers.create_transfer faults today req d) = d
  /\ (fst (Transfers.create_transfer faults today req d)
      = failure 400 Transfers.self_transfer
      \/ fst (Transfers.create_transfer faults today req d)
         = failure 500 Transfers.failed)
  /\ fst (Transfers.create_transfer no_faults today req d)
     = failure 400 Transfers.self_transfer.
Proof.
  intros Hv Hu. apply Z.eqb_eq in Hu.
  unfold Transfers.create_transfer. rewrite Hv.
  unfold Transfers.post. unfold_statements. rewrite Hu.
  repeat split.
  - destruct (faults 0%nat); simpl; [reflexivity|].
    destruct (faults 1%nat); simpl; [reflexivity|].
    destruct (faults 2%nat); reflexivity.
  - destruct (faults 0%nat); simpl; [right; reflexivity|].
    destruct (faults 1%nat); simpl; [right; reflexivity|].
    destruct (faults 2%nat); simpl; [right|left]; reflexivity.
Qed.

Lemma create_transfer_guard_order (today : Z) (req : Transfers.request)
    (d : database) (fromAccount toAccount : account) :
  Transfers.validation_errors req = [] ->
  Transfers.user_id req <> Transfers.toUserId req ->
  hd_error (Transfers.select_from_account req d) = Some fromAccount ->
  hd_error (Transfers.select_to_account req d) = Some toAccount ->
  (account_user_id fromAccount <> Transfers.user_id req ->
   fst (Transfers.create_transfer no_faults today req d)
   = failure 403 Transfers.not_permitted)
  /\ (account_user_id fromAccount = Transfers.user_id req ->
      (current_balance fromAccount < Transfers.totalDeduction req)%Q ->
      fst (Transfers.create_transfer no_faults today req d)
      = failure 400 (Insufficient_balance (current_balance fromAccount)
                       (Transfers.totalDeduction req)))
  /\ (fst (Transfers.create_transfer no_faults today req d)
      = failure 400 Transfers.same_account
      <-> account_user_id fromAccount = Transfers.user_id req
          /\ (Transfers.totalDeduction req <= current_balance fromAccount)%Q
          /\ Transfers.fromAccountId req = account_id toAccount).
Proof.
  intros Hv Hu Hf Ht.
  unfold Transfers.create_transfer. rewrite Hv.
  unfold Transfers.post. unfold_statements.
  apply Z.eqb_neq in Hu. rewrite Hu. simpl.
  destruct (Transfers.select_from_account req d) as [|fa rest]; [discriminate|].
  destruct (Transfers.select_to_account req d) as [|ta rest']; [discriminate|].
  simpl in Hf, Ht. injection Hf as ->. injection Ht as ->. simpl.
  destruct (account_user_id fromAccount =? Transfers.user_id req) eqn:Ho; simpl.
  2:{ apply Z.eqb_neq in Ho. split; [|split; [|split]].
      - intros _. reflexivity.
      - intro H. contradiction.
      - intro H. discriminate H.
      - intros (H & _). contradiction. }
  apply Z.eqb_eq in Ho.
  destruct (Qltb (current_balance fromAccount) (Transfers.totalDeduction req)) eqn:Hb;
    simpl.
  { apply Qltb_lt in Hb. split; [|split; [|split]].
    - intro H. contradiction.
    - intros _ _. reflexivity.
    - intro H. discriminate H.
    - intros (_ & Hle & _). exfalso. exact (Qlt_not_le _ _ Hb Hle). }
  apply Qltb_ge in Hb.
  destruct (Transfers.fromAccountId req =? account_id toAccount) eqn:Hs; simpl.
  { apply Z.eqb_eq in Hs. split; [|split; [|split]].
    - intro H. contradiction.
    - intros _ Hlt. exfalso. exact (Qlt_not_le _ _ Hlt Hb).
    - intros _. repeat split; assumption.
    - intros _. reflexivity. }
  apply Z.eqb_neq in Hs.
  split; [|split; [|split]].
  - intro H. contradiction.
  - intros _ Hlt. exfalso. exact (Qlt_not_le _ _ Hlt Hb).
  - destruct (Transfers.select_balance (Transfers.fromAccountId req) _);
      [discriminate|].
    destruct (Transfers.select_balance (account_id toAccount) _); discriminate.
  - intros (_ & _ & H). contradiction.
Qed.



(** With the primary key on [accounts] the same-account answer is never
    given: the earlier guards have rejected every such request. *)
Lemma same_account_never_answered (today : Z) (req : Transfers.request) (d : database) :
  accounts_keyed d ->
  fst (Transfers.create_transfer no_faults today req d)
  <> failure 400 Transfers.same_account.
Proof.
  intros Hk H.
  destruct (Transfers.validation_errors req) eqn:Hv.
  2:{ unfold Transfers.create_transfer in H. rewrite Hv in H. discriminate. }
  destruct (Z.eq_dec (Transfers.user_id req) (Transfers.toUserId req)) as [Hu|Hu].
  { destruct (create_transfer_self no_faults today req d Hv Hu) as (_ & _ & Hr).
    rewrite Hr in H. discriminate. }
  destruct (hd_error (Transfers.select_from_account req d)) as [fromAccount|] eqn:Hf.
  2:{ unfold Transfers.create_transfer in H. rewrite Hv in H.
      unfold Transfers.post in H. revert H. unfold_statements.
      apply Z.eqb_neq in Hu. rewrite Hu. simpl.
      destruct (Transfers.select_from_account req d); [discriminate|discriminate]. }
  destruct (hd_error (Transfers.select_to_account req d)) as [toAccount|] eqn:Ht.
  2:{ unfold Transfers.create_transfer in H. rewrite Hv in H.
      unfold Transfers.post in H. revert H. unfold_statements.
      apply Z.eqb_neq in Hu. rewrite Hu. simpl.
      destruct (Transfers.select_from_account req d); [discriminate|].
      destruct (Transfers.select_to_account req d); discriminate. }
  destruct (create_transfer_guard_order today req d fromAccount toAccount Hv Hu Hf Ht)
    as (_ & _ & Hsame).
  apply Hsame in H. destruct H as (Ho & _ & Heq).
  apply hd_error_In in Hf. unfold Transfers.select_from_account in Hf.
  apply filter_In in Hf. destruct Hf as [Hfin Hid]. apply Z.eqb_eq in Hid.
  rewrite select_to_account_derived in Ht.
  destruct (derived_account_least _ _ _ Ht) as (Htin & Htu & _).
  assert (fromAccount = toAccount).
  { apply (keyed_injective (accounts d)); try assumption. congruence. }
  subst. congruence.
Qed.

(** *** The effect of a recorded transfer *)
















(* ================================================================== *)
(** ** Budgets *)

(** *** Creating a budget *)





Lemma errorHandler_message {D : Type} (e : error) :
  exists text, msg (@errorHandler D e) = Some (Text text)
               /\ data (@errorHandler D e) = None.
Proof.
  destruct e as [code message|message]; [|eexists; split; reflexivity].
  unfold errorHandler.
  repeat match goal with
         | |- context [if ?b then _ else _] => destruct b
         end; eexists; split; reflexivity.
Qed.

Lemma asyncHandler_data {D : Type} (o : result (response D)) (x : D) :
  data (asyncHandler o) = Some x ->
  exists r, o = Returned r /\ data r = Some x.
Proof.
  destruct o as [r|e]; simpl; intro H; [exists r; split; [reflexivity | exact H]|].
  destruct (@errorHandler_message D e) as (text & _ & Hnone). congruence.
Qed.





(** Outside the rejections above the handler is not atomic: it opens no
    transaction, so when the first allocation insert throws, the budget row
    that [create_budget] stored stays, without its allocations, and the
    error middleware answers 503. *)
Lemma failed_allocation_leaves_budget :
  let req := Examples.budget_request 500 32 59 [Examples.allocation 1 200] in
  let out := Budgets.create (Examples.failing_at 4) 40 req Examples.household in
  fst out = failure 503 (Text "Database connection failure")
  /\ map budget_id (budgets (snd out)) = [1; 2]
  /\ budget_categories (snd out) = budget_categories Examples.household.
Proof.
  vm_compute. repeat split; reflexivity.
Qed.

(** *** Utilization *)


Lemma utilization_zero (spent : Q) :
  is_finite (Budgets.utilization spent 0) = false.
Proof.
  unfold Budgets.utilization, js_div. simpl.
  destruct (Qeq_bool spent 0); [reflexivity|].
  destruct (Qltb 0 spent); reflexivity.
Qed.







(** *** Stored allocations are positive *)








(** *** Total spent *)

Lemma existsb_filter {A : Type} (f g : A -> bool) (l : list A) :
  existsb (fun a => f a && g a) l = existsb g (filter f l).
Proof.
  induction l as [|a l IH]; simpl; [reflexivity|].
  rewrite IH. destruct (f a); simpl; reflexivity.
Qed.

Lemma existsb_pointwise {A : Type} (f g : A -> bool) (l : list A) :
  (forall a, f a = g a) -> existsb f l = existsb g l.
Proof.
  intro H. induction l as [|a l IH]; simpl; [reflexivity|].
  rewrite H, IH. reflexivity.
Qed.

Lemma keyed_filter (l : list account) (x : Z) :
  NoDup (map account_id l) ->
  filter (fun a => x =? account_id a) l = []
  \/ exists a, filter (fun a => x =? account_id a) l = [a].
Proof.
  induction l as [|a l IH]; simpl; intro Hnd; [left; reflexivity|].
  inversion Hnd as [|? ? Ha Hl]; subst.
  destruct (x =? account_id a) eqn:E.
  - right. exists a. f_equal.
    apply Z.eqb_eq in E. subst x.
    destruct (filter (fun a0 => account_id a =? account_id a0) l) as [|c cs] eqn:F;
      [reflexivity|].
    exfalso. apply Ha.
    assert (Hc : In c (filter (fun a0 => account_id a =? account_id a0) l))
      by (rewrite F; left; reflexivity).
    apply filter_In in Hc. destruct Hc as [Hc Heq]. apply Z.eqb_eq in Heq.
    rewrite Heq. apply in_map, Hc.
  - apply IH, Hl.
Qed.

Lemma total_spent_rows (b : budget) (d : database) :
  accounts_keyed d ->
  map (fun ta : transaction * account => Qabs (transaction_amount (fst ta)))
    (filter (fun ta =>
               (account_user_id (snd ta) =? budget_user_id b)
               && between (transaction_date (fst ta)) (start_date b) (end_date b)
               && String.eqb (transaction_type (fst ta)) "EXPENSE")
       (join (fun t a => transaction_account_id t =? account_id a)
          (transactions d) (accounts d)))
  = map (fun t => Qabs (transaction_amount t)) (Budgets.window_expenses b d).
Proof.
  intro Hk. unfold Budgets.window_expenses, join.
  induction (transactions d) as [|t ts IH]; simpl; [reflexivity|].
  rewrite filter_app, map_app, IH. clear IH.
  assert (Hex : existsb (fun a => (account_id a =? transaction_account_id t)
                                  && (account_user_id a =? budget_user_id b))
                  (accounts d)
                = existsb (fun a => account_user_id a =? budget_user_id b)
                    (filter (fun a => transaction_account_id t =? account_id a)
                       (accounts d))).
  { rewrite <- existsb_filter. apply existsb_pointwise.
    intro a. rewrite (Z.eqb_sym (account_id a)). reflexivity. }
  rewrite Hex.
  destruct (keyed_filter (accounts d) (transaction_account_id t) Hk) as [F | [a F]];
    rewrite F; simpl.
  - reflexivity.
  - rewrite orb_false_r.
    destruct ((account_user_id a =? budget_user_id b)
              && between (transaction_date t) (start_date b) (end_date b)
              && String.eqb (transaction_type t) "EXPENSE"); reflexivity.
Qed.

Lemma total_spent_window (b : budget) (d : database) :
  accounts_keyed d ->
  Budgets.total_spent b d
  = Qsum (map (fun t => Qabs (transaction_amount t)) (Budgets.window_expenses b d)).
Proof.
  intro Hk. unfold Budgets.total_spent. rewrite total_spent_rows by assumption.
  reflexivity.
Qed.

Lemma list_budgets_totalSpent (faults : nat -> option error) (today userId : Z)
    (p : Budgets.list_params) (d : database)
    (items : list Budgets.listed) (item : Budgets.listed) :
  data (Budgets.list_budgets faults today userId p d) = Some items ->
  In item items ->
  exists b, In b (budgets d)
            /\ Budgets.listed_id item = budget_id b
            /\ Budgets.totalSpent item = Budgets.total_spent b d.
Proof.
  intros Hdata. unfold Budgets.list_budgets in Hdata.
  apply asyncHandler_data in Hdata. destruct Hdata as (r & Hr & Hd). revert Hr Hd.
  unfold_statements.
  destruct (faults 0%nat); simpl; [discriminate|].
  destruct (faults 1%nat); simpl; [discriminate|].
  destruct (faults 2%nat); simpl; [discriminate|].
  intros Hr Hd Hin. injection Hr as <-. simpl in Hd. injection Hd as <-.
  apply in_map_iff in Hin. destruct Hin as (b & <- & Hb).
  unfold Budgets.select_budgets in Hb. apply order_by_In in Hb.
  apply filter_In in Hb. exists b. repeat split. tauto.
Qed.

Lemma get_budget_totalSpent (name_leb : string -> string -> bool)
    (faults : nat -> option error) (userId budgetId : Z) (d : database)
    (det : Budgets.detail) :
  data (Budgets.get_budget name_leb faults userId budgetId d) = Some det ->
  exists b, In b (budgets d)
            /\ budget_id b = budgetId
            /\ Budgets.detail_id det = budget_id b
            /\ Budgets.detail_totalSpent det = Budgets.total_spent b d.
Proof.
  intros Hdata. unfold Budgets.get_budget in Hdata.
  apply asyncHandler_data in Hdata. destruct Hdata as (r & Hr & Hd). revert Hr Hd.
  unfold_statements.
  destruct (faults 0%nat); simpl; [discriminate|].
  destruct (faults 1%nat); simpl; [discriminate|].
  destruct (faults 2%nat); simpl; [discriminate|].
  destruct (Budgets.select_budget userId budgetId d) as [|b bs] eqn:E; simpl.
  { intros Hr Hd. injection Hr as <-. discriminate. }
  destruct (faults 3%nat); simpl; [discriminate|].
  intros Hr Hd. injection Hr as <-. simpl in Hd. injection Hd as <-. simpl.
  assert (Hb : In b (Budgets.select_budget userId budgetId d))
    by (rewrite E; left; reflexivity).
  unfold Budgets.select_budget in Hb. apply filter_In in Hb.
  destruct Hb as [Hb Hc].
  apply andb_prop in Hc. destruct Hc as [Hc _].
  apply andb_prop in Hc. destruct Hc as [_ Hc]. apply Z.eqb_eq in Hc.
  exists b. repeat split; assumption.
Qed.

(** *** Per-category figures *)

Lemma filter_flat_map {A B : Type} (q : B -> bool) (f : A -> list B) (l : list A) :
  filter q (flat_map f l) = flat_map (fun a => filter q (f a)) l.
Proof.
  induction l as [|a l IH]; simpl; [reflexivity|].
  rewrite filter_app, IH. reflexivity.
Qed.

Lemma flat_map_filter {A B : Type} (p : A -> bool) (f : A -> list B) (l : list A) :
  flat_map f (filter p l) = flat_map (fun a => if p a then f a else []) l.
Proof.
  induction l as [|a l IH]; simpl; [reflexivity|].
  destruct (p a); simpl; rewrite IH; reflexivity.
Qed.

Lemma filter_const {A : Type} (b : bool) (l : list A) :
  filter (fun _ => b) l = if b then l else [].
Proof.
  induction l as [|a l IH]; simpl.
  - destruct b; reflexivity.
  - rewrite IH. destruct b; reflexivity.
Qed.

Lemma left_join_filter_left {A B : Type} (on : A -> B -> bool) (p : A -> bool)
    (l : list A) (r : list B) :
  filter (fun x => p (fst x)) (left_join on l r) = left_join on (filter p l) r.
Proof.
  unfold left_join. rewrite filter_flat_map, flat_map_filter.
  apply flat_map_ext. intro a.
  destruct (filter (on a) r) as [|m ms].
  - simpl. destruct (p a); reflexivity.
  - rewrite <- (filter_const (p a) (map (fun b => (a, Some b)) (m :: ms))).
    apply filter_ext_in. intros x Hx. apply in_map_iff in Hx.
    destruct Hx as (y & <- & _). reflexivity.
Qed.

Lemma left_join_ext {A B : Type} (on on' : A -> B -> bool) (l : list A)
    (r r' : list B) :
  (forall a, In a l -> filter (on a) r = filter (on' a) r') ->
  left_join on l r = left_join on' l r'.
Proof.
  unfold left_join. induction l as [|a l IH]; intro H; [reflexivity|].
  cbn [flat_map]. rewrite (H a (or_introl eq_refl)), IH; [reflexivity|].
  intros a' Ha'. apply H. right. exact Ha'.
Qed.

(** A transaction whose category the budget does not allocate enters none
    of the per-category rows. *)
Lemma select_categories_unallocated (name_leb : string -> string -> bool)
    (userId lo hi budgetId : Z) (d : database) (t : transaction) :
  ~ In (transaction_category_id t) (Budgets.allocated_categories budgetId d) ->
  Budgets.select_categories name_leb userId lo hi budgetId
    (with_transactions (transactions d ++ [t]) d)
  = Budgets.select_categories name_leb userId lo hi budgetId d.
Proof.
  intro Hnot. unfold Budgets.select_categories. do 3 f_equal.
  unfold Budgets.category_join. simpl.
  rewrite (left_join_filter_left _ (fun x => bc_budget_id (fst x) =? budgetId)).
  rewrite (left_join_filter_left _ (fun x => bc_budget_id (fst x) =? budgetId)).
  apply left_join_ext.
  intros [bc c] Hin. apply filter_In in Hin. destruct Hin as [Hin Hb].
  apply join_In in Hin. destruct Hin as (Hbc & _ & Hc).
  simpl in Hb, Hc. apply Z.eqb_eq in Hc.
  rewrite filter_app. simpl.
  assert (Hoff : Budgets.spending_of userId lo hi
                   (with_transactions (transactions d ++ [t]) d) c t = false).
  { unfold Budgets.spending_of.
    destruct (category_id c =? transaction_category_id t) eqn:E; [|reflexivity].
    apply Z.eqb_eq in E. exfalso. apply Hnot.
    unfold Budgets.allocated_categories. rewrite <- E, <- Hc.
    apply in_map. apply filter_In. tauto. }
  rewrite Hoff, app_nil_r. reflexivity.
Qed.

Lemma total_spent_added (b : budget) (d : database) (t : transaction) :
  accounts_keyed d ->
  In t (Budgets.window_expenses b (with_transactions (transactions d ++ [t]) d)) ->
  (Budgets.total_spent b (with_transactions (transactions d ++ [t]) d)
   == Budgets.total_spent b d + Qabs (transaction_amount t))%Q.
Proof.
  intros Hk Hin.
  rewrite (total_spent_window b (with_transactions _ d)) by exact Hk.
  rewrite (total_spent_window b d) by exact Hk.
  unfold Budgets.window_expenses in *. simpl in *.
  rewrite filter_app, map_app, Qsum_app.
  apply filter_In in Hin. destruct Hin as [_ Hp].
  simpl. rewrite Hp. simpl. lra.
Qed.

(** C10.  In the list and detail answers [totalSpent] is the sum of the
    absolute amounts of all EXPENSE transactions on the owner's accounts
    dated within the budget window; the category plays no part in it.  The
    per-category rows count only transactions of the categories allocated
    to the budget: a transaction of another category raises [totalSpent] by
    its absolute amount and leaves every per-category row as it was, so
    [totalSpent] can exceed the sum of the per-category spent amounts. *)
Theorem total_spent_ignores_allocation :
  (forall d b,
     accounts_keyed d ->
     Budgets.total_spent b d
     = Qsum (map (fun t => Qabs (transaction_amount t)) (Budgets.window_expenses b d))
     /\ (forall faults today userId p items item,
           data (Budgets.list_budgets faults today userId p d) = Some items ->
           In item items ->
           exists b', In b' (budgets d)
                      /\ Budgets.listed_id item = budget_id b'
                      /\ Budgets.totalSpent item = Budgets.total_spent b' d)
     /\ (forall name_leb faults userId budgetId det,
           data (Budgets.get_budget name_leb faults userId budgetId d) = Some det ->
           exists b', In b' (budgets d)
                      /\ budget_id b' = budgetId
                      /\ Budgets.detail_id det = budget_id b'
                      /\ Budgets.detail_totalSpent det = Budgets.total_spent b' d)
     /\ (forall t,
           ~ In (transaction_category_id t)
               (Budgets.allocated_categories (budget_id b) d) ->
           In t (Budgets.window_expenses b
                   (with_transactions (transactions d ++ [t]) d)) ->
           (forall name_leb userId lo hi,
              Budgets.select_categories name_leb userId lo hi (budget_id b)
                (with_transactions (transactions d ++ [t]) d)
              = Budgets.select_categories name_leb userId lo hi (budget_id b) d)
           /\ (Budgets.total_spent b (with_transactions (transactions d ++ [t]) d)
               == Budgets.total_spent b d + Qabs (transaction_amount t))%Q))
  /\ (exists det,
        data (Budgets.get_budget String.leb no_faults 1 1 Examples.household) = Some det
        /\ (Qsum (map Budgets.spentAmount (Budgets.detail_categories det))
            < Budgets.detail_totalSpent det)%Q).
Proof.
  split.
  - intros d b Hk. split; [|split; [|split]].
    + apply total_spent_window, Hk.
    + intros. eapply list_budgets_totalSpent; eassumption.
    + intros. eapply get_budget_totalSpent; eassumption.
    + intros t Hnot Hin. split.
      * intros. apply select_categories_unallocated, Hnot.
      * apply total_spent_added; assumption.
  - destruct (data (Budgets.get_budget String.leb no_faults 1 1 Examples.household))
      as [det|] eqn:E; [|vm_compute in E; discriminate].
    exists det. split; [reflexivity|].
    vm_compute in E. injection E as <-. vm_compute. reflexivity.
Qed.

Lemma C10_witness :
  let d := with_transactions [Examples.expense 1 1 1 50 5] Examples.household in
  let b := {| budget_id := 1; budget_user_id := 1; budget_name := "January";
              start_date := 1; end_date := 31; total_budget := 500;
              budget_created_date := 0; budget_is_active := true |} in
  let travel := Examples.expense 2 1 3 70 6 in
  (Budgets.total_spent b (with_transactions (transactions d ++ [travel]) d)
   == Budgets.total_spent b d + 70)%Q
  /\ Budgets.select_categories String.leb 1 1 31 1
       (with_transactions (transactions d ++ [travel]) d)
     = Budgets.select_categories String.leb 1 1 31 1 d.
Proof.
  intros d b travel.
  assert (Hk : accounts_keyed d).
  { repeat constructor; simpl; intuition discriminate. }
  destruct total_spent_ignores_allocation as [H _].
  destruct (H d b Hk) as (_ & _ & _ & Hadd).
  destruct (Hadd travel) as [Hrows Htotal].
  - simpl. intuition discriminate.
  - vm_compute. right. left. reflexivity.
  - split.
    + exact Htotal.
    + apply Hrows.
Defined.

(* ================================================================== *)
(** ** Reports *)

Lemma award_score (points : Z) (type message : string) (s : Reports.scoring) :
  Reports.healthScore (Reports.award points type message s)
  = Reports.healthScore s + points.
Proof. reflexivity. Qed.

Lemma remark_score (type message : string) (s : Reports.scoring) :
  Reports.healthScore (Reports.remark type message s) = Reports.healthScore s.
Proof. reflexivity. Qed.

Lemma score_balance_band (totalBalance : Q) (s : Reports.scoring) :
  Reports.healthScore (Reports.score_balance totalBalance s)
  = Reports.healthScore s + Reports.balance_band totalBalance.
Proof.
  unfold Reports.score_balance, Reports.balance_band.
  destruct (Qgtb totalBalance 10000); [apply award_score|].
  destruct (Qgtb totalBalance 5000); [apply award_score|].
  destruct (Qgtb totalBalance 1000); [apply award_score|].
  rewrite remark_score. lia.
Qed.

Lemma score_ratio_band (income expenses : Q) (s : Reports.scoring) :
  Reports.healthScore (Reports.score_ratio income expenses s)
  = Reports.healthScore s + Reports.ratio_band income expenses.
Proof.
  unfold Reports.score_ratio, Reports.ratio_band.
  destruct (Qgtb income 0); [|lia].
  destruct (Qltb (expenses / income) (5 # 10)); [apply award_score|].
  destruct (Qltb (expenses / income) (7 # 10)); [apply award_score|].
  destruct (Qltb (expenses / income) (9 # 10)); [apply award_score|].
  rewrite remark_score. lia.
Qed.

Lemma score_budgets_band (activeBudgets : Z) (s : Reports.scoring) :
  Reports.healthScore (Reports.score_budgets activeBudgets s)
  = Reports.healthScore s + Reports.budget_band activeBudgets.
Proof.
  unfold Reports.score_budgets, Reports.budget_band.
  destruct (Z.ltb_spec 0 activeBudgets), (Z.leb_spec 1 activeBudgets);
    try lia; [apply award_score | rewrite remark_score; lia].
Qed.

Lemma score_accounts_band (accountCount : Z) (s : Reports.scoring) :
  Reports.healthScore (Reports.score_accounts accountCount s)
  = Reports.healthScore s + Reports.account_band accountCount.
Proof.
  unfold Reports.score_accounts, Reports.account_band.
  destruct (3 <=? accountCount); [apply award_score|].
  destruct (2 <=? accountCount); [apply award_score|].
  rewrite remark_score. lia.
Qed.

Lemma band_ranges (m : Reports.metrics) :
  0 <= Reports.balance_band (Reports.total_balance m) <= 30
  /\ 0 <= Reports.ratio_band (Reports.monthly_income m) (Reports.monthly_expenses m) <= 30
  /\ 0 <= Reports.budget_band (Reports.active_budgets m) <= 20
  /\ 0 <= Reports.account_band (Reports.account_count m) <= 20.
Proof.
  unfold Reports.balance_band, Reports.ratio_band, Reports.budget_band,
    Reports.account_band.
  repeat split;
    repeat match goal with
           | |- context [if ?c then _ else _] => destruct c
           end; lia.
Qed.


(** *** What a failed operation answers *)














(* ================================================================== *)
(** ** Receipts *)

Lemma create_transaction_stored (req : Receipts.request) (d : database) :
  Receipts.validation_errors req = [] ->
  Receipts.select_receipt req d <> [] ->
  snd (fst (Receipts.create_transaction no_faults true req d))
  = snd (Receipts.mark_created req (snd (Receipts.insert_transaction req d)))
  /\ success (fst (fst (Receipts.create_transaction no_faults true req d))) = true.
Proof.
  intros Hv Hr. unfold Receipts.create_transaction. rewrite Hv. simpl.
  unfold Receipts.post. unfold_statements.
  destruct (Receipts.select_receipt req d); [congruence|].
  simpl. split; reflexivity.
Qed.

Lemma linked_after (req : Receipts.request) (d : database) :
  Receipts.linked (Receipts.receiptId req)
    (snd (Receipts.mark_created req (snd (Receipts.insert_transaction req d))))
  = Receipts.linked (Receipts.receiptId req) d
    ++ [fst (Receipts.insert_transaction req d)].
Proof.
  unfold Receipts.linked. simpl. rewrite filter_app. simpl.
  rewrite Z.eqb_refl. reflexivity.
Qed.

Lemma select_receipt_after (req : Receipts.request) (d : database) :
  Receipts.select_receipt req
    (snd (Receipts.mark_created req (snd (Receipts.insert_transaction req d))))
  = Receipts.select_receipt req d.
Proof.
  unfold Receipts.select_receipt. simpl.
  induction (receipts d) as [|r rs IH]; simpl; [reflexivity|].
  destruct (receipt_id r =? Receipts.receiptId req) eqn:E; simpl.
  - rewrite E. simpl.
    destruct (Reports.is_user (Receipts.userId req) (receipt_user_id r)); simpl;
      rewrite IH; reflexivity.
  - rewrite E. simpl. exact IH.
Qed.

Lemma flag_after (req : Receipts.request) (d : database) :
  Receipts.select_receipt req d <> [] ->
  Receipts.flag_of (Receipts.receiptId req)
    (snd (Receipts.mark_created req (snd (Receipts.insert_transaction req d))))
  = Some true.
Proof.
  unfold Receipts.select_receipt, Receipts.flag_of. simpl.
  induction (receipts d) as [|r rs IH]; simpl; [congruence|].
  destruct (receipt_id r =? Receipts.receiptId req) eqn:E; simpl.
  - rewrite E. reflexivity.
  - rewrite E. exact IH.
Qed.

Lemma resend_linked (n : nat) (req : Receipts.request) (d : database) :
  Receipts.validation_errors req = [] ->
  Receipts.select_receipt req d <> [] ->
  List.length (Receipts.linked (Receipts.receiptId req) (Receipts.resend n req d))
  = (List.length (Receipts.linked (Receipts.receiptId req) d) + n)%nat.
Proof.
  intro Hv. revert d. induction n as [|n IH]; intros d Hr; simpl; [lia|].
  destruct (create_transaction_stored req d Hv Hr) as [Hd _].
  rewrite Hd, IH.
  - rewrite linked_after, length_app. simpl. lia.
  - rewrite select_receipt_after. exact Hr.
Qed.

(** C9, as stated, fails: the first request creates a transaction from
    receipt 7 and sets its flag; the same request sent again succeeds too,
    and the receipt then has two linked transactions. *)
Lemma second_request_links_again :
  let req := Examples.receipt_request 7 30 in
  let once := snd (fst (Receipts.create_transaction no_faults true req
                          Examples.household)) in
  let twice := Receipts.create_transaction no_faults true req once in
  Receipts.flag_of 7 once = Some true
  /\ List.length (Receipts.linked 7 once) = 1%nat
  /\ success (fst (fst twice)) = true
  /\ List.length (Receipts.linked 7 (snd (fst twice))) = 2%nat.
Proof.
  vm_compute. repeat split; reflexivity.
Qed.

(** C9, amended.  Creating a transaction from a receipt the caller owns
    (database connected, no statement failing) stores one more transaction
    linked to the receipt and sets the receipt's flag; the flag is written
    but never read, so this holds whatever its value was, and [n] requests
    for one receipt leave [n] more linked transactions. *)
Theorem receipt_flag_set_not_checked (req : Receipts.request) (d : database) :
  Receipts.validation_errors req = [] ->
  Receipts.select_receipt req d <> [] ->
  success (fst (fst (Receipts.create_transaction no_faults true req d))) = true
  /\ (exists row,
        Receipts.linked (Receipts.receiptId req)
          (snd (fst (Receipts.create_transaction no_faults true req d)))
        = Receipts.linked (Receipts.receiptId req) d ++ [row]
        /\ transaction_receipt_id row = Some (Receipts.receiptId req))
  /\ Receipts.flag_of (Receipts.receiptId req)
       (snd (fst (Receipts.create_transaction no_faults true req d)))
     = Some true
  /\ (forall n,
        List.length (Receipts.linked (Receipts.receiptId req)
                       (Receipts.resend n req d))
        = (List.length (Receipts.linked (Receipts.receiptId req) d) + n)%nat).
Proof.
  intros Hv Hr.
  destruct (create_transaction_stored req d Hv Hr) as [Hd Hs].
  split; [exact Hs|]. rewrite Hd. split; [|split].
  - eexists. split; [apply linked_after | reflexivity].
  - apply flag_after, Hr.
  - intro n. apply resend_linked; assumption.
Qed.

Lemma C9_witness :
  let req := Examples.receipt_request 7 30 in
  let flagged :=
    with_receipts [{| receipt_id := 7; receipt_user_id := 1;
                      transaction_created := true |}]
      (with_transactions
         [Examples.expense 1 1 1 50 5;
          {| transaction_id := 2; transaction_user_id := Some 1;
             transaction_account_id := 1; transaction_category_id := 1;
             transaction_amount := - (30); transaction_description := "groceries";
             transaction_date := 9; transaction_type := "EXPENSE";
             transaction_receipt_id := Some 7 |}]
         Examples.household) in
  Receipts.flag_of 7 flagged = Some true
  /\ success (fst (fst (Receipts.create_transaction no_faults true req flagged))) = true
  /\ List.length (Receipts.linked 7 (Receipts.resend 3 req flagged)) = 4%nat.
Proof.
  intros req flagged.
  destruct (receipt_flag_set_not_checked req flagged) as (Hs & _ & _ & Hn).
  - reflexivity.
  - vm_compute. discriminate.
  - split; [reflexivity|]. split; [exact Hs|].
    etransitivity; [exact (Hn 3%nat) | vm_compute; reflexivity].
Defined.

(* ================================================================== *)
(** ** The error middleware *)


(* ================================================================== *)
(** ** The transaction helper *)


Lemma bind_on_client {A B : Type} (m : M A) (k : A -> M B) :
  Database.on_client m -> (forall a, Database.on_client (k a)) ->
  Database.on_client (bind m k).
Proof.
  intros Hm Hk w Hs. unfold bind.
  destruct (Hm w Hs) as [Hd Hopen].
  destruct (m w) as [[a|e] w']; simpl in *; [|auto].
  destruct (Hk a w' Hopen) as [Hd' Hopen'].
  split; [congruence | assumption].
Qed.



(* ================================================================== *)
(** ** Authentication *)

Lemma split_free (sep : ascii) (s : string) :
  Auth.free_of sep s -> Auth.split sep s = [s].
Proof.
  unfold Auth.free_of. induction s as [|c s IH]; simpl; intro H; [reflexivity|].
  destruct (Ascii.eqb c sep) eqn:E.
  - apply Ascii.eqb_eq in E. exfalso. apply H. left. exact E.
  - rewrite IH; [reflexivity|]. intro Hin. apply H. right. exact Hin.
Qed.

Lemma split_word (sep : ascii) (word rest : string) :
  Auth.free_of sep word ->
  Auth.split sep (word ++ String sep rest) = word :: Auth.split sep rest.
Proof.
  unfold Auth.free_of. induction word as [|c word IH]; simpl; intro H.
  - rewrite Ascii.eqb_refl. reflexivity.
  - destruct (Ascii.eqb c sep) eqn:E.
    + apply Ascii.eqb_eq in E. exfalso. apply H. left. exact E.
    + rewrite IH; [reflexivity|]. intro Hin. apply H. right. exact Hin.
Qed.

Lemma header_not_empty (scheme rest : string) :
  String.eqb (scheme ++ String " "%char rest) "" = false.
Proof. destruct scheme; reflexivity. Qed.

(** X3.  The token is the text between the first and the second space of
    the [Authorization] header, whatever word stands before it: the scheme
    is not looked at.  A header that is absent, or has no space, or has
    nothing after its first space, is answered 401 "Access token required"
    before anything is verified. *)
Theorem token_is_second_word (scheme token : string) :
  Auth.free_of " " scheme -> Auth.free_of " " token ->
  (token <> ""%string ->
   Auth.token_of (Some (scheme ++ " " ++ token)%string) = Some token
   /\ forall rest,
        Auth.token_of (Some (scheme ++ " " ++ token ++ " " ++ rest)%string)
        = Some token)
  /\ (forall verify trim faults users authorization,
        authorization = None \/ authorization = Some scheme
        \/ authorization = Some (scheme ++ " ")%string
        \/ authorization = Some (scheme ++ "  " ++ token)%string ->
        Auth.authenticateToken verify trim faults authorization users
        = Auth.Answered (failure 401 (Text "Access token required"))).
Proof.
  intros Hscheme Htoken. split.
  - intro Hne. split.
    + unfold Auth.token_of. simpl append. rewrite header_not_empty.
      rewrite split_word by assumption. rewrite split_free by assumption.
      reflexivity.
    + intro rest. unfold Auth.token_of. simpl append. rewrite header_not_empty.
      rewrite split_word by assumption. rewrite split_word by assumption.
      reflexivity.
  - intros verify trim faults users authorization [-> | [-> | [-> | ->]]];
      unfold Auth.authenticateToken, Auth.token_of.
    + reflexivity.
    + destruct (String.eqb scheme "") eqn:E.
      * rewrite E. reflexivity.
      * rewrite split_free by assumption. reflexivity.
    + simpl append. rewrite header_not_empty.
      rewrite split_word by assumption. reflexivity.
    + change (scheme ++ "  " ++ token)%string
        with (scheme ++ String " "%char (String " "%char token))%string.
      rewrite header_not_empty.
      rewrite split_word by assumption.
      change (String " "%char token) with ("" ++ String " "%char token)%string.
      rewrite (split_word " " "" token) by (intros []).
      reflexivity.
Qed.

Lemma token_is_second_word_witness :
  Auth.token_of (Some "Bearer abc.def.ghi"%string) = Some "abc.def.ghi"%string
  /\ Auth.token_of (Some "Basic abc.def.ghi trailing words"%string)
     = Some "abc.def.ghi"%string.
Proof.
  assert (Hfree : forall s, forallb (fun c => negb (Ascii.eqb c " "))
                              (list_ascii_of_string s) = true ->
                            Auth.free_of " " s).
  { intros s H Hin. rewrite forallb_forall in H. specialize (H _ Hin).
    rewrite Ascii.eqb_refl in H. discriminate. }
  split.
  - apply (token_is_second_word "Bearer" "abc.def.ghi");
      [apply Hfree; reflexivity | apply Hfree; reflexivity | discriminate].
  - destruct (token_is_second_word "Basic" "abc.def.ghi") as [H _];
      [apply Hfree; reflexivity | apply Hfree; reflexivity |].
    destruct H as [_ H]; [discriminate|]. exact (H "trailing words"%string).
Defined.

Lemma authenticated_row (verify : string -> Auth.verified) (trim : string -> string)
    (faults : nat -> option error) (authorization : option string)
    (users : list Directory.user) (user : Auth.req_user) :
  Auth.authenticateToken verify trim faults authorization users = Auth.Next user ->
  exists token row,
    Auth.token_of authorization = Some token
    /\ verify token = Auth.Payload (Some (Directory.user_id row))
    /\ In row users
    /\ Directory.is_active row = true
    /\ user = Auth.req_user_of trim row.
Proof.
  unfold Auth.authenticateToken.
  destruct (Auth.token_of authorization) as [token|]; [|discriminate].
  destruct (String.eqb token ""); [discriminate|].
  destruct (verify token) as [id|name] eqn:Hv.
  2:{ destruct (String.eqb name "JsonWebTokenError"); [discriminate|].
      destruct (String.eqb name "TokenExpiredError"); discriminate. }
  unfold Auth.lookup. unfold_statements.
  destruct (faults 0%nat); simpl; [discriminate|].
  destruct (faults 1%nat); simpl; [discriminate|].
  destruct (Auth.select_user id users) as [|row rows] eqn:Hsel; simpl; [discriminate|].
  intro H. injection H as <-.
  assert (Hin : In row (Auth.select_user id users)) by (rewrite Hsel; left; reflexivity).
  unfold Auth.select_user in Hin. apply filter_In in Hin. destruct Hin as [Hin Hc].
  apply andb_prop in Hc. destruct Hc as [Hid Hactive].
  destruct id as [id|]; [|discriminate]. simpl in Hid. apply Z.eqb_eq in Hid.
  exists token, row. rewrite Hid. repeat split; assumption.
Qed.

(** X4.  [authenticateToken] lets a request through only for a user that
    exists and is active: the token verifies, its payload names the user,
    and [req.user] is built from that user's row.  Every other outcome is
    an answer with [success: false] and status 401 or 500.  Conversely a
    verified token of an active user passes when no statement throws. *)
Theorem authentication_passes_active_users_only
    (verify : string -> Auth.verified) (trim : string -> string)
    (faults : nat -> option error) (authorization : option string)
    (users : list Directory.user) :
  (forall user,
     Auth.authenticateToken verify trim faults authorization users = Auth.Next user ->
     exists token row,
       Auth.token_of authorization = Some token
       /\ verify token = Auth.Payload (Some (Directory.user_id row))
       /\ In row users
       /\ Directory.is_active row = true
       /\ user = Auth.req_user_of trim row)
  /\ (forall r,
        Auth.authenticateToken verify trim faults authorization users = Auth.Answered r ->
        success r = false /\ (status r = 401 \/ status r = 500))
  /\ (forall token row,
        Auth.token_of authorization = Some token ->
        token <> ""%string ->
        verify token = Auth.Payload (Some (Directory.user_id row)) ->
        In row users ->
        Directory.is_active row = true ->
        faults 0%nat = None -> faults 1%nat = None ->
        exists user,
          Auth.authenticateToken verify trim faults authorization users = Auth.Next user
          /\ Auth.user_id user = Directory.user_id row
          /\ Auth.isActive user = true).
Proof.
  split; [|split].
  - intros user. apply authenticated_row.
  - unfold Auth.authenticateToken. intros r.
    destruct (Auth.token_of authorization) as [token|].
    2:{ intro H. injection H as <-. simpl. auto. }
    destruct (String.eqb token "").
    { intro H. injection H as <-. simpl. auto. }
    destruct (verify token) as [id|name].
    2:{ destruct (String.eqb name "JsonWebTokenError").
        { intro H. injection H as <-. simpl. auto. }
        destruct (String.eqb name "TokenExpiredError");
          intro H; injection H as <-; simpl; auto. }
    unfold Auth.lookup. unfold_statements.
    destruct (faults 0%nat); simpl.
    { intro H. injection H as <-. simpl. auto. }
    destruct (faults 1%nat); simpl.
    { intro H. injection H as <-. simpl. auto. }
    destruct (Auth.select_user id users) as [|row rows]; simpl; [|discriminate].
    intro H. injection H as <-. simpl. auto.
  - unfold Auth.authenticateToken. intros token row -> Hne Hv Hin Hactive H0 H1.
    apply String.eqb_neq in Hne. rewrite Hne, Hv.
    unfold Auth.lookup. unfold_statements. rewrite H0. simpl. rewrite H1. simpl.
    destruct (Auth.select_user (Some (Directory.user_id row)) users)
      as [|first rows] eqn:Hsel.
    + exfalso.
      assert (Hrow : In row (Auth.select_user (Some (Directory.user_id row)) users)).
      { unfold Auth.select_user. apply filter_In. split; [exact Hin|].
        simpl. rewrite Z.eqb_refl, Hactive. reflexivity. }
      rewrite Hsel in Hrow. contradiction.
    + assert (Hfirst : In first (Auth.select_user (Some (Directory.user_id row)) users))
        by (rewrite Hsel; left; reflexivity).
      unfold Auth.select_user in Hfirst. apply filter_In in Hfirst.
      destruct Hfirst as [_ Hc]. apply andb_prop in Hc. destruct Hc as [Hid Hact].
      simpl in Hid. apply Z.eqb_eq in Hid.
      eexists. split; [reflexivity|]. simpl. split; assumption.
Qed.

(* ================================================================== *)
(** ** The routes behind the authentication *)

Lemma no_row_of_no_user {A : Type} (p : A -> bool) (l : list A) :
  (forall a, p a = false) -> filter p l = [].
Proof.
  intro H. induction l as [|a l IH]; simpl; [reflexivity|]. rewrite H. exact IH.
Qed.

(** X5.  The report routes read [req.user.userId], which the object built
    by [authenticateToken] does not have: their queries run for no user.
    So for every authenticated caller and every store the summary carries
    zero in all its figures (whether its queries throw or not), and the
    financial-health report, when its query does not throw, gives score 0
    and level "Needs Improvement" with no account and no balance. *)
Theorem reports_behind_authentication_see_no_user (user : Auth.req_user)
    (faults : nat -> option error) (today : Z) (d : database) :
  Reports.summary faults today (Auth.userId user) d = Reports.summary_fallback
  /\ Reports.select_metrics today (Auth.userId user) d
     = {| Reports.total_balance := 0; Reports.account_count := 0;
          Reports.monthly_income := 0; Reports.monthly_expenses := 0;
          Reports.active_budgets := 0 |}
  /\ option_map Reports.health_score
       (data (Reports.financial_health no_faults today (Auth.userId user) d)) = Some 0
  /\ option_map Reports.health_level
       (data (Reports.financial_health no_faults today (Auth.userId user) d))
     = Some "Needs Improvement"%string.
Proof.
  assert (Hm : Reports.select_metrics today None d
               = {| Reports.total_balance := 0; Reports.account_count := 0;
                    Reports.monthly_income := 0; Reports.monthly_expenses := 0;
                    Reports.active_budgets := 0 |}).
  { unfold Reports.select_metrics. simpl.
    rewrite !no_row_of_no_user by reflexivity. reflexivity. }
  split; [|split; [|split]].
  - unfold Reports.summary, Reports.summary_body. unfold_statements.
    destruct (faults 0%nat); simpl; [reflexivity|].
    destruct (faults 1%nat); simpl; [reflexivity|].
    destruct (faults 2%nat); simpl; [reflexivity|].
    unfold Reports.select_accounts, Reports.select_transactions,
      Reports.select_active_budgets. simpl.
    rewrite !no_row_of_no_user by reflexivity. reflexivity.
  - exact Hm.
  - unfold Reports.financial_health. unfold_statements.
    unfold Auth.userId. rewrite Hm. reflexivity.
  - unfold Reports.financial_health. unfold_statements.
    unfold Auth.userId. rewrite Hm. reflexivity.
Qed.

Lemma select_receipt_no_user (req : Receipts.request) (d : database) :
  Receipts.user req = Some None -> Receipts.select_receipt req d = [].
Proof.
  intro H. unfold Receipts.select_receipt, Receipts.userId. rewrite H. simpl.
  rewrite no_row_of_no_user; [reflexivity|].
  intro r. apply andb_false_r.
Qed.

(** X6.  routes/receipts.js reads [req.user.userId] too.  Behind
    [authenticateToken] its create-transaction route therefore finds no
    receipt: it never stores a transaction and never answers with success,
    whatever the store holds and whatever statement throws; a request that
    passes validation is answered 404 "Receipt not found" when the lookup
    does not throw.  The delete route finds no receipt either and deletes
    nothing. *)
Theorem receipts_behind_authentication_find_nothing (user : Auth.req_user)
    (faults : nat -> option error) (req : Receipts.request)
    (del : ReceiptRoutes.delete_request) (d : database) :
  Receipts.user req = Some (Auth.userId user) ->
  ReceiptRoutes.user del = Some (Auth.userId user) ->
  snd (ReceiptRoutes.create_transaction faults req d) = d
  /\ success (fst (ReceiptRoutes.create_transaction faults req d)) = false
  /\ (Receipts.validation_errors req = [] -> faults 0%nat = None ->
      fst (ReceiptRoutes.create_transaction faults req d)
      = failure 404 (Text "Receipt not found"))
  /\ snd (ReceiptRoutes.delete faults del d) = d
  /\ success (fst (ReceiptRoutes.delete faults del d)) = false.
Proof.
  unfold Auth.userId. intros Hreq Hdel.
  assert (Hcreate :
    snd (ReceiptRoutes.create_transaction faults req d) = d
    /\ success (fst (ReceiptRoutes.create_transaction faults req d)) = false
    /\ (Receipts.validation_errors req = [] -> faults 0%nat = None ->
        fst (ReceiptRoutes.create_transaction faults req d)
        = failure 404 (Text "Receipt not found"))).
  { unfold ReceiptRoutes.create_transaction. rewrite Hreq.
    destruct (Receipts.validation_errors req) as [|e es].
    2:{ repeat split. discriminate. }
    unfold Receipts.post. unfold_statements.
    rewrite (select_receipt_no_user req d Hreq).
    destruct (faults 0%nat); simpl; repeat split; discriminate. }
  assert (Hdelete :
    snd (ReceiptRoutes.delete faults del d) = d
    /\ success (fst (ReceiptRoutes.delete faults del d)) = false).
  { unfold ReceiptRoutes.delete. rewrite Hdel.
    unfold ReceiptRoutes.delete_body. unfold_statements.
    unfold ReceiptRoutes.select_receipt. simpl.
    rewrite no_row_of_no_user by (intro r; apply andb_false_r).
    destruct (faults 0%nat); simpl; split; reflexivity. }
  tauto.
Qed.

Lemma receipts_behind_authentication_witness :
  let user := {| Auth.user_id := 1; Auth.username := "ann"; Auth.email := "ann@example.org";
                 Auth.firstName := "Ann"; Auth.lastName := "Lee";
                 Auth.fullName := "Ann Lee"; Auth.createdAt := 0;
                 Auth.isActive := true |} in
  let req := {| Receipts.user := Some (Auth.userId user);
                Receipts.validation_errors := [];
                Receipts.receiptId := 7; Receipts.accountId := 1;
                Receipts.categoryId := 1; Receipts.amount := 12;
                Receipts.description := "groceries";
                Receipts.transactionDate := 9 |} in
  let del := {| ReceiptRoutes.user := Some (Auth.userId user);
                ReceiptRoutes.receiptId := 7 |} in
  fst (ReceiptRoutes.create_transaction no_faults req Examples.household)
  = failure 404 (Text "Receipt not found")
  /\ snd (ReceiptRoutes.delete no_faults del Examples.household) = Examples.household.
Proof.
  intros user req del.
  destruct (receipts_behind_authentication_find_nothing user no_faults req del
              Examples.household eq_refl eq_refl) as (_ & _ & Hfound & Hstore & _).
  split; [apply Hfound; reflexivity | exact Hstore].
Defined.

(* ================================================================== *)
(** ** Deleting a receipt *)

Lemma unlink_columns (rid : Z) (t : transaction) :
  transaction_id (ReceiptRoutes.unlink rid t) = transaction_id t
  /\ transaction_account_id (ReceiptRoutes.unlink rid t) = transaction_account_id t
  /\ transaction_amount (ReceiptRoutes.unlink rid t) = transaction_amount t
  /\ transaction_date (ReceiptRoutes.unlink rid t) = transaction_date t
  /\ transaction_type (ReceiptRoutes.unlink rid t) = transaction_type t.
Proof.
  unfold ReceiptRoutes.unlink.
  destruct (transaction_receipt_id t) as [r|]; [|repeat split].
  destruct (r =? rid); repeat split.
Qed.

Lemma total_spent_unlinked (rid : Z) (b : budget) (d : database) :
  Budgets.total_spent b
    (with_transactions (map (ReceiptRoutes.unlink rid) (transactions d))
       (with_receipts (filter (fun r => negb (receipt_id r =? rid)) (receipts d)) d))
  = Budgets.total_spent b d.
Proof.
  unfold Budgets.total_spent, join. simpl. f_equal.
  induction (transactions d) as [|t ts IH]; simpl; [reflexivity|].
  rewrite !filter_app, !map_app, IH. f_equal.
  destruct (unlink_columns rid t) as (_ & Hacc & Ham & Hdate & Hty).
  rewrite Hacc.
  induction (filter (fun a => transaction_account_id t =? account_id a) (accounts d))
    as [|a l IHl]; simpl; [reflexivity|].
  rewrite Hdate, Hty.
  destruct ((account_user_id a =? budget_user_id b)
            && between (transaction_date t) (start_date b) (end_date b)
            && String.eqb (transaction_type t) "EXPENSE"); simpl;
    rewrite IHl; [rewrite Ham|]; reflexivity.
Qed.

Lemma unlinked_none (rid : Z) (ts : list transaction) :
  filter (fun t => match transaction_receipt_id t with
                   | Some r => r =? rid
                   | None => false
                   end) (map (ReceiptRoutes.unlink rid) ts) = [].
Proof.
  induction ts as [|t ts IH]; simpl; [reflexivity|].
  unfold ReceiptRoutes.unlink at 1.
  destruct (transaction_receipt_id t) as [r|] eqn:E; simpl.
  - destruct (r =? rid) eqn:Er; simpl; [exact IH|]. rewrite E, Er. exact IH.
  - rewrite E. exact IH.
Qed.

Lemma filter_excluded {A : Type} (p : A -> bool) (l : list A) :
  filter p (filter (fun a => negb (p a)) l) = [].
Proof.
  induction l as [|a l IH]; simpl; [reflexivity|].
  destruct (p a) eqn:E; simpl; [exact IH|]. rewrite E. exact IH.
Qed.

(** X7.  Deleting a receipt never deletes a transaction.  Whatever the
    request and whatever statement throws, the transactions keep their
    identifiers and amounts and every budget keeps its total spent; an
    answer without success leaves the store as it was; and after a
    successful delete the receipt is gone, it was the caller's, no
    transaction is linked to it any more and the other receipts are
    untouched. *)
Theorem delete_receipt_keeps_transactions (faults : nat -> option error)
    (req : ReceiptRoutes.delete_request) (d : database) :
  let out := ReceiptRoutes.delete faults req d in
  map transaction_id (transactions (snd out)) = map transaction_id (transactions d)
  /\ map transaction_amount (transactions (snd out))
     = map transaction_amount (transactions d)
  /\ (forall b, Budgets.total_spent b (snd out) = Budgets.total_spent b d)
  /\ (success (fst out) = false -> snd out = d)
  /\ (success (fst out) = true ->
      (exists v r, ReceiptRoutes.user req = Some (Some v)
                   /\ In r (receipts d)
                   /\ receipt_id r = ReceiptRoutes.receiptId req
                   /\ receipt_user_id r = v)
      /\ receipts (snd out)
         = filter (fun r => negb (receipt_id r =? ReceiptRoutes.receiptId req))
             (receipts d)
      /\ Receipts.linked (ReceiptRoutes.receiptId req) (snd out) = []
      /\ Receipts.flag_of (ReceiptRoutes.receiptId req) (snd out) = None).
Proof.
  cbv zeta. unfold ReceiptRoutes.delete.
  destruct (ReceiptRoutes.user req) as [userId|] eqn:Hu.
  2:{ simpl. repeat split; discriminate. }
  unfold ReceiptRoutes.delete_body. unfold_statements.
  destruct (faults 0%nat); simpl.
  { repeat split; discriminate. }
  destruct (ReceiptRoutes.select_receipt userId (ReceiptRoutes.receiptId req) d)
    as [|r rs] eqn:Hsel; simpl.
  { repeat split; discriminate. }
  destruct (faults 1%nat); simpl.
  { repeat split; discriminate. }
  assert (Hin : In r (ReceiptRoutes.select_receipt userId (ReceiptRoutes.receiptId req) d))
    by (rewrite Hsel; left; reflexivity).
  unfold ReceiptRoutes.select_receipt in Hin. apply filter_In in Hin.
  destruct Hin as [Hin Hc]. apply andb_prop in Hc. destruct Hc as [Hid Hown].
  apply Z.eqb_eq in Hid.
  split; [|split; [|split; [|split; [discriminate|]]]].
  - rewrite map_map. apply map_ext. intro t. apply unlink_columns.
  - rewrite map_map. apply map_ext. intro t. apply unlink_columns.
  - intro b. apply total_spent_unlinked.
  - intros _. split; [|split; [reflexivity|split]].
    + destruct userId as [v|]; [|discriminate]. simpl in Hown. apply Z.eqb_eq in Hown.
      exists v, r. auto.
    + unfold Receipts.linked. simpl. apply unlinked_none.
    + unfold Receipts.flag_of. simpl.
      rewrite (filter_excluded (fun r => receipt_id r =? ReceiptRoutes.receiptId req)).
      reflexivity.
Qed.

(* ================================================================== *)
(** ** Safe mode after a database error *)

Lemma serve_disconnected (rs : list ((nat -> option error) * Receipts.request))
    (d : database) :
  SafeMode.serve rs d false
  = (map (fun fr => SafeMode.mock_answer (snd fr)) rs, d, false).
Proof.
  induction rs as [|[faults req] rs IH]; simpl; [reflexivity|].
  unfold Receipts.create_transaction, SafeMode.mock_answer at 1. simpl.
  destruct (Receipts.validation_errors req); simpl; rewrite IH; reflexivity.
Qed.

Lemma create_transaction_flag (faults : nat -> option error) (req : Receipts.request)
    (d : database) :
  status (fst (fst (Receipts.create_transaction faults true req d))) = 500 ->
  snd (Receipts.create_transaction faults true req d) = false.
Proof.
  unfold Receipts.create_transaction.
  destruct (Receipts.validation_errors req); simpl; [|discriminate].
  unfold Receipts.post. unfold_statements.
  destruct (faults 0%nat); simpl; [reflexivity|].
  destruct (Receipts.select_receipt req d); simpl; [discriminate|].
  destruct (faults 1%nat); simpl; [reflexivity|].
  destruct (faults 2%nat); simpl; [reflexivity|discriminate].
Qed.

(** X8.  In the safe-mode receipt routes one database error switches every
    later request to mock answers: when a create-transaction request is
    answered 500, each valid request served after it, whatever it asks for,
    is answered [success: true] with mock data, and none of them stores
    anything. *)
Theorem database_error_turns_answers_to_mock (faults : nat -> option error)
    (req : Receipts.request) (d : database)
    (later : list ((nat -> option error) * Receipts.request)) :
  status (fst (fst (Receipts.create_transaction faults true req d))) = 500 ->
  let d' := snd (fst (Receipts.create_transaction faults true req d)) in
  let out := SafeMode.serve ((faults, req) :: later) d true in
  snd (fst out) = d'
  /\ snd out = false
  /\ tl (fst (fst out)) = map (fun fr => SafeMode.mock_answer (snd fr)) later
  /\ Forall (fun fr => Receipts.validation_errors (snd fr) = [] ->
                       success (SafeMode.mock_answer (snd fr)) = true
                       /\ exists amount description date receipt,
                            data (SafeMode.mock_answer (snd fr))
                            = Some (Receipts.Mock amount description date receipt))
       later.
Proof.
  intros H500 d' out. subst d' out.
  pose proof (create_transaction_flag faults req d H500) as Hflag.
  simpl.
  destruct (Receipts.create_transaction faults true req d) as [[r d1] flag].
  simpl in *. subst flag. rewrite serve_disconnected. simpl.
  repeat split.
  apply Forall_forall. intros [f q] _ Hv. unfold SafeMode.mock_answer. simpl in *.
  rewrite Hv. simpl. split; [reflexivity|]. repeat eexists.
Qed.

Lemma database_error_turns_answers_to_mock_witness :
  let first := Examples.receipt_request 7 12 in
  let second := Examples.receipt_request 99 40 in
  let out := SafeMode.serve [(Examples.failing_at 1, first); (no_faults, second)]
               Examples.household true in
  snd (fst out) = Examples.household
  /\ map success (fst (fst out)) = [false; true].
Proof.
  intros first second out.
  destruct (database_error_turns_answers_to_mock (Examples.failing_at 1) first
              Examples.household [(no_faults, second)] eq_refl)
    as (Hstore & _ & Htail & _).
  split.
  - etransitivity; [exact Hstore | reflexivity].
  - subst out.
    destruct (SafeMode.serve [(Examples.failing_at 1, first); (no_faults, second)]
                Examples.household true) as [[answers d'] flag] eqn:E.
    simpl in *. vm_compute in E. injection E as <- _ _. reflexivity.
Defined.

(* ================================================================== *)
(** ** Names *)

Lemma join_cons (sep part : string) (rest : list string) :
  rest <> [] -> Users.join sep (part :: rest) = (part ++ sep ++ Users.join sep rest)%string.
Proof. destruct rest; [congruence | reflexivity]. Qed.

Lemma join_split (sep : ascii) (s : string) :
  Users.join (String sep "") (Auth.split sep s) = s.
Proof.
  induction s as [|c s IH]; simpl; [reflexivity|].
  destruct (Ascii.eqb c sep) eqn:E.
  - apply Ascii.eqb_eq in E. subst c.
    rewrite join_cons by (destruct s; simpl; [discriminate|];
                          destruct (Ascii.eqb _ _); [discriminate|];
                          destruct (Auth.split sep s); discriminate).
    rewrite IH. reflexivity.
  - destruct (Auth.split sep s) as [|piece pieces] eqn:Hs.
    + simpl in IH. subst s. reflexivity.
    + destruct pieces as [|p ps].
      * simpl in *. subst piece. reflexivity.
      * change (Users.join (String sep "") (String c piece :: p :: ps))
          with (String c (piece ++ String sep "" ++ Users.join (String sep "") (p :: ps)))%string.
        f_equal. exact IH.
Qed.

Lemma split_head_free (sep : ascii) (s : string) :
  match Auth.split sep s with
  | part :: _ => Auth.free_of sep part
  | [] => False
  end.
Proof.
  unfold Auth.free_of. induction s as [|c s IH]; simpl; [intros []|].
  destruct (Ascii.eqb c sep) eqn:E; [intros []|].
  destruct (Auth.split sep s) as [|piece pieces]; [contradiction|].
  simpl. intros [H|H]; [|exact (IH H)].
  subst c. rewrite Ascii.eqb_refl in E. discriminate.
Qed.

(** X9.  [createUser] splits the trimmed full name at its first space, and
    nothing of the name is lost: the first name holds no space, and when
    something follows the first space the first name, a space and the last
    name give the trimmed full name back.  Otherwise the last name is
    "User" and the first name is the whole trimmed name (up to a space at
    its end). *)
Theorem name_split_loses_nothing (trim : string -> string) (full_name : string) :
  let first_name := Users.first_name_of trim full_name in
  let last_name := Users.last_name_of trim full_name in
  Auth.free_of " " first_name
  /\ ((first_name ++ " " ++ last_name)%string = trim full_name
      \/ (last_name = "User"%string
          /\ (trim full_name = first_name
              \/ trim full_name = (first_name ++ " ")%string))).
Proof.
  cbv zeta. unfold Users.first_name_of, Users.last_name_of, Users.nameParts.
  pose proof (split_head_free " " (trim full_name)) as Hfree.
  pose proof (join_split " " (trim full_name)) as Hjoin.
  destruct (Auth.split " " (trim full_name)) as [|part rest]; [contradiction|].
  split; [exact Hfree|]. simpl tl.
  destruct rest as [|r rs].
  - right. simpl in *. split; [reflexivity|]. left. symmetry. exact Hjoin.
  - rewrite join_cons in Hjoin by discriminate.
    destruct (String.eqb (Users.join " " (r :: rs)) "") eqn:E.
    + right. apply String.eqb_eq in E. rewrite E in Hjoin.
      split; [reflexivity|]. right. symmetry. exact Hjoin.
    + left. exact Hjoin.
Qed.

(* ================================================================== *)
(** ** Category suggestion *)

Lemma prefix_extended (sub s post : string) :
  String.prefix sub s = true -> String.prefix sub (s ++ post) = true.
Proof.
  revert s. induction sub as [|c sub IH]; intros s H; [destruct (s ++ post)%string; reflexivity|].
  destruct s as [|c' s]; simpl in *; [discriminate|].
  destruct (ascii_dec c c'); [apply IH; exact H | discriminate].
Qed.

Lemma includes_extended (name sub pre post : string) :
  Ocr.includes name sub = true -> Ocr.includes (pre ++ name ++ post) sub = true.
Proof.
  intro H.
  assert (Hpost : Ocr.includes (name ++ post) sub = true).
  { revert H. induction name as [|c name IH]; intro H.
    - simpl in H. rewrite orb_false_r in H.
      destruct sub; [|discriminate]. destruct post; reflexivity.
    - change (Ocr.includes (String c name) sub)
        with (String.prefix sub (String c name) || Ocr.includes name sub) in H.
      change (Ocr.includes (String c name ++ post) sub)
        with (String.prefix sub (String c (name ++ post))
              || Ocr.includes (name ++ post) sub).
      apply orb_true_iff in H. apply orb_true_iff. destruct H as [H|H].
      + left. exact (prefix_extended sub (String c name) post H).
      + right. exact (IH H). }
  induction pre as [|c pre IH]; [exact Hpost|].
  change (Ocr.includes (String c pre ++ name ++ post) sub)
    with (String.prefix sub (String c (pre ++ name ++ post))
          || Ocr.includes (pre ++ name ++ post) sub).
  rewrite IH. apply orb_true_r.
Qed.

Lemma tried_in_order (a b c d a' b' c' d' : bool) :
  (a = true -> a' = true) -> (b = true -> b' = true) ->
  (c = true -> c' = true) -> (d = true -> d' = true) ->
  let suggest (a b c d : bool) :=
    (if a then "Groceries"
     else if b then "Entertainment"
     else if c then "Transportation"
     else if d then "Healthcare"
     else "Other")%string in
  (Ocr.precedence (suggest a' b' c' d') <= Ocr.precedence (suggest a b c d))%nat
  /\ (suggest a b c d = "Groceries"%string -> suggest a' b' c' d' = "Groceries"%string).
Proof.
  intros Ha Hb Hc Hd. cbv zeta.
  destruct a; [rewrite (Ha eq_refl); split; [apply Nat.le_refl | reflexivity]|].
  destruct b.
  { rewrite (Hb eq_refl). destruct a'; split; try discriminate; try reflexivity; cbv; lia. }
  destruct c.
  { rewrite (Hc eq_refl). destruct a', b'; split; try discriminate; try reflexivity; cbv; lia. }
  destruct d.
  { rewrite (Hd eq_refl). destruct a', b', c'; split; try discriminate; try reflexivity; cbv; lia. }
  destruct a', b', c', d'; split; try discriminate; try reflexivity; cbv; lia.
Qed.

(** X10.  Text around a merchant name can only move the suggested category
    towards the front of the order Groceries, Entertainment,
    Transportation, Healthcare, Other, never back: a keyword found in the
    name is still found in the longer text, and the categories are tried in
    that order.  In particular what is Groceries stays Groceries. *)
Theorem suggestion_moves_forward_only (name pre post : string) :
  (Ocr.precedence (Ocr.classify (pre ++ name ++ post))
   <= Ocr.precedence (Ocr.classify name))%nat
  /\ (Ocr.classify name = "Groceries"%string ->
      Ocr.classify (pre ++ name ++ post) = "Groceries"%string).
Proof.
  pose proof (fun kw => includes_extended name kw pre post) as Hmono.
  unfold Ocr.classify.
  apply tried_in_order;
    (intro H;
     repeat (apply orb_true_iff in H; destruct H as [H|H]);
     rewrite (Hmono _ H); rewrite ?orb_true_r; reflexivity).
Qed.

(* ================================================================== *)
(** ** Logging in *)

Lemma user_of_id (users : list Directory.user) (u v : Directory.user) :
  NoDup (map Directory.user_id users) -> In u users -> In v users ->
  Directory.user_id u = Directory.user_id v -> u = v.
Proof.
  induction users as [|x users IH]; simpl; intros Hnd Hu Hv Heq; [contradiction|].
  inversion Hnd as [|? ? Hx Hnd']; subst.
  destruct Hu as [<-|Hu], Hv as [<-|Hv].
  - reflexivity.
  - exfalso. apply Hx. rewrite Heq. apply in_map, Hv.
  - exfalso. apply Hx. rewrite <- Heq. apply in_map, Hu.
  - apply IH; assumption.
Qed.

(** X11.  Logging in does not ask whether the user is active when the name
    matches: [findUser] requires [is_active] of the match by e-mail only.
    So an inactive user who gives the user name and the password is
    answered "Login successful" with a token for that user, while the
    e-mail address does not log that user in; and [authenticateToken]
    lets no request of that user through, whatever token is presented. *)
Theorem inactive_user_logs_in_by_username
    (trim : string -> string) (compare : string -> string -> bool)
    (sign : Z -> string -> string) (verify : string -> Auth.verified)
    (users : list Directory.user) (u : Directory.user) (password : string) :
  NoDup (map Directory.user_id users) ->
  Users.findUser (Directory.username u) users = Some u ->
  Directory.is_active u = false ->
  Directory.username u <> Directory.email u ->
  compare password (Directory.password_hash u) = true ->
  let by_name := {| Users.validation_errors := [];
                    Users.usernameOrEmail := Directory.username u;
                    Users.password := password |} in
  let by_email := {| Users.validation_errors := [];
                     Users.usernameOrEmail := Directory.email u;
                     Users.password := password |} in
  (success (Users.login trim compare sign no_faults by_name users) = true
   /\ option_map Users.token (data (Users.login trim compare sign no_faults by_name users))
      = Some (sign (Directory.user_id u) (Directory.email u)))
  /\ (forall faults,
        option_map Users.id (data (Users.login trim compare sign faults by_email users))
        <> Some (Directory.user_id u))
  /\ (forall faults authorization token user,
        Auth.token_of authorization = Some token ->
        verify token = Auth.Payload (Some (Directory.user_id u)) ->
        Auth.authenticateToken verify trim faults authorization users
        <> Auth.Next user).
Proof.
  intros Hkeys Hfound Hinactive Hnames Hpassword by_name by_email.
  assert (Hu : In u users).
  { unfold Users.findUser in Hfound. apply hd_error_In in Hfound.
    apply filter_In in Hfound. tauto. }
  split; [|split].
  - unfold Users.login, Users.login_body. simpl. unfold_statements.
    rewrite Hfound. simpl. rewrite Hpassword. simpl. split; reflexivity.
  - intro faults. unfold Users.login, Users.login_body. simpl. unfold_statements.
    destruct (faults 0%nat); simpl; [discriminate|].
    destruct (faults 1%nat); simpl; [discriminate|].
    destruct (Users.findUser (Directory.email u) users) as [v|] eqn:Hv; simpl;
      [|discriminate].
    destruct (compare password (Directory.password_hash v)); simpl; [|discriminate].
    assert (Hne : Directory.user_id v <> Directory.user_id u).
    { intro Heq.
      unfold Users.findUser in Hv. apply hd_error_In in Hv. apply filter_In in Hv.
      destruct Hv as [Hin Hc].
      assert (v = u) by (apply (user_of_id users); assumption). subst v.
      rewrite Hinactive, andb_false_r, orb_false_r in Hc.
      apply String.eqb_eq in Hc. contradiction. }
    destruct (faults 2%nat); simpl; [discriminate|].
    destruct (faults 3%nat); simpl; [discriminate|].
    congruence.
  - intros faults authorization token user Htoken Hverify H.
    destruct (authenticated_row verify trim faults authorization users user H)
      as (token' & row & Htoken' & Hverify' & Hin & Hactive & _).
    assert (token' = token) by congruence. subst token'.
    rewrite Hverify in Hverify'. injection Hverify' as Hid.
    assert (row = u) by (apply (user_of_id users); auto). subst row.
    congruence.
Qed.

Lemma inactive_user_logs_in_by_username_witness :
  let u := {| Directory.user_id := 1; Directory.username := "ann";
              Directory.email := "ann@example.org";
              Directory.password_hash := "secret";
              Directory.first_name := "Ann"; Directory.last_name := "Lee";
              Directory.date_created := 0; Directory.is_active := false |} in
  let sign := fun (_ : Z) (email : string) => email in
  let r := Users.login (fun s => s) String.eqb sign no_faults
             {| Users.validation_errors := []; Users.usernameOrEmail := "ann";
                Users.password := "secret" |} [u] in
  success r = true /\ option_map Users.token (data r) = Some "ann@example.org"%string.
Proof.
  intros u sign r.
  destruct (inactive_user_logs_in_by_username (fun s => s) String.eqb sign
              (fun _ => Auth.Payload (Some 1)) [u] u "secret") as [H _].
  - repeat constructor; simpl; tauto.
  - reflexivity.
  - reflexivity.
  - discriminate.
  - reflexivity.
  - exact H.
Defined.

(* ================================================================== *)
(** ** Reading a transfer *)

Lemma joined_In (g : Directory.registry) (d : database) (t : transfer) (fa ta : account)
    (fat tat : Directory.account_type) (fu tu : Directory.user) :
  In (t, fa, ta, fat, tat, fu, tu) (TransferQueries.joined g d)
  <-> In t (transfers d)
      /\ (In fa (accounts d) /\ from_account_id t = account_id fa)
      /\ (In ta (accounts d) /\ to_account_id t = account_id ta)
      /\ (In fat (Directory.account_types g) /\ TransferQueries.of_type g fa fat = true)
      /\ (In tat (Directory.account_types g) /\ TransferQueries.of_type g ta tat = true)
      /\ (In fu (Directory.users g) /\ account_user_id fa = Directory.user_id fu)
      /\ (In tu (Directory.users g) /\ account_user_id ta = Directory.user_id tu).
Proof.
  unfold TransferQueries.joined. rewrite !join_In. simpl.
  rewrite !Z.eqb_eq. tauto.
Qed.

Lemma select_transfer_In (g : Directory.registry) (transferId userId : Z) (d : database)
    (t : transfer) (fa ta : account) (fat tat : Directory.account_type)
    (fu tu : Directory.user) :
  In (t, fa, ta, fat, tat, fu, tu) (TransferQueries.select_transfer g transferId userId d)
  <-> In (t, fa, ta, fat, tat, fu, tu) (TransferQueries.joined g d)
      /\ transfer_id t = transferId
      /\ (account_user_id fa = userId \/ account_user_id ta = userId).
Proof.
  unfold TransferQueries.select_transfer. rewrite filter_In.
  rewrite andb_true_iff, orb_true_iff, !Z.eqb_eq. tauto.
Qed.

(** X12.  A transfer is shown only to the owner of its source account or
    the owner of its destination account: an answer that carries a transfer
    carries one that is stored under the requested identifier and has the
    caller on one of its two sides; [direction] is "outgoing" exactly when
    the caller owns the source account, and only then [canModify] holds.
    Every other answer has [success: false], no data and a message. *)
Theorem transfer_shown_to_its_parties_only (faults : nat -> option error)
    (g : Directory.registry) (req : TransferQueries.request) (d : database) :
  let r := TransferQueries.get_transfer faults g req d in
  (forall det,
     data r = Some det ->
     exists t fa ta,
       In t (transfers d)
       /\ transfer_id t = TransferQueries.transferId req
       /\ In fa (accounts d) /\ account_id fa = from_account_id t
       /\ In ta (accounts d) /\ account_id ta = to_account_id t
       /\ (account_user_id fa = TransferQueries.user_id req
           \/ account_user_id ta = TransferQueries.user_id req)
       /\ TransferQueries.id det = transfer_id t
       /\ TransferQueries.amount det = transfer_amount t
       /\ TransferQueries.feeAmount det = fee_amount t
       /\ TransferQueries.party_id (TransferQueries.fromAccount det) = account_id fa
       /\ TransferQueries.party_id (TransferQueries.toAccount det) = account_id ta
       /\ (TransferQueries.direction det = "outgoing"%string
           <-> account_user_id fa = TransferQueries.user_id req)
       /\ (TransferQueries.direction det = "incoming"%string
           <-> account_user_id fa <> TransferQueries.user_id req)
       /\ (TransferQueries.canModify det = true
           <-> account_user_id fa = TransferQueries.user_id req))
  /\ (success r = true -> data r <> None)
  /\ (success r = false -> data r = None /\ msg r <> None).
Proof.
  cbv zeta. unfold TransferQueries.get_transfer.
  destruct (TransferQueries.validation_errors req).
  2:{ simpl. repeat split; discriminate. }
  unfold TransferQueries.get_body. unfold_statements.
  destruct (faults 0%nat); simpl; [repeat split; discriminate|].
  destruct (faults 1%nat); simpl; [repeat split; discriminate|].
  destruct (faults 2%nat); simpl; [repeat split; discriminate|].
  destruct (TransferQueries.select_transfer g (TransferQueries.transferId req)
              (TransferQueries.user_id req) d) as [|first rows] eqn:Hsel; simpl.
  { repeat split; discriminate. }
  split; [|split; [discriminate | discriminate]].
  intros det Hdet. injection Hdet as <-.
  assert (Hin : In first (TransferQueries.select_transfer g
                            (TransferQueries.transferId req)
                            (TransferQueries.user_id req) d))
    by (rewrite Hsel; left; reflexivity).
  destruct first as [[[[[[t fa] ta] fat] tat] fu] tu].
  apply select_transfer_In in Hin. destruct Hin as (Hj & Hid & Hparty).
  apply joined_In in Hj.
  destruct Hj as (Ht & (Hfa & Hfrom) & (Hta & Hto) & _ & _ & (_ & Hfu) & _).
  exists t, fa, ta. simpl. rewrite <- Hfu.
  repeat split; try assumption; try (symmetry; assumption).
  - destruct (account_user_id fa =? TransferQueries.user_id req) eqn:E;
      [intros _; apply Z.eqb_eq; exact E | discriminate].
  - intro H. apply Z.eqb_eq in H. rewrite H. reflexivity.
  - destruct (account_user_id fa =? TransferQueries.user_id req) eqn:E;
      [discriminate | intros _; apply Z.eqb_neq; exact E].
  - intro H. apply Z.eqb_neq in H. rewrite H. reflexivity.
  - apply Z.eqb_eq.
  - apply Z.eqb_eq.
Qed.
















(* ================================================================== *)
(** ** Creating a transaction *)


(* ================================================================== *)
(** ** The types that are written and the types that are counted *)

Lemma filter_none {A : Type} (p : A -> bool) (l : list A) :
  (forall a, In a l -> p a = false) -> filter p l = [].
Proof.
  induction l as [|a l IH]; simpl; intro H; [reflexivity|].
  rewrite (H a (or_introl eq_refl)). apply IH. intros x Hx. apply H. right. exact Hx.
Qed.

Lemma Qsum_zero {A : Type} (f : A -> Q) (l : list A) :
  (forall a, In a l -> f a = 0%Q) -> (Qsum (map f l) == 0)%Q.
Proof.
  induction l as [|a l IH]; simpl; intro H; [reflexivity|].
  rewrite (H a (or_introl eq_refl)), IH; [lra|].
  intros x Hx. apply H. right. exact Hx.
Qed.

Lemma written_type_not_counted (d : database) (t : transaction) (ty : string) :
  Ledger.types_as_written d -> In t (transactions d) ->
  ty = "income"%string \/ ty = "expense"%string ->
  String.eqb (transaction_type t) ty = false.
Proof.
  unfold Ledger.types_as_written. rewrite Forall_forall. intros Hw Hin Hty.
  destruct (Hw t Hin) as [-> | ->]; destruct Hty as [-> | ->]; reflexivity.
Qed.

Lemma written_after_append (d : database) (row : transaction) :
  Ledger.types_as_written d ->
  transaction_type row = "INCOME"%string \/ transaction_type row = "EXPENSE"%string ->
  Forall (fun t => transaction_type t = "INCOME"%string
                   \/ transaction_type t = "EXPENSE"%string)
    (transactions d ++ [row]).
Proof.
  intros Hw Hrow. apply Forall_app. split; [exact Hw|]. constructor; [exact Hrow|constructor].
Qed.

(** X15.  The routes that write transactions and the reports that read
    them do not agree on the type: [POST /transactions] and the receipt
    route store ["INCOME"] and ["EXPENSE"], the reports count ['income']
    and ['expense'].  A ledger that holds only such types keeps doing so
    under both writers, and on it, for every user, the summary shows no
    income, no expenses and no net worth, the financial-health report sees
    no monthly income, so that its score stays at 70 or below and its level
    is never "Excellent", and the category report with its default type
    lists nothing. *)
Theorem written_types_are_never_counted :
  (forall faults g today req d,
     Ledger.types_as_written d ->
     Ledger.types_as_written (snd (Transactions.create faults g today req d)))
  /\ (forall faults connected req d,
        Ledger.types_as_written d ->
        Ledger.types_as_written
          (snd (fst (Receipts.create_transaction faults connected req d))))
  /\ (forall d,
        Ledger.types_as_written d ->
        forall faults today userId,
          (forall s,
             data (Reports.summary faults today userId d) = Some s ->
             (Reports.totalIncome s == 0)%Q /\ (Reports.totalExpenses s == 0)%Q
             /\ (Reports.netWorth s == 0)%Q)
          /\ Reports.monthly_income (Reports.select_metrics today userId d) = 0%Q
          /\ Reports.monthly_expenses (Reports.select_metrics today userId d) = 0%Q
          /\ Reports.healthScore (Reports.assess (Reports.select_metrics today userId d))
             <= 70
          /\ Reports.health_level
               (Reports.health_of (Reports.select_metrics today userId d))
             <> "Excellent"%string
          /\ data (CategorySpending.category_spending no_faults userId
                     {| CategorySpending.startDate := None;
                        CategorySpending.endDate := None;
                        CategorySpending.type := None;
                        CategorySpending.limit := None |} d) = Some []).
Proof.
  split; [|split].
  - intros faults g today req d Hw. unfold Transactions.create.
    destruct (Transactions.errors_isEmpty req) eqn:Hvalid; simpl; [|exact Hw].
    unfold Transactions.errors_isEmpty in Hvalid.
    apply andb_prop in Hvalid. destruct Hvalid as [Hvalid _].
    apply andb_prop in Hvalid. destruct Hvalid as [Hvalid _].
    apply andb_prop in Hvalid. destruct Hvalid as [_ Htype].
    unfold Transactions.post. unfold_statements.
    destruct (faults 0%nat); simpl; [exact Hw|].
    destruct (faults 1%nat); simpl; [exact Hw|].
    destruct (faults 2%nat); simpl; [exact Hw|].
    destruct (Transactions.select_account req d); simpl; [exact Hw|].
    destruct (faults 3%nat); simpl; [exact Hw|].
    destruct (Transactions.select_category g req d); simpl; [exact Hw|].
    destruct (faults 4%nat); simpl; [exact Hw|].
    apply written_after_append; [exact Hw|]. simpl.
    apply orb_prop in Htype.
    destruct Htype as [Htype|Htype]; apply String.eqb_eq in Htype; auto.
  - intros faults connected req d Hw. unfold Receipts.create_transaction.
    destruct (Receipts.validation_errors req); simpl; [|exact Hw].
    destruct connected; simpl; [|exact Hw].
    unfold Receipts.post. unfold_statements.
    destruct (faults 0%nat); simpl; [exact Hw|].
    destruct (Receipts.select_receipt req d); simpl; [exact Hw|].
    destruct (faults 1%nat); simpl; [exact Hw|].
    destruct (faults 2%nat); simpl;
      (apply written_after_append; [exact Hw | right; reflexivity]).
  - intros d Hw faults today userId.
    assert (Hjoin : forall (p : transaction * account -> bool) ty ta,
              ty = "income"%string \/ ty = "expense"%string ->
              In ta (filter p (join (fun t a => transaction_account_id t =? account_id a)
                                 (transactions d) (accounts d))) ->
              String.eqb (transaction_type (fst ta)) ty = false).
    { intros p ty [t a] Hty Hin. apply filter_In in Hin. destruct Hin as [Hin _].
      apply join_In in Hin. simpl.
      apply (written_type_not_counted d); tauto. }
    assert (Hmonthly : forall ty,
              ty = "income"%string \/ ty = "expense"%string ->
              filter (fun ta : transaction * account =>
                        Reports.is_user userId (account_user_id (snd ta))
                        && String.eqb (transaction_type (fst ta)) ty
                        && (today - 30 <=? transaction_date (fst ta)))
                (join (fun t a => transaction_account_id t =? account_id a)
                   (transactions d) (accounts d)) = []).
    { intros ty Hty. apply filter_none. intros [t a] Hin. apply join_In in Hin. simpl.
      rewrite (written_type_not_counted d t ty Hw) by tauto.
      rewrite andb_false_r. reflexivity. }
    assert (Hincome : Reports.monthly_income (Reports.select_metrics today userId d) = 0%Q).
    { unfold Reports.select_metrics. simpl. rewrite Hmonthly by auto. reflexivity. }
    assert (Hexpenses :
              Reports.monthly_expenses (Reports.select_metrics today userId d) = 0%Q).
    { unfold Reports.select_metrics. simpl. rewrite Hmonthly by auto. reflexivity. }
    assert (Hscore :
              Reports.healthScore (Reports.assess (Reports.select_metrics today userId d))
              <= 70).
    { pose proof (band_ranges (Reports.select_metrics today userId d))
        as (Hbalance & _ & Hbudgets & Haccounts).
      unfold Reports.assess.
      rewrite score_accounts_band, score_budgets_band, score_ratio_band,
        score_balance_band.
      rewrite Hincome, Hexpenses.
      replace (Reports.ratio_band 0 0) with 0 by reflexivity.
      cbn [Reports.healthScore]. lia. }
    split; [|split; [exact Hincome | split; [exact Hexpenses | split; [exact Hscore | split]]]].
    + intros s. unfold Reports.summary, Reports.summary_body. unfold_statements.
      destruct (faults 0%nat); simpl;
        [intro H; injection H as <-; simpl; repeat split; reflexivity|].
      destruct (faults 1%nat); simpl;
        [intro H; injection H as <-; simpl; repeat split; reflexivity|].
      destruct (faults 2%nat); simpl;
        [intro H; injection H as <-; simpl; repeat split; reflexivity|].
      unfold Reports.select_transactions. simpl.
      intro H. injection H as <-. simpl.
      assert (Hzero : forall ty, ty = "income"%string \/ ty = "expense"%string ->
                (Qsum (map (fun ta : transaction * account =>
                              if String.eqb (transaction_type (fst ta)) ty
                              then transaction_amount (fst ta) else 0%Q)
                         (filter (fun ta => Reports.is_user userId (account_user_id (snd ta)))
                            (join (fun t a => transaction_account_id t =? account_id a)
                               (transactions d) (accounts d)))) == 0)%Q).
      { intros ty Hty. apply Qsum_zero. intros ta Hin.
        rewrite (Hjoin _ ty ta Hty Hin). reflexivity. }
      rewrite !Hzero by auto. repeat split; reflexivity.
    + unfold Reports.health_of. simpl. unfold Reports.healthLevel.
      destruct (Z.leb_spec 80
                  (Reports.healthScore
                     (Reports.assess (Reports.select_metrics today userId d))));
        [lia|].
      destruct (60 <=? _); [discriminate|]. destruct (40 <=? _); discriminate.
    + unfold CategorySpending.category_spending. unfold_statements.
      unfold CategorySpending.select_groups, CategorySpending.grouped,
        CategorySpending.select_total, CategorySpending.categorised,
        CategorySpending.matching.
      rewrite filter_none; [reflexivity|].
      intros [t a] Hin. apply join_In in Hin.
      unfold CategorySpending.condition, CategorySpending.type_of. simpl.
      rewrite (written_type_not_counted d t "expense" Hw) by tauto.
      rewrite andb_false_r. reflexivity.
Qed.

(* ================================================================== *)
(** ** Spending by category *)

(** X16.  The category report never divides by zero: the divisor of its
    percentages is the total of the matching transactions, replaced by 1
    when there is none or when it is zero.  So every percentage in the
    answer is a finite number, the category's total over that divisor
    times 100, whatever the store holds. *)
Theorem category_percentage_is_finite (faults : nat -> option error)
    (userId : option Z) (p : CategorySpending.params) (d : database)
    (items : list CategorySpending.item) :
  data (CategorySpending.category_spending faults userId p d) = Some items ->
  let divisor :=
    CategorySpending.totalAmount (CategorySpending.select_total userId p d) in
  ~ (divisor == 0)%Q
  /\ (CategorySpending.select_total userId p d = None -> divisor = 1%Q)
  /\ Forall (fun i =>
               CategorySpending.percentage i
               = Fin (CategorySpending.item_totalAmount i / divisor * 100)
               /\ is_finite (CategorySpending.percentage i) = true) items.
Proof.
  intros Hdata divisor.
  assert (Hdiv : ~ (divisor == 0)%Q).
  { subst divisor. unfold CategorySpending.totalAmount.
    destruct (CategorySpending.select_total userId p d) as [q|]; [|discriminate].
    destruct (Qeq_bool q 0) eqn:E; [discriminate|].
    intro H. apply Qeq_bool_iff in H. congruence. }
  split; [exact Hdiv|]. split.
  { intro Hnone. subst divisor. rewrite Hnone. reflexivity. }
  unfold CategorySpending.category_spending in Hdata.
  apply asyncHandler_data in Hdata. destruct Hdata as (r & Hr & Hd). revert Hr Hd.
  unfold_statements.
  destruct (faults 0%nat); simpl; [discriminate|].
  destruct (faults 1%nat); simpl; [discriminate|].
  intros Hr Hd. injection Hr as <-. simpl in Hd. injection Hd as <-.
  apply Forall_forall. intros i Hi. apply in_map_iff in Hi.
  destruct Hi as (grp & <- & _). fold divisor.
  unfold CategorySpending.item_of. simpl. unfold js_div.
  destruct (Qeq_bool divisor 0) eqn:E.
  - exfalso. apply Hdiv. apply Qeq_bool_iff. exact E.
  - split; reflexivity.
Qed.

Lemma category_percentage_is_finite_witness :
  let p := {| CategorySpending.startDate := None; CategorySpending.endDate := None;
              CategorySpending.type := Some "EXPENSE"%string;
              CategorySpending.limit := None |} in
  match data (CategorySpending.category_spending no_faults (Some 1) p
                Examples.household) with
  | Some items =>
      List.length items = 2%nat
      /\ Forall (fun i => is_finite (CategorySpending.percentage i) = true) items
  | None => False
  end.
Proof.
  intro p.
  destruct (data (CategorySpending.category_spending no_faults (Some 1) p
                    Examples.household)) as [items|] eqn:E;
    [|vm_compute in E; discriminate].
  destruct (category_percentage_is_finite no_faults (Some 1) p Examples.household
              items E) as (_ & _ & Hall).
  split.
  - vm_compute in E. injection E as <-. reflexivity.
  - eapply Forall_impl; [|exact Hall]. intros i [_ Hi]. exact Hi.
Defined.









(* ================================================================== *)
(** ** The budget list *)

Lemma Qsum_nonnegative (l : list Q) :
  (forall q, In q l -> (0 <= q)%Q) -> (0 <= Qsum l)%Q.
Proof.
  induction l as [|q l IH]; simpl; intro H; [lra|].
  pose proof (H q (or_introl eq_refl)).
  assert (0 <= Qsum l)%Q by (apply IH; intros x Hx; apply H; right; exact Hx).
  lra.
Qed.

Lemma total_spent_nonnegative (b : budget) (d : database) :
  (0 <= Budgets.total_spent b d)%Q.
Proof.
  unfold Budgets.total_spent. apply Qsum_nonnegative.
  intros q Hq. apply in_map_iff in Hq. destruct Hq as (ta & <- & _). apply Qabs_nonneg.
Qed.

Lemma over_budget_percent (spent limit : Q) :
  (0 < limit)%Q -> ((limit < spent)%Q <-> (100 < spent / limit * 100)%Q).
Proof.
  intro Hpos.
  assert (Hk : (0 < 100 / limit)%Q) by (apply Qlt_shift_div_l; lra).
  assert (Heq : (spent / limit * 100 == 100 + (spent - limit) * (100 / limit))%Q)
    by (field; lra).
  rewrite Heq. set (k := (100 / limit)%Q) in *. split; intro H.
  - assert (0 < (spent - limit) * k)%Q by (apply Qmult_lt_0_compat; lra). lra.
  - destruct (Qlt_le_dec limit spent) as [Hlt|Hle]; [exact Hlt|].
    exfalso.
    assert (0 <= (limit - spent) * k)%Q by (apply Qmult_le_0_compat; lra).
    assert (((spent - limit) * k == - ((limit - spent) * k))%Q) by ring.
    lra.
Qed.

(** X18.  The budget list shows a caller the caller's own active budgets
    only, and its figures agree with each other: the total spent is never
    negative, the remaining amount is the limit less the total spent, a
    budget is over budget exactly when its remaining amount is negative,
    and, for a limit above zero, exactly when the percentage used is above
    100.  For a limit that is not above zero the percentage used is 0: the
    division is not made. *)
Theorem listed_budgets_are_own_and_consistent (faults : nat -> option error)
    (today userId : Z) (p : Budgets.list_params) (d : database)
    (items : list Budgets.listed) (item : Budgets.listed) :
  data (Budgets.list_budgets faults today userId p d) = Some items ->
  In item items ->
  (exists b, In b (budgets d)
             /\ budget_user_id b = userId
             /\ budget_is_active b = true
             /\ Budgets.listed_id item = budget_id b
             /\ Budgets.listed_totalLimit item = total_budget b)
  /\ (0 <= Budgets.totalSpent item)%Q
  /\ Budgets.listed_remainingAmount item
     = (Budgets.listed_totalLimit item - Budgets.totalSpent item)%Q
  /\ (Budgets.isOverBudget item = true
      <-> (Budgets.listed_remainingAmount item < 0)%Q)
  /\ ((0 < Budgets.listed_totalLimit item)%Q ->
      (Budgets.isOverBudget item = true <-> (100 < Budgets.percentUsed item)%Q))
  /\ (~ (0 < Budgets.listed_totalLimit item)%Q -> Budgets.percentUsed item = 0%Q).
Proof.
  intros Hdata Hin. unfold Budgets.list_budgets in Hdata.
  apply asyncHandler_data in Hdata. destruct Hdata as (r & Hr & Hd). revert Hr Hd.
  unfold_statements.
  destruct (faults 0%nat); simpl; [discriminate|].
  destruct (faults 1%nat); simpl; [discriminate|].
  destruct (faults 2%nat); simpl; [discriminate|].
  intros Hr Hd. injection Hr as <-. simpl in Hd. injection Hd as <-.
  apply in_map_iff in Hin. destruct Hin as (b & <- & Hb).
  unfold Budgets.select_budgets in Hb. apply order_by_In in Hb.
  apply filter_In in Hb. destruct Hb as [Hb Hc].
  unfold Budgets.list_condition in Hc.
  apply andb_prop in Hc. destruct Hc as [Hc _].
  apply andb_prop in Hc. destruct Hc as [Hc _].
  apply andb_prop in Hc. destruct Hc as [Hc _].
  apply andb_prop in Hc. destruct Hc as [Hown Hactive]. apply Z.eqb_eq in Hown.
  pose proof (total_spent_nonnegative b d) as Hspent.
  unfold Budgets.listed_of. simpl.
  split; [exists b; auto|]. split; [exact Hspent|]. split; [reflexivity|].
  split; [|split].
  - rewrite Qltb_lt. split; intro H; lra.
  - intro Hpos. rewrite Qltb_lt.
    assert (Hguard : Qltb 0 (total_budget b) = true) by (apply Qltb_lt; exact Hpos).
    rewrite Hguard. apply over_budget_percent. exact Hpos.
  - intro Hnot.
    destruct (Qltb 0 (total_budget b)) eqn:E; [|reflexivity].
    apply Qltb_lt in E. contradiction.
Qed.

Lemma listed_budgets_witness :
  match data (Budgets.list_budgets no_faults 10 1
                {| Budgets.active := None; Budgets.filter_startDate := None;
                   Budgets.filter_endDate := None |} Examples.household) with
  | Some items =>
      Forall (fun item => Budgets.isOverBudget item = true
                          <-> (100 < Budgets.percentUsed item)%Q) items
      /\ List.length items = 1%nat
  | None => False
  end.
Proof.
  destruct (data (Budgets.list_budgets no_faults 10 1
                    {| Budgets.active := None; Budgets.filter_startDate := None;
                       Budgets.filter_endDate := None |} Examples.household))
    as [items|] eqn:E; [|vm_compute in E; discriminate].
  split.
  - apply Forall_forall. intros item Hin.
    destruct (listed_budgets_are_own_and_consistent no_faults 10 1 _ _ items item E Hin)
      as ((b & _ & _ & _ & _ & Hlimit) & _ & _ & _ & Hover & _).
    apply Hover.
    vm_compute in E. injection E as <-.
    destruct Hin as [<- | []]. reflexivity.
  - vm_compute in E. injection E as <-. reflexivity.
Defined.

(* ================================================================== *)
(** ** Signed amounts in the budget detail *)

Lemma add_to_group_members {R K : Type} (eqb : K -> K -> bool) (k : K) (r : R)
    (groups : list (K * list R)) (P : R -> Prop) :
  P r ->
  (forall g, In g groups -> Forall P (snd g)) ->
  forall g, In g (add_to_group eqb k r groups) -> Forall P (snd g).
Proof.
  intros Hr. induction groups as [|[k' rs] groups IH]; simpl; intros Hg g Hin.
  - destruct Hin as [<-|[]]. simpl. constructor; [exact Hr|constructor].
  - destruct (eqb k k').
    + destruct Hin as [<-|Hin].
      * simpl. constructor; [exact Hr|]. exact (Hg (k', rs) (or_introl eq_refl)).
      * apply Hg. right. exact Hin.
    + destruct Hin as [<-|Hin].
      * exact (Hg (k', rs) (or_introl eq_refl)).
      * apply IH; [|exact Hin]. intros g' Hg'. apply Hg. right. exact Hg'.
Qed.

Lemma group_by_members {R K : Type} (eqb : K -> K -> bool) (key : R -> K)
    (rows : list R) (P : R -> Prop) :
  Forall P rows ->
  forall g, In g (group_by eqb key rows) -> Forall P (snd g).
Proof.
  induction rows as [|r rows IH]; simpl; intros Hall g Hin; [contradiction|].
  inversion Hall as [|? ? Hr Hrows]; subst.
  apply (add_to_group_members eqb (key r) r (group_by eqb key rows) P Hr); [|exact Hin].
  intros g' Hg'. apply IH; assumption.
Qed.

Lemma left_join_matched {A B : Type} (on : A -> B -> bool) (l : list A) (r : list B)
    (a : A) (b : B) :
  In (a, Some b) (left_join on l r) -> In b r /\ on a b = true.
Proof.
  unfold left_join. rewrite in_flat_map. intros (a' & _ & Hin).
  destruct (filter (on a') r) as [|m ms] eqn:E.
  - destruct Hin as [Hin|[]]. discriminate.
  - apply in_map_iff in Hin. destruct Hin as (b' & Heq & Hb').
    inversion Heq; subst. rewrite <- E in Hb'. apply filter_In in Hb'. exact Hb'.
Qed.

Lemma sum_amounts_not_positive {A : Type} (rows : list (A * option transaction)) :
  Forall (fun r => match snd r with
                   | Some t => (transaction_amount t <= 0)%Q
                   | None => True
                   end) rows ->
  (Budgets.sum_amounts rows <= 0)%Q.
Proof.
  unfold Budgets.sum_amounts. induction 1 as [|[a [t|]] rows Hr Hrows IH]; simpl in *; lra.
Qed.

(** X19.  The budget detail adds the amounts of a category with their
    sign, while the total spent adds absolute amounts.  The receipt route
    writes every expense with an amount that is not above zero, and keeps a
    ledger in which all expenses are so; on such a ledger no category of
    any budget detail shows a spent amount above zero, its remaining amount
    is never below its allocation, and the total spent is still not
    negative. *)
Theorem receipt_expenses_never_use_an_allocation :
  (forall faults connected req d,
     Ledger.expenses_negative d ->
     Ledger.expenses_negative
       (snd (fst (Receipts.create_transaction faults connected req d))))
  /\ (forall d,
        Ledger.expenses_negative d ->
        forall name_leb faults userId budgetId det,
          data (Budgets.get_budget name_leb faults userId budgetId d) = Some det ->
          (0 <= Budgets.detail_totalSpent det)%Q
          /\ Forall (fun c =>
                       (Budgets.spentAmount c <= 0)%Q
                       /\ (Budgets.allocatedAmount_of c <= Budgets.remainingAmount_of c)%Q)
               (Budgets.detail_categories det)).
Proof.
  split.
  - intros faults connected req d Hneg. unfold Receipts.create_transaction.
    destruct (Receipts.validation_errors req); simpl; [|exact Hneg].
    destruct connected; simpl; [|exact Hneg].
    unfold Receipts.post. unfold_statements.
    assert (Hrow : Forall (fun t => transaction_type t = "EXPENSE"%string ->
                                    (transaction_amount t <= 0)%Q)
                     (transactions d ++ [fst (Receipts.insert_transaction req d)])).
    { apply Forall_app. split; [exact Hneg|]. constructor; [|constructor].
      intros _. simpl. pose proof (Qabs_nonneg (Receipts.amount req)). lra. }
    destruct (faults 0%nat); simpl; [exact Hneg|].
    destruct (Receipts.select_receipt req d); simpl; [exact Hneg|].
    destruct (faults 1%nat); simpl; [exact Hneg|].
    destruct (faults 2%nat); simpl; exact Hrow.
  - intros d Hneg name_leb faults userId budgetId det Hdata.
    unfold Budgets.get_budget in Hdata.
    apply asyncHandler_data in Hdata. destruct Hdata as (r & Hr & Hd). revert Hr Hd.
    unfold_statements.
    destruct (faults 0%nat); simpl; [discriminate|].
    destruct (faults 1%nat); simpl; [discriminate|].
    destruct (faults 2%nat); simpl; [discriminate|].
    destruct (Budgets.select_budget userId budgetId d) as [|b bs]; simpl.
    { intros Hr Hd. injection Hr as <-. discriminate. }
    destruct (faults 3%nat); simpl; [discriminate|].
    intros Hr Hd. injection Hr as <-. simpl in Hd. injection Hd as <-. simpl.
    split; [apply total_spent_nonnegative|].
    apply Forall_forall. intros c Hc. apply in_map_iff in Hc.
    destruct Hc as ([[[[i allocated] n] ty] spent] & <- & Hrow). simpl.
    assert (Hspent : (spent <= 0)%Q).
    { unfold Budgets.select_categories in Hrow. apply order_by_In in Hrow.
      apply in_map_iff in Hrow. destruct Hrow as ([k rows] & Heq & Hg).
      injection Heq as _ <-. simpl.
      apply sum_amounts_not_positive.
      apply (group_by_members Budgets.category_key_eqb Budgets.category_key_of
               (Budgets.category_join userId (start_date b) (end_date b) budgetId d)
               _ ) with (g := (k, rows)); [|exact Hg].
      apply Forall_forall. intros [[bc cat] [t|]] Hin; simpl; [|exact I].
      unfold Budgets.category_join in Hin. apply filter_In in Hin.
      destruct Hin as [Hin _]. apply left_join_matched in Hin.
      destruct Hin as [Ht Hon]. simpl in Hon. unfold Budgets.spending_of in Hon.
      apply andb_prop in Hon. destruct Hon as [Hon _].
      apply andb_prop in Hon. destruct Hon as [Hon _].
      apply andb_prop in Hon. destruct Hon as [_ Hty]. apply String.eqb_eq in Hty.
      unfold Ledger.expenses_negative in Hneg. rewrite Forall_forall in Hneg.
      exact (Hneg t Ht Hty). }
    split; lra.
Qed.

(* ================================================================== *)
(** ** Listing transactions *)

Lemma newest_first_total (g : Directory.registry) (x y : TransactionList.row) :
  TransactionList.newest_first g x y = true \/ TransactionList.newest_first g y x = true.
Proof.
  unfold TransactionList.newest_first. cbv zeta.
  rewrite !orb_true_iff, !andb_true_iff, !Z.ltb_lt, !Z.eqb_eq, !Z.leb_le. lia.
Qed.

Lemma newest_first_trans (g : Directory.registry) (x y z : TransactionList.row) :
  TransactionList.newest_first g x y = true ->
  TransactionList.newest_first g y z = true ->
  TransactionList.newest_first g x z = true.
Proof.
  unfold TransactionList.newest_first. cbv zeta.
  rewrite !orb_true_iff, !andb_true_iff, !Z.ltb_lt, !Z.eqb_eq, !Z.leb_le. lia.
Qed.

Lemma newest_first_dates (g : Directory.registry) (x y : TransactionList.row) :
  TransactionList.newest_first g x y = true ->
  transaction_date (fst (fst (fst y))) <= transaction_date (fst (fst (fst x))).
Proof.
  unfold TransactionList.newest_first. cbv zeta.
  rewrite !orb_true_iff, !andb_true_iff, !Z.ltb_lt, !Z.eqb_eq, !Z.leb_le. lia.
Qed.

Lemma sorted_skipn {A : Type} (R : A -> A -> Prop) (n : nat) (l : list A) :
  StronglySorted R l -> StronglySorted R (skipn n l).
Proof.
  revert l. induction n as [|n IH]; intros l H; [exact H|].
  destruct l as [|a l]; [exact H|].
  simpl. apply IH. inversion H; assumption.
Qed.

Lemma firstn_In {A : Type} (n : nat) (l : list A) (x : A) :
  In x (firstn n l) -> In x l.
Proof.
  intro H. rewrite <- (firstn_skipn n l). apply in_or_app. left. exact H.
Qed.

Lemma sorted_firstn {A : Type} (R : A -> A -> Prop) (n : nat) (l : list A) :
  StronglySorted R l -> StronglySorted R (firstn n l).
Proof.
  revert l. induction n as [|n IH]; intros l H; [constructor|].
  destruct l as [|a l]; [constructor|].
  simpl. inversion H as [|? ? Hs Hall]; subst. constructor.
  - apply IH, Hs.
  - rewrite Forall_forall in *. intros b Hb. apply Hall.
    apply (firstn_In n l b Hb).
Qed.

Lemma sorted_map {A B : Type} (R : A -> A -> Prop) (S : B -> B -> Prop) (f : A -> B)
    (l : list A) :
  (forall x y, R x y -> S (f x) (f y)) ->
  StronglySorted R l -> StronglySorted S (map f l).
Proof.
  intros Hf. induction 1 as [|a l Hs IH Hall]; simpl; constructor.
  - exact IH.
  - rewrite Forall_forall in *. intros b Hb.
    apply in_map_iff in Hb. destruct Hb as (x & <- & Hx). auto.
Qed.

Lemma page_In {A : Type} (n m : nat) (l : list A) (x : A) :
  In x (firstn n (skipn m l)) -> In x l.
Proof.
  intro H. apply firstn_In in H.
  rewrite <- (firstn_skipn m l). apply in_or_app. right. exact H.
Qed.

Lemma matching_In (g : Directory.registry) (req : TransactionList.request)
    (d : database) (t : transaction) (a : account) (ty : Directory.account_type)
    (c : category) :
  In (t, a, ty, c) (TransactionList.matching g req d) ->
  In t (transactions d) /\ In a (accounts d) /\ In c (categories d)
  /\ transaction_account_id t = account_id a
  /\ transaction_category_id t = category_id c
  /\ TransactionList.whereClause req t a = true.
Proof.
  unfold TransactionList.matching. rewrite filter_In.
  intros [Hin Hwhere].
  apply join_In in Hin. destruct Hin as (Hin & Hc & Hon).
  apply join_In in Hin. destruct Hin as (Hin & _ & _).
  apply join_In in Hin. destruct Hin as (Ht & Ha & Hjoin).
  simpl in Hon. apply Z.eqb_eq in Hon, Hjoin. tauto.
Qed.

Lemma holds_some (filter : option Z) (test : Z -> bool) (v : Z) :
  TransactionList.holds filter test = true -> filter = Some v -> test v = true.
Proof. intros H ->. exact H. Qed.

(** [Math.ceil(total / limit)] exceeds [page] exactly when [page] full pages
    do not exhaust the records. *)
Lemma ceiling_exceeds (page total limit : Z) :
  1 <= limit ->
  (page < - ((- total) / limit) <-> page * limit < total).
Proof.
  intro Hl.
  pose proof (Z.div_mod (- total) limit ltac:(lia)) as Hdm.
  pose proof (Z.mod_pos_bound (- total) limit ltac:(lia)) as Hb.
  set (q := (- total) / limit) in *. set (m := (- total) mod limit) in *.
  split; intro H; nia.
Qed.

Lemma js_lt_pages (page total limit : Z) :
  1 <= limit ->
  (TransactionList.js_lt page (TransactionList.totalPages_of total limit) = true
   <-> page * limit < total).
Proof.
  intro Hl. unfold TransactionList.totalPages_of.
  destruct (limit =? 0) eqn:E; [apply Z.eqb_eq in E; lia|].
  simpl. rewrite Qltb_lt, <- Zlt_Qlt. apply ceiling_exceeds, Hl.
Qed.

(** What [router.get('/')] answers: the answer of the [catch] block, or the
    page cut from the ordered rows and the count. *)
Lemma list_transactions_cases (faults : nat -> option error) (g : Directory.registry)
    (req : TransactionList.request) (d : database) :
  let r := TransactionList.list_transactions faults g req d in
  r = failure 500 (Text "Failed to load transactions")
  \/ (0 <= TransactionList.limit_of req /\ 0 <= TransactionList.offset req
      /\ exists l,
           data r = Some l /\ success r = true
           /\ TransactionList.listed l
              = map (TransactionList.item_of g)
                  (firstn (Z.to_nat (TransactionList.limit_of req))
                     (skipn (Z.to_nat (TransactionList.offset req))
                        (order_by (TransactionList.newest_first g)
                           (TransactionList.matching g req d))))
           /\ TransactionList.totalRecords (TransactionList.paging l)
              = TransactionList.select_count req d
           /\ TransactionList.hasNextPage (TransactionList.paging l)
              = TransactionList.js_lt (TransactionList.page_of req)
                  (TransactionList.totalPages_of (TransactionList.select_count req d)
                     (TransactionList.limit_of req))
           /\ TransactionList.hasPreviousPage (TransactionList.paging l)
              = (1 <? TransactionList.page_of req)).
Proof.
  cbv zeta. unfold TransactionList.list_transactions, TransactionList.get_body,
    TransactionList.select_transactions.
  unfold_statements.
  destruct (faults 0%nat); simpl; [left; reflexivity|].
  destruct (faults 1%nat); simpl; [left; reflexivity|].
  destruct (faults 2%nat); simpl; [left; reflexivity|].
  destruct (TransactionList.limit_of req <? 0) eqn:Hlimit; simpl; [left; reflexivity|].
  destruct (TransactionList.offset req <? 0) eqn:Hoffset; simpl; [left; reflexivity|].
  destruct (faults 3%nat); simpl; [left; reflexivity|].
  right. apply Z.ltb_ge in Hlimit, Hoffset.
  split; [exact Hlimit|]. split; [exact Hoffset|].
  eexists. repeat split.
Qed.

(** X20.  [GET /transactions] lists only transactions booked on an account
    of the caller: every entry of an answer is a stored transaction whose
    account belongs to the caller and which passes each filter of the
    request; the page holds at most [limit] entries, newest date first.
    Every answer without success is the one of the [catch] block and
    carries no data. *)
Theorem listed_transactions_are_the_callers (faults : nat -> option error)
    (g : Directory.registry) (req : TransactionList.request) (d : database) :
  let r := TransactionList.list_transactions faults g req d in
  (forall l,
     data r = Some l ->
     (List.length (TransactionList.listed l)
      <= Z.to_nat (TransactionList.limit_of req))%nat
     /\ StronglySorted
          (fun i j => TransactionList.date j <= TransactionList.date i)
          (TransactionList.listed l)
     /\ forall i,
          In i (TransactionList.listed l) ->
          exists t a,
            In t (transactions d) /\ In a (accounts d)
            /\ transaction_account_id t = account_id a
            /\ account_user_id a = TransactionList.user_id req
            /\ TransactionList.id i = transaction_id t
            /\ TransactionList.amount i = transaction_amount t
            /\ TransactionList.holder_id (TransactionList.account_of i) = account_id a
            /\ (forall v, TransactionList.accountId req = Some v ->
                          transaction_account_id t = v)
            /\ (forall v, TransactionList.categoryId req = Some v ->
                          transaction_category_id t = v)
            /\ (forall v, TransactionList.startDate req = Some v ->
                          v <= transaction_date t)
            /\ (forall v, TransactionList.endDate req = Some v ->
                          transaction_date t <= v))
  /\ (success r = false ->
      data r = None /\ msg r = Some (Text "Failed to load transactions")).
Proof.
  cbv zeta.
  destruct (list_transactions_cases faults g req d)
    as [-> | (_ & _ & l & Hdata & Hsuccess & Hlisted & _)].
  { split; [discriminate | intros _; split; reflexivity]. }
  split; [|rewrite Hsuccess; discriminate].
  intros l' Hl'. rewrite Hdata in Hl'. injection Hl' as <-.
  rewrite Hlisted. split; [|split].
  - rewrite length_map. apply firstn_le_length.
  - apply (sorted_map (fun x y => TransactionList.newest_first g x y = true)).
    + intros [[[t a] ty] c] [[[t' a'] ty'] c'] H.
      apply newest_first_dates in H. exact H.
    + apply sorted_firstn, sorted_skipn, order_by_sorted.
      * apply newest_first_total.
      * apply newest_first_trans.
  - intros i Hi. apply in_map_iff in Hi.
    destruct Hi as ([[[t a] ty] c] & <- & Hin).
    apply page_In, order_by_In, matching_In in Hin.
    destruct Hin as (Ht & Ha & _ & Hjoin & _ & Hwhere).
    unfold TransactionList.whereClause in Hwhere.
    apply andb_prop in Hwhere. destruct Hwhere as [Hwhere Hend].
    apply andb_prop in Hwhere. destruct Hwhere as [Hwhere Hstart].
    apply andb_prop in Hwhere. destruct Hwhere as [Hwhere _].
    apply andb_prop in Hwhere. destruct Hwhere as [Hwhere Hcategory].
    apply andb_prop in Hwhere. destruct Hwhere as [Howner Haccount].
    apply Z.eqb_eq in Howner.
    exists t, a. simpl.
    repeat split; try assumption.
    + intros v Hv. apply Z.eqb_eq. exact (holds_some _ _ v Haccount Hv).
    + intros v Hv. apply Z.eqb_eq. exact (holds_some _ _ v Hcategory Hv).
    + intros v Hv. apply Z.leb_le. exact (holds_some _ _ v Hstart Hv).
    + intros v Hv. apply Z.leb_le. exact (holds_some _ _ v Hend Hv).
Qed.

(** X21.  For a [limit] of at least one, the pagination of
    [GET /transactions] reports as [totalRecords] the count of the caller's
    transactions that pass the filters, offers a next page exactly when
    [page] full pages do not exhaust them, and a previous page exactly when
    [page] exceeds one. *)
Theorem next_page_exactly_when_records_remain (faults : nat -> option error)
    (g : Directory.registry) (req : TransactionList.request) (d : database)
    (l : TransactionList.listing) :
  1 <= TransactionList.limit_of req ->
  data (TransactionList.list_transactions faults g req d) = Some l ->
  TransactionList.totalRecords (TransactionList.paging l)
  = TransactionList.select_count req d
  /\ (TransactionList.hasNextPage (TransactionList.paging l) = true
      <-> TransactionList.page_of req * TransactionList.limit_of req
          < TransactionList.select_count req d)
  /\ (TransactionList.hasPreviousPage (TransactionList.paging l) = true
      <-> 1 < TransactionList.page_of req).
Proof.
  intros Hlimit Hl.
  destruct (list_transactions_cases faults g req d)
    as [Hfail | (_ & _ & l' & Hdata & _ & _ & Htotal & Hnext & Hprevious)].
  { cbv zeta in Hfail. rewrite Hfail in Hl. discriminate. }
  rewrite Hdata in Hl. injection Hl as <-.
  split; [exact Htotal|]. split.
  - rewrite Hnext. apply js_lt_pages, Hlimit.
  - rewrite Hprevious. apply Z.ltb_lt.
Qed.

Lemma next_page_exactly_when_records_remain_witness :
  let g := {| Directory.users := [];
              Directory.account_types :=
                [{| Directory.type_id := 1; Directory.type_name := "Checking" |}];
              Directory.account_type_id := fun _ => Some 1;
              Directory.category_user_id := fun _ => None;
              Directory.category_is_system := fun _ => true;
              Directory.transaction_created_date := fun id => id |} in
  let req := {| TransactionList.user_id := 1;
                TransactionList.accountId := None;
                TransactionList.categoryId := None;
                TransactionList.transactionType := None;
                TransactionList.startDate := None;
                TransactionList.endDate := None;
                TransactionList.page := Some 1;
                TransactionList.limit := Some 1 |} in
  match data (TransactionList.list_transactions no_faults g req Examples.household) with
  | Some l =>
      map TransactionList.id (TransactionList.listed l) = [2]
      /\ TransactionList.totalRecords (TransactionList.paging l) = 2
      /\ TransactionList.hasNextPage (TransactionList.paging l) = true
  | None => False
  end.
Proof.
  intros g req.
  destruct (data (TransactionList.list_transactions no_faults g req Examples.household))
    as [l|] eqn:E; [|vm_compute in E; discriminate].
  destruct (next_page_exactly_when_records_remain no_faults g req Examples.household l
              ltac:(vm_compute; discriminate) E) as (Htotal & Hnext & _).
  split; [vm_compute in E; injection E as <-; reflexivity|].
  split; [rewrite Htotal; reflexivity|].
  apply Hnext. vm_compute. reflexivity.
Defined.
